(** * 3D Ball Adventure: the gameplay core, embedded and verified

    A shallow embedding of the gameplay logic of the repository
    (js/player.js, js/level.js, js/obstacles.js, js/game.js, the
    collectibles manager and the physics bridge), followed by the
    properties of the specification that concern it.

    Conventions of the embedding.
    - A JavaScript number is a real number: arithmetic is exact, [Math.sqrt]
      is [sqrt], a comparison is its decision on [R].  Rounding of IEEE
      doubles is outside the model.
    - A JavaScript object is a record; a method that mutates [this] is a
      function returning the new record.  Methods that reach the browser
      (timers, callbacks, the scene graph) thread a [Host.t].
    - The scene graph (particles, colours, stripe scale) carries no gameplay
      state: an effect that only touches it appears as an event of the host
      trace, in program order.
    - CANNON.Body is a library object; the few methods the game calls on it
      are modelled in [Body] after the library's documentation. *)

From Stdlib Require Import ZArith String.
From Stdlib Require Import Reals Lra Lia List Bool Arith.
Import ListNotations.

Open Scope R_scope.

(** ** Numbers and comparisons *)

Definition Rltb (a b : R) : bool := if Rlt_dec a b then true else false.
Definition Rleb (a b : R) : bool := if Rle_dec a b then true else false.
Definition Rgtb (a b : R) : bool := Rltb b a.
Definition Rgeb (a b : R) : bool := Rleb b a.
Definition Rneqb (a b : R) : bool := if Req_dec_T a b then false else true.

(** [Math.abs] *)
Definition Math_abs (a : R) : R := Rabs a.

(** ** Vectors *)

Module Vec3.
Record t : Type := mk { x : R; y : R; z : R }.

Definition zero : t := mk 0 0 0.

(** [CANNON.Vec3.prototype.length] *)
Definition length (v : t) : R := sqrt (x v * x v + y v * y v + z v * z v).

(** [Vec3.prototype.scale], the scalar multiple *)
Definition scale (k : R) (v : t) : t := mk (x v * k) (y v * k) (z v * k).

Definition add (u v : t) : t := mk (x u + x v) (y u + y v) (z u + z v).
End Vec3.

Module Vec2.
(** [moveDirection] of the player: an object with the two properties x, z. *)
Record t : Type := mk { x : R; z : R }.
End Vec2.

(** ** The rigid body (CANNON.Body, as far as the game uses it) *)

Module Body.
Record t : Type := mk {
  position : Vec3.t;
  velocity : Vec3.t;
  angularVelocity : Vec3.t;
  force : Vec3.t;
  invMass : R;
  collisionResponse : bool
}.

Definition set_position (v : Vec3.t) (b : t) : t :=
  mk v (velocity b) (angularVelocity b) (force b) (invMass b) (collisionResponse b).
Definition set_velocity (v : Vec3.t) (b : t) : t :=
  mk (position b) v (angularVelocity b) (force b) (invMass b) (collisionResponse b).
Definition set_angularVelocity (v : Vec3.t) (b : t) : t :=
  mk (position b) (velocity b) v (force b) (invMass b) (collisionResponse b).
Definition set_force (v : Vec3.t) (b : t) : t :=
  mk (position b) (velocity b) (angularVelocity b) v (invMass b) (collisionResponse b).
Definition set_collisionResponse (v : bool) (b : t) : t :=
  mk (position b) (velocity b) (angularVelocity b) (force b) (invMass b) v.

(** [new CANNON.Body({mass, position})]: at rest, no accumulated force. *)
Definition create (mass : R) (pos : Vec3.t) : t :=
  mk pos Vec3.zero Vec3.zero Vec3.zero
     (if Rgtb mass 0 then / mass else 0) true.

(** [body.applyForce(f, body.position)]: the force is accumulated for the
    next world step; applied at the centre of mass it adds no torque, and the
    velocity is not touched before the world integrates. *)
Definition applyForce (f : Vec3.t) (b : t) : t :=
  set_force (Vec3.add (force b) f) b.

(** [body.applyImpulse(j, body.position)]: an immediate change of velocity
    by [j / mass]; applied at the centre of mass it adds no spin. *)
Definition applyImpulse (j : Vec3.t) (b : t) : t :=
  set_velocity (Vec3.add (velocity b) (Vec3.scale (invMass b) j)) b.
End Body.

(** ** The host: wall clock, pending timeouts, observable effects *)

(** The closures the game hands to [setTimeout] that change gameplay state
    (player.js, giveJumpPower and giveSpeedBoost). *)
Inductive TimerAction : Type :=
| ExpireJumpPower
| ExpireSpeedBoost.

(** A registered callback is identified by a handle. *)
Definition Callback : Type := nat.

Inductive CollectibleType : Type :=
| COIN
| JUMP_POWER
| SPEED_BOOST
| CHECKPOINT.

Inductive Event : Type :=
| EvJumpEffect
| EvDeathEffect
| EvOnDeath (cb : Callback)
| EvCollectionEffect (ty : CollectibleType)
| EvSceneRemove (ty : CollectibleType)
| EvCoinCollected (cb : Callback) (value : R)
| EvCheckpointActivated (cb : Callback) (at_ : Vec3.t)
| EvCollectible (cb : Callback) (ty : CollectibleType).

Module Host.
Record Timer : Type := mkTimer { tid : nat; due : R; action : TimerAction }.

Record t : Type := mk {
  now : R;                 (* wall clock, in milliseconds *)
  timers : list Timer;     (* pending timeouts, in order of registration *)
  nextTimer : nat;         (* next handle; handles are positive *)
  trace : list Event       (* effects observed so far, oldest first *)
}.

Definition init : t := mk 0 [] 1 [].

Definition emit (e : Event) (h : t) : t :=
  mk (now h) (timers h) (nextTimer h) (trace h ++ [e]).

(** [setTimeout(action, delay)] returns the new handle. *)
Definition setTimeout (a : TimerAction) (delay : R) (h : t) : nat * t :=
  (nextTimer h,
   mk (now h) (timers h ++ [mkTimer (nextTimer h) (now h + delay) a])
      (S (nextTimer h)) (trace h)).

(** [clearTimeout(id)] *)
Definition clearTimeout (id : nat) (h : t) : t :=
  mk (now h) (filter (fun tm => negb (Nat.eqb (tid tm) id)) (timers h))
     (nextTimer h) (trace h).

Definition isDue (at_ : R) (tm : Timer) : bool := Rleb (due tm) at_.

(** Timeouts run in order of their due time, ties in order of
    registration. *)
Fixpoint insertByDue (tm : Timer) (l : list Timer) : list Timer :=
  match l with
  | [] => [tm]
  | u :: l' => if Rltb (due tm) (due u) then tm :: l
               else u :: insertByDue tm l'
  end.

Definition sortByDue (l : list Timer) : list Timer :=
  fold_left (fun acc tm => insertByDue tm acc) l [].
End Host.

(** ** The player controller (js/player.js) *)

(** The per-frame intent snapshot, [inputState] of the game. *)
Record InputState : Type := mkInput {
  forward : bool;
  backward : bool;
  left : bool;
  right : bool;
  jumpKey : bool       (* the property [jump] *)
}.

Module Player.
Record t : Type := mk {
  radius : R;
  spawnPosition : Vec3.t;
  moveForce : R;
  jumpForce : R;
  maxSpeed : R;
  canJump : bool;
  isJumping : bool;
  jumpCooldown : R;
  moveDirection : Vec2.t;
  isMoving : bool;
  hasJumpPower : bool;
  hasSpeedBoost : bool;
  speedBoostFactor : R;
  trailActive : bool;
  jumpPowerTimeout : option nat;     (* [None] is null or undefined *)
  speedBoostTimeout : option nat;
  onDeath : option Callback;
  body : Body.t;
  meshPosition : Vec3.t              (* [this.mesh.position] *)
}.

Definition set_spawnPosition (v : Vec3.t) (p : t) : t :=
  mk (radius p) v (moveForce p) (jumpForce p) (maxSpeed p) (canJump p) (isJumping p) (jumpCooldown p) (moveDirection p) (isMoving p) (hasJumpPower p) (hasSpeedBoost p) (speedBoostFactor p) (trailActive p) (jumpPowerTimeout p) (speedBoostTimeout p) (onDeath p) (body p) (meshPosition p).

Definition set_canJump (v : bool) (p : t) : t :=
  mk (radius p) (spawnPosition p) (moveForce p) (jumpForce p) (maxSpeed p) v (isJumping p) (jumpCooldown p) (moveDirection p) (isMoving p) (hasJumpPower p) (hasSpeedBoost p) (speedBoostFactor p) (trailActive p) (jumpPowerTimeout p) (speedBoostTimeout p) (onDeath p) (body p) (meshPosition p).

Definition set_isJumping (v : bool) (p : t) : t :=
  mk (radius p) (spawnPosition p) (moveForce p) (jumpForce p) (maxSpeed p) (canJump p) v (jumpCooldown p) (moveDirection p) (isMoving p) (hasJumpPower p) (hasSpeedBoost p) (speedBoostFactor p) (trailActive p) (jumpPowerTimeout p) (speedBoostTimeout p) (onDeath p) (body p) (meshPosition p).

Definition set_jumpCooldown (v : R) (p : t) : t :=
  mk (radius p) (spawnPosition p) (moveForce p) (jumpForce p) (maxSpeed p) (canJump p) (isJumping p) v (moveDirection p) (isMoving p) (hasJumpPower p) (hasSpeedBoost p) (speedBoostFactor p) (trailActive p) (jumpPowerTimeout p) (speedBoostTimeout p) (onDeath p) (body p) (meshPosition p).

Definition set_moveDirection (v : Vec2.t) (p : t) : t :=
  mk (radius p) (spawnPosition p) (moveForce p) (jumpForce p) (maxSpeed p) (canJump p) (isJumping p) (jumpCooldown p) v (isMoving p) (hasJumpPower p) (hasSpeedBoost p) (speedBoostFactor p) (trailActive p) (jumpPowerTimeout p) (speedBoostTimeout p) (onDeath p) (body p) (meshPosition p).

Definition set_isMoving (v : bool) (p : t) : t :=
  mk (radius p) (spawnPosition p) (moveForce p) (jumpForce p) (maxSpeed p) (canJump p) (isJumping p) (jumpCooldown p) (moveDirection p) v (hasJumpPower p) (hasSpeedBoost p) (speedBoostFactor p) (trailActive p) (jumpPowerTimeout p) (speedBoostTimeout p) (onDeath p) (body p) (meshPosition p).

Definition set_hasJumpPower (v : bool) (p : t) : t :=
  mk (radius p) (spawnPosition p) (moveForce p) (jumpForce p) (maxSpeed p) (canJump p) (isJumping p) (jumpCooldown p) (moveDirection p) (isMoving p) v (hasSpeedBoost p) (speedBoostFactor p) (trailActive p) (jumpPowerTimeout p) (speedBoostTimeout p) (onDeath p) (body p) (meshPosition p).

Definition set_hasSpeedBoost (v : bool) (p : t) : t :=
  mk (radius p) (spawnPosition p) (moveForce p) (jumpForce p) (maxSpeed p) (canJump p) (isJumping p) (jumpCooldown p) (moveDirection p) (isMoving p) (hasJumpPower p) v (speedBoostFactor p) (trailActive p) (jumpPowerTimeout p) (speedBoostTimeout p) (onDeath p) (body p) (meshPosition p).

Definition set_trailActive (v : bool) (p : t) : t :=
  mk (radius p) (spawnPosition p) (moveForce p) (jumpForce p) (maxSpeed p) (canJump p) (isJumping p) (jumpCooldown p) (moveDirection p) (isMoving p) (hasJumpPower p) (hasSpeedBoost p) (speedBoostFactor p) v (jumpPowerTimeout p) (speedBoostTimeout p) (onDeath p) (body p) (meshPosition p).

Definition set_jumpPowerTimeout (v : option nat) (p : t) : t :=
  mk (radius p) (spawnPosition p) (moveForce p) (jumpForce p) (maxSpeed p) (canJump p) (isJumping p) (jumpCooldown p) (moveDirection p) (isMoving p) (hasJumpPower p) (hasSpeedBoost p) (speedBoostFactor p) (trailActive p) v (speedBoostTimeout p) (onDeath p) (body p) (meshPosition p).

Definition set_speedBoostTimeout (v : option nat) (p : t) : t :=
  mk (radius p) (spawnPosition p) (moveForce p) (jumpForce p) (maxSpeed p) (canJump p) (isJumping p) (jumpCooldown p) (moveDirection p) (isMoving p) (hasJumpPower p) (hasSpeedBoost p) (speedBoostFactor p) (trailActive p) (jumpPowerTimeout p) v (onDeath p) (body p) (meshPosition p).

Definition set_onDeath (v : option Callback) (p : t) : t :=
  mk (radius p) (spawnPosition p) (moveForce p) (jumpForce p) (maxSpeed p) (canJump p) (isJumping p) (jumpCooldown p) (moveDirection p) (isMoving p) (hasJumpPower p) (hasSpeedBoost p) (speedBoostFactor p) (trailActive p) (jumpPowerTimeout p) (speedBoostTimeout p) v (body p) (meshPosition p).

Definition set_body (v : Body.t) (p : t) : t :=
  mk (radius p) (spawnPosition p) (moveForce p) (jumpForce p) (maxSpeed p) (canJump p) (isJumping p) (jumpCooldown p) (moveDirection p) (isMoving p) (hasJumpPower p) (hasSpeedBoost p) (speedBoostFactor p) (trailActive p) (jumpPowerTimeout p) (speedBoostTimeout p) (onDeath p) v (meshPosition p).

Definition set_meshPosition (v : Vec3.t) (p : t) : t :=
  mk (radius p) (spawnPosition p) (moveForce p) (jumpForce p) (maxSpeed p) (canJump p) (isJumping p) (jumpCooldown p) (moveDirection p) (isMoving p) (hasJumpPower p) (hasSpeedBoost p) (speedBoostFactor p) (trailActive p) (jumpPowerTimeout p) (speedBoostTimeout p) (onDeath p) (body p) v.


(** [this.isOnJumpPad]: [jump] reads the property, and no statement of the
    program ever assigns it, neither the constructor nor any other file; the
    lookup yields [undefined], which is falsy. *)
Definition isOnJumpPad (p : t) : bool := false.

(** [constructor(scene, physics, position)]; the sphere body has the default
    mass 1 of [createSphereBody]. *)
Definition create (position : Vec3.t) : t :=
  mk (1/2) position 20 12 10 false false 0 (Vec2.mk 0 0) false
     false false (3/2) false None None None
     (Body.create 1 position) position.

(** The 'collide' listener of [setupContactEvents]; [niy] is
    [event.contact.ni.y]. *)
Definition onCollide (niy : R) (p : t) : t :=
  if Rgtb niy (1/2) then set_isJumping false (set_canJump true p) else p.

(** [triggerJumpEffect]: particles in the scene only. *)
Definition triggerJumpEffect (h : Host.t) : Host.t := Host.emit EvJumpEffect h.

(** [jump()] *)
Definition jump (p : t) (h : Host.t) : t * Host.t :=
  if negb (canJump p) then (p, h)
  else if negb (hasJumpPower p) && negb (isOnJumpPad p) then (p, h)
  else
    let p1 := set_body (Body.applyImpulse (Vec3.mk 0 (jumpForce p) 0) (body p)) p in
    let p2 := set_canJump false p1 in
    let p3 := set_isJumping true p2 in
    let p4 := set_jumpCooldown (1/2) p3 in
    (p4, triggerJumpEffect h).

(** [processInput(inputState, deltaTime)] *)
Definition processInput (i : InputState) (p : t) (h : Host.t) : t * Host.t :=
  let dz0 := 0 in
  let dx0 := 0 in
  let dz1 := if forward i then dz0 - 1 else dz0 in
  let dz2 := if backward i then dz1 + 1 else dz1 in
  let dx1 := if left i then dx0 - 1 else dx0 in
  let dx2 := if right i then dx1 + 1 else dx1 in
  let p1 :=
    if Rneqb dx2 0 || Rneqb dz2 0 then
      if Rneqb dx2 0 && Rneqb dz2 0 then
        let len := sqrt (dx2 * dx2 + dz2 * dz2) in
        set_isMoving true (set_moveDirection (Vec2.mk (dx2 / len) (dz2 / len)) p)
      else set_isMoving true (set_moveDirection (Vec2.mk dx2 dz2) p)
    else set_isMoving false (set_moveDirection (Vec2.mk dx2 dz2) p) in
  if jumpKey i && canJump p1 && Rleb (jumpCooldown p1) 0 then jump p1 h
  else (p1, h).

(** [applyMovementForces(deltaTime)].  [velocity] aliases
    [this.body.velocity], so it is read after the force is applied; the
    rotation of the stripes is scene-only. *)
Definition applyMovementForces (deltaTime : R) (p : t) : t :=
  if isMoving p then
    let actualMoveForce :=
      if hasSpeedBoost p then moveForce p * speedBoostFactor p else moveForce p in
    let f := Vec3.mk (Vec2.x (moveDirection p) * actualMoveForce * deltaTime)
                     0
                     (Vec2.z (moveDirection p) * actualMoveForce * deltaTime) in
    let b1 := Body.applyForce f (body p) in
    let velocity := Body.velocity b1 in
    let horizontalVelocity := Vec3.mk (Vec3.x velocity) 0 (Vec3.z velocity) in
    let speed := Vec3.length horizontalVelocity in
    let maxSpeed' :=
      if hasSpeedBoost p then maxSpeed p * speedBoostFactor p else maxSpeed p in
    let b2 :=
      if Rgtb speed maxSpeed' then
        let scaleFactor := maxSpeed' / speed in
        Body.set_velocity
          (Vec3.mk (Vec3.x velocity * scaleFactor) (Vec3.y velocity)
                   (Vec3.z velocity * scaleFactor)) b1
      else b1 in
    set_trailActive (Rgtb speed (maxSpeed' * (7/10))) (set_body b2 p)
  else
    let v := Body.velocity (body p) in
    let b1 := Body.set_velocity
                (Vec3.mk (Vec3.x v * (95/100)) (Vec3.y v) (Vec3.z v * (95/100)))
                (body p) in
    set_trailActive false (set_body b1 p).

(** [removeAllPowerups()].  A timeout handle is a positive number; the
    tests [if (this.jumpPowerTimeout)] hold for a handle that is neither
    null nor 0. *)
Definition removeAllPowerups (p : t) (h : Host.t) : t * Host.t :=
  let p1 := set_hasSpeedBoost false (set_hasJumpPower false p) in
  let '(p2, h2) :=
    match jumpPowerTimeout p1 with
    | Some (S k) => (set_jumpPowerTimeout None p1, Host.clearTimeout (S k) h)
    | _ => (p1, h)
    end in
  match speedBoostTimeout p2 with
  | Some (S k) => (set_speedBoostTimeout None p2, Host.clearTimeout (S k) h2)
  | _ => (p2, h2)
  end.

(** [respawn()] *)
Definition respawn (p : t) (h : Host.t) : t * Host.t :=
  let b1 := Body.set_position
              (Vec3.mk (Vec3.x (spawnPosition p)) (Vec3.y (spawnPosition p))
                       (Vec3.z (spawnPosition p))) (body p) in
  let b2 := Body.set_velocity (Vec3.mk 0 0 0) b1 in
  let b3 := Body.set_angularVelocity (Vec3.mk 0 0 0) b2 in
  let p1 := set_body b3 p in
  let p2 := set_canJump false p1 in
  let p3 := set_isJumping false p2 in
  let p4 := set_jumpCooldown (1/2) p3 in
  removeAllPowerups p4 h.

(** [createDeathEffect]: particles in the scene only. *)
Definition createDeathEffect (h : Host.t) : Host.t := Host.emit EvDeathEffect h.

(** [die()] *)
Definition die (p : t) (h : Host.t) : t * Host.t :=
  let h1 := createDeathEffect h in
  let '(p2, h2) := respawn p h1 in
  match onDeath p2 with
  | Some cb => (p2, Host.emit (EvOnDeath cb) h2)
  | None => (p2, h2)
  end.

(** [checkBounds()] *)
Definition checkBounds (p : t) (h : Host.t) : t * Host.t :=
  if Rltb (Vec3.y (meshPosition p)) (-10) then die p h else (p, h).

(** [setSpawnPoint(position)] *)
Definition setSpawnPoint (position : Vec3.t) (p : t) : t :=
  set_spawnPosition position p.

(** [setOnDeathCallback(callback)] *)
Definition setOnDeathCallback (cb : Callback) (p : t) : t :=
  set_onDeath (Some cb) p.

(** [giveJumpPower(duration)]: the expiry is a timeout of
    [duration * 1000] milliseconds. *)
Definition giveJumpPower (duration : R) (p : t) (h : Host.t) : t * Host.t :=
  let p1 := set_hasJumpPower true p in
  let h1 := match jumpPowerTimeout p1 with
            | Some (S k) => Host.clearTimeout (S k) h
            | _ => h
            end in
  let '(id, h2) := Host.setTimeout ExpireJumpPower (duration * 1000) h1 in
  (set_jumpPowerTimeout (Some id) p1, h2).

(** [giveSpeedBoost(duration)] *)
Definition giveSpeedBoost (duration : R) (p : t) (h : Host.t) : t * Host.t :=
  let p1 := set_hasSpeedBoost true p in
  let h1 := match speedBoostTimeout p1 with
            | Some (S k) => Host.clearTimeout (S k) h
            | _ => h
            end in
  let '(id, h2) := Host.setTimeout ExpireSpeedBoost (duration * 1000) h1 in
  (set_speedBoostTimeout (Some id) p1, h2).

(** The bodies of the two timeout closures. *)
Definition fire (a : TimerAction) (p : t) : t :=
  match a with
  | ExpireJumpPower => set_jumpPowerTimeout None (set_hasJumpPower false p)
  | ExpireSpeedBoost => set_speedBoostTimeout None (set_hasSpeedBoost false p)
  end.

(** [update(deltaTime, inputState)].  [updateTrail] and [updatePowerups]
    only move particles and rescale the stripes. *)
Definition update (deltaTime : R) (i : InputState) (p : t) (h : Host.t)
  : t * Host.t :=
  let '(p1, h1) := processInput i p h in
  let p2 := applyMovementForces deltaTime p1 in
  let '(p3, h3) := checkBounds p2 h1 in
  let p4 := if Rgtb (jumpCooldown p3) 0
            then set_jumpCooldown (jumpCooldown p3 - deltaTime) p3 else p3 in
  (p4, h3).
End Player.

(** ** The event loop *)

(** The browser lets [ms] milliseconds of wall-clock time pass: every
    timeout that falls due runs, whether or not a frame is updated. *)
Definition elapse (ms : R) (p : Player.t) (h : Host.t) : Player.t * Host.t :=
  let at_ := Host.now h + ms in
  let ready := Host.sortByDue (filter (Host.isDue at_) (Host.timers h)) in
  let waiting := filter (fun tm => negb (Host.isDue at_ tm)) (Host.timers h) in
  (fold_left (fun q tm => Player.fire (Host.action tm) q) ready p,
   Host.mk at_ waiting (Host.nextTimer h) (Host.trace h)).

(** [PhysicsSystem.update(deltaTime)] seen from the player: the library's
    [world.step] leaves the body as [integrated], and the mesh takes the
    body's position. *)
Definition physicsUpdate (integrated : Body.t) (p : Player.t) : Player.t :=
  Player.set_meshPosition (Body.position integrated)
    (Player.set_body integrated p).

(** What can happen to the player between two observations. *)
Inductive Step : Type :=
| Frame (deltaTime : R) (i : InputState)     (* [player.update] *)
| Physics (integrated : Body.t)              (* [physics.update] *)
| Collide (niy : R)                          (* a 'collide' event *)
| PickJumpPower (duration : R)               (* [giveJumpPower] *)
| PickSpeedBoost (duration : R)              (* [giveSpeedBoost] *)
| Wait (ms : R).                             (* wall-clock time passes *)

Definition step (s : Step) (p : Player.t) (h : Host.t) : Player.t * Host.t :=
  match s with
  | Frame dt i => Player.update dt i p h
  | Physics b => (physicsUpdate b p, h)
  | Collide niy => (Player.onCollide niy p, h)
  | PickJumpPower d => Player.giveJumpPower d p h
  | PickSpeedBoost d => Player.giveSpeedBoost d p h
  | Wait ms => elapse ms p h
  end.

Fixpoint steps (l : list Step) (p : Player.t) (h : Host.t)
  : Player.t * Host.t :=
  match l with
  | [] => (p, h)
  | s :: l' => let '(p1, h1) := step s p h in steps l' p1 h1
  end.

(** A contact whose normal points upward, the one that grounds the ball. *)
Definition grounding (s : Step) : Prop :=
  match s with
  | Collide niy => 1/2 < niy
  | _ => False
  end.

(** Horizontal speed of the ball and the cap [applyMovementForces] uses. *)
Definition horizontalSpeed (p : Player.t) : R :=
  Vec3.length (Vec3.mk (Vec3.x (Body.velocity (Player.body p))) 0
                       (Vec3.z (Body.velocity (Player.body p)))).

Definition speedCap (p : Player.t) : R :=
  if Player.hasSpeedBoost p then Player.maxSpeed p * Player.speedBoostFactor p
  else Player.maxSpeed p.

(** Simulated time of a run of frames. *)
Definition total (dts : list R) : R := fold_right Rplus 0 dts.

(** ** The collectibles manager *)

Module Collectible.
(** [value] is read for coins only and [duration] for power-ups only; a
    property the factory leaves out is 0 here. *)
Record t : Type := mk {
  type : CollectibleType;
  meshPosition : Vec3.t;       (* [mesh.position] *)
  collected : bool;
  activated : bool;
  basePosition : Vec3.t;
  radius : R;
  value : R;
  duration : R
}.

Definition set_collected (v : bool) (c : t) : t :=
  mk (type c) (meshPosition c) v (activated c) (basePosition c) (radius c) (value c) (duration c).

Definition set_activated (v : bool) (c : t) : t :=
  mk (type c) (meshPosition c) (collected c) v (basePosition c) (radius c) (value c) (duration c).

(** [createCoin], [createJumpPower], [createSpeedBoost], [createCheckpoint] *)
Definition createCoin (position : Vec3.t) : t :=
  mk COIN position false false position (1/2) 10 0.
Definition createJumpPower (position : Vec3.t) : t :=
  mk JUMP_POWER position false false position (6/10) 0 10.
Definition createSpeedBoost (position : Vec3.t) : t :=
  mk SPEED_BOOST position false false position (6/10) 0 5.
Definition createCheckpoint (position : Vec3.t) : t :=
  mk CHECKPOINT position false false position 1 0 0.
End Collectible.

Module CollectiblesManager.
(** The callbacks of [setCallbacks]; [None] when none is registered. *)
Record t : Type := mk {
  collectibles : list Collectible.t;
  onCollectible : option Callback;
  onCoinCollected : option Callback;
  onCheckpointActivated : option Callback
}.

Definition notify (cb : option Callback) (e : Callback -> Event) (h : Host.t)
  : Host.t :=
  match cb with
  | Some k => Host.emit (e k) h
  | None => h
  end.

(** [createCollectionEffect]: particles in the scene only. *)
Definition createCollectionEffect (c : Collectible.t) (h : Host.t) : Host.t :=
  Host.emit (EvCollectionEffect (Collectible.type c)) h.

(** [collectItem(collectible, player)] *)
Definition collectItem (m : t) (c : Collectible.t) (p : Player.t) (h : Host.t)
  : Collectible.t * Player.t * Host.t :=
  let c1 := Collectible.set_collected true c in
  let h1 := createCollectionEffect c1 h in
  let '(c2, p2, h2) :=
    match Collectible.type c1 with
    | COIN =>
        let h' := notify (onCoinCollected m)
                    (fun k => EvCoinCollected k (Collectible.value c1)) h1 in
        (c1, p, Host.emit (EvSceneRemove COIN) h')
    | JUMP_POWER =>
        let '(p', h') := Player.giveJumpPower (Collectible.duration c1) p h1 in
        (c1, p', Host.emit (EvSceneRemove JUMP_POWER) h')
    | SPEED_BOOST =>
        let '(p', h') := Player.giveSpeedBoost (Collectible.duration c1) p h1 in
        (c1, p', Host.emit (EvSceneRemove SPEED_BOOST) h')
    | CHECKPOINT =>
        let '(c', p', h') :=
          if negb (Collectible.activated c1) then
            let ca := Collectible.set_activated true c1 in
            let spawnPosition :=
              Vec3.mk (Vec3.x (Collectible.meshPosition ca))
                      (Vec3.y (Collectible.meshPosition ca) + 1)
                      (Vec3.z (Collectible.meshPosition ca)) in
            let pa := Player.setSpawnPoint spawnPosition p in
            (ca, pa,
             notify (onCheckpointActivated m)
               (fun k => EvCheckpointActivated k (Collectible.meshPosition ca)) h1)
          else (c1, p, h1) in
        (Collectible.set_collected false c', p', h')
    end in
  (c2, p2, notify (onCollectible m)
                  (fun k => EvCollectible k (Collectible.type c2)) h2).

(** [THREE.Vector3.prototype.distanceTo] *)
Definition distanceTo (u v : Vec3.t) : R :=
  Vec3.length (Vec3.mk (Vec3.x u - Vec3.x v) (Vec3.y u - Vec3.y v)
                       (Vec3.z u - Vec3.z v)).

(** The loop of [checkCollisions(player)] over the collectibles. *)
Fixpoint checkEach (m : t) (l : list Collectible.t) (p : Player.t) (h : Host.t)
  : list Collectible.t * Player.t * Host.t :=
  match l with
  | [] => ([], p, h)
  | c :: l' =>
      let '(c1, p1, h1) :=
        if Collectible.collected c then (c, p, h)
        else
          let distance :=
            distanceTo (Player.meshPosition p) (Collectible.meshPosition c) in
          let collisionRadius := Collectible.radius c + Player.radius p in
          if Rltb distance collisionRadius then collectItem m c p h
          else (c, p, h) in
      let '(l1, p2, h2) := checkEach m l' p1 h1 in
      (c1 :: l1, p2, h2)
  end.

Definition checkCollisions (m : t) (p : Player.t) (h : Host.t)
  : t * Player.t * Host.t :=
  let '(l, p1, h1) := checkEach m (collectibles m) p h in
  (mk l (onCollectible m) (onCoinCollected m) (onCheckpointActivated m), p1, h1).
End CollectiblesManager.

(** ** The level manager (js/level.js) *)

(** The property names 'x', 'y', 'z' that [axis] takes in the level data. *)
Inductive Axis : Type := AxisX | AxisY | AxisZ.

Module RevolvingBar.
Record t : Type := mk {
  body : Body.t;
  rotationAxis : Vec3.t;
  rotationSpeed : R
}.
End RevolvingBar.

Module MovingPlatform.
Record t : Type := mk {
  body : Body.t;
  startPos : Vec3.t;
  axis : Axis;
  distance : R;
  speed : R;
  direction : R;
  progress : R
}.

Definition set_body (v : Body.t) (o : t) : t :=
  mk v (startPos o) (axis o) (distance o) (speed o) (direction o) (progress o).

Definition set_direction (v : R) (o : t) : t :=
  mk (body o) (startPos o) (axis o) (distance o) (speed o) v (progress o).

Definition set_progress (v : R) (o : t) : t :=
  mk (body o) (startPos o) (axis o) (distance o) (speed o) (direction o) v.

(** [data.field || fallback] on a number: undefined and 0 are falsy. *)
Definition orElse (field : option R) (fallback : R) : R :=
  match field with
  | Some v => if Rneqb v 0 then v else fallback
  | None => fallback
  end.

(** The 'movingPlatform' case of [createObstacle(data)]; the box body has
    mass 5. *)
Definition create (position : Vec3.t) (ax : option Axis) (dist spd : option R)
  : t :=
  mk (Body.create 5 position) position
     (match ax with Some a => a | None => AxisX end)
     (orElse dist 5) (orElse spd 1) 1 0.

(** [newPos[obstacle.axis] += delta] on a copy of [startPos] *)
Definition addAlong (ax : Axis) (delta : R) (v : Vec3.t) : Vec3.t :=
  match ax with
  | AxisX => Vec3.mk (Vec3.x v + delta) (Vec3.y v) (Vec3.z v)
  | AxisY => Vec3.mk (Vec3.x v) (Vec3.y v + delta) (Vec3.z v)
  | AxisZ => Vec3.mk (Vec3.x v) (Vec3.y v) (Vec3.z v + delta)
  end.

(** The coordinate of a vector along an axis, [v[axis]]. *)
Definition coord (ax : Axis) (v : Vec3.t) : R :=
  match ax with
  | AxisX => Vec3.x v
  | AxisY => Vec3.y v
  | AxisZ => Vec3.z v
  end.

(** The 'movingPlatform' branch of [updateObstacles(deltaTime)] *)
Definition update (deltaTime : R) (o : t) : t :=
  let o1 := set_progress (progress o + deltaTime * speed o * direction o) o in
  let o2 :=
    if Rgeb (progress o1) (distance o1) then
      set_progress (distance o1) (set_direction (-1) o1)
    else if Rleb (progress o1) 0 then
      set_progress 0 (set_direction 1 o1)
    else o1 in
  let newPos := addAlong (axis o2) (progress o2 * direction o2) (startPos o2) in
  let b1 := Body.set_position
              (Vec3.mk (Vec3.x newPos) (Vec3.y newPos) (Vec3.z newPos)) (body o2) in
  let b2 := Body.set_velocity (Vec3.mk 0 0 0) b1 in
  let b3 := Body.set_angularVelocity (Vec3.mk 0 0 0) b2 in
  set_body b3 o2.

(** A run of update steps, one per frame. *)
Definition run (dts : list R) (o : t) : t :=
  fold_left (fun q dt => update dt q) dts o.
End MovingPlatform.

Inductive Obstacle : Type :=
| ObRevolvingBar (o : RevolvingBar.t)
| ObMovingPlatform (o : MovingPlatform.t).

Record FinishArea : Type := mkFinish {
  finishPosition : Vec3.t;     (* [finishArea.position] *)
  finishRadius : R             (* [finishArea.radius] *)
}.

Module LevelManager.
Record t : Type := mk {
  obstacles : list Obstacle;
  isLevelComplete : bool;
  startTime : R;
  completionTime : R;
  finishArea : FinishArea
}.

Definition set_obstacles (v : list Obstacle) (m : t) : t :=
  mk v (isLevelComplete m) (startTime m) (completionTime m) (finishArea m).

Definition set_isLevelComplete (v : bool) (m : t) : t :=
  mk (obstacles m) v (startTime m) (completionTime m) (finishArea m).

Definition set_startTime (v : R) (m : t) : t :=
  mk (obstacles m) (isLevelComplete m) v (completionTime m) (finishArea m).

Definition set_completionTime (v : R) (m : t) : t :=
  mk (obstacles m) (isLevelComplete m) (startTime m) v (finishArea m).

(** [updateObstacles(deltaTime)] *)
Definition updateObstacle (deltaTime : R) (o : Obstacle) : Obstacle :=
  match o with
  | ObRevolvingBar b =>
      let rotationForce :=
        Vec3.scale (RevolvingBar.rotationSpeed b) (RevolvingBar.rotationAxis b) in
      ObRevolvingBar
        (RevolvingBar.mk
           (Body.set_angularVelocity rotationForce (RevolvingBar.body b))
           (RevolvingBar.rotationAxis b) (RevolvingBar.rotationSpeed b))
  | ObMovingPlatform q => ObMovingPlatform (MovingPlatform.update deltaTime q)
  end.

Definition updateObstacles (deltaTime : R) (m : t) : t :=
  set_obstacles (map (updateObstacle deltaTime) (obstacles m)) m.

(** [Math.pow(a, 2)] *)
Definition Math_pow2 (a : R) : R := a * a.

(** [checkFinish(playerPosition)]; [Date.now()] is the host clock. *)
Definition checkFinish (playerPosition : Vec3.t) (m : t) (h : Host.t)
  : bool * t :=
  if isLevelComplete m then (true, m)
  else
    let finishPos := finishPosition (finishArea m) in
    let distance :=
      sqrt (Math_pow2 (Vec3.x playerPosition - Vec3.x finishPos) +
            Math_pow2 (Vec3.z playerPosition - Vec3.z finishPos)) in
    if Rltb distance (finishRadius (finishArea m)) then
      (true,
       set_completionTime ((Host.now h - startTime m) / 1000)
         (set_isLevelComplete true m))
    else (false, m).

(** [getCompletionTime()] *)
Definition getCompletionTime (m : t) : R := completionTime m.
End LevelManager.

(** ** The specialised obstacles (js/obstacles.js) *)

(** A JavaScript call either returns or throws. *)
Inductive JsError : Type := TypeError.

Inductive Result (A : Type) : Type :=
| Ok (a : A)
| Throw (e : JsError).
Arguments Ok {A} a.
Arguments Throw {A} e.

(** The physics bridge, as far as the obstacles call it. *)
Module PhysicsSystem.
Inductive t : Type := instance.

(** [applyForce(body, direction, strength)] *)
Definition applyForce (b : Body.t) (direction : Vec3.t) (strength : R) : Body.t :=
  Body.applyForce
    (Vec3.mk (Vec3.x direction * strength) (Vec3.y direction * strength)
             (Vec3.z direction * strength)) b.

(** [applyImpulse(body, direction, strength)] *)
Definition applyImpulse (b : Body.t) (direction : Vec3.t) (strength : R) : Body.t :=
  Body.applyImpulse
    (Vec3.mk (Vec3.x direction * strength) (Vec3.y direction * strength)
             (Vec3.z direction * strength)) b.
End PhysicsSystem.

Module DisappearingPlatform.
Record t : Type := mk {
  meshPosition : Vec3.t;       (* [mesh.position] *)
  meshVisible : bool;          (* [mesh.visible] *)
  opacity : R;                 (* [mesh.material.opacity] *)
  width : R;                   (* [mesh.geometry.parameters] *)
  height : R;
  depth : R;
  body : Body.t;
  initialPosition : Vec3.t;
  touchTime : R;
  disappearDelay : R;
  disappearDuration : R;
  respawnDuration : R;
  isDisappearing : bool;
  isDisappeared : bool;
  disappearTimer : R;
  respawnTimer : R
}.

Definition set_meshPosition (v : Vec3.t) (o : t) : t :=
  mk v (meshVisible o) (opacity o) (width o) (height o) (depth o) (body o) (initialPosition o) (touchTime o) (disappearDelay o) (disappearDuration o) (respawnDuration o) (isDisappearing o) (isDisappeared o) (disappearTimer o) (respawnTimer o).

Definition set_meshVisible (v : bool) (o : t) : t :=
  mk (meshPosition o) v (opacity o) (width o) (height o) (depth o) (body o) (initialPosition o) (touchTime o) (disappearDelay o) (disappearDuration o) (respawnDuration o) (isDisappearing o) (isDisappeared o) (disappearTimer o) (respawnTimer o).

Definition set_opacity (v : R) (o : t) : t :=
  mk (meshPosition o) (meshVisible o) v (width o) (height o) (depth o) (body o) (initialPosition o) (touchTime o) (disappearDelay o) (disappearDuration o) (respawnDuration o) (isDisappearing o) (isDisappeared o) (disappearTimer o) (respawnTimer o).

Definition set_body (v : Body.t) (o : t) : t :=
  mk (meshPosition o) (meshVisible o) (opacity o) (width o) (height o) (depth o) v (initialPosition o) (touchTime o) (disappearDelay o) (disappearDuration o) (respawnDuration o) (isDisappearing o) (isDisappeared o) (disappearTimer o) (respawnTimer o).

Definition set_isDisappearing (v : bool) (o : t) : t :=
  mk (meshPosition o) (meshVisible o) (opacity o) (width o) (height o) (depth o) (body o) (initialPosition o) (touchTime o) (disappearDelay o) (disappearDuration o) (respawnDuration o) v (isDisappeared o) (disappearTimer o) (respawnTimer o).

Definition set_isDisappeared (v : bool) (o : t) : t :=
  mk (meshPosition o) (meshVisible o) (opacity o) (width o) (height o) (depth o) (body o) (initialPosition o) (touchTime o) (disappearDelay o) (disappearDuration o) (respawnDuration o) (isDisappearing o) v (disappearTimer o) (respawnTimer o).

Definition set_disappearTimer (v : R) (o : t) : t :=
  mk (meshPosition o) (meshVisible o) (opacity o) (width o) (height o) (depth o) (body o) (initialPosition o) (touchTime o) (disappearDelay o) (disappearDuration o) (respawnDuration o) (isDisappearing o) (isDisappeared o) v (respawnTimer o).

Definition set_respawnTimer (v : R) (o : t) : t :=
  mk (meshPosition o) (meshVisible o) (opacity o) (width o) (height o) (depth o) (body o) (initialPosition o) (touchTime o) (disappearDelay o) (disappearDuration o) (respawnDuration o) (isDisappearing o) (isDisappeared o) (disappearTimer o) v.

(** [createDisappearingPlatform(position, size)]; the box body is static. *)
Definition create (position : Vec3.t) (w hgt d : R) : t :=
  mk position true 1 w hgt d (Body.create 0 position) position
     0 (1/2) 2 3 false false 0 0.

(** [platform.update(deltaTime)] *)
Definition update (deltaTime : R) (o : t) : t :=
  if isDisappearing o && negb (isDisappeared o) then
    let o1 := set_disappearTimer (disappearTimer o + deltaTime) o in
    if Rgeb (disappearTimer o1) (disappearDuration o1) then
      let o2 := set_isDisappeared true o1 in
      let o3 := set_isDisappearing false o2 in
      let o4 := set_disappearTimer 0 o3 in
      let o5 := set_meshVisible false o4 in
      let o6 := set_body (Body.set_collisionResponse false (body o5)) o5 in
      set_respawnTimer 0 o6
    else
      let progress := disappearTimer o1 / disappearDuration o1 in
      let o2 := set_opacity (1 - progress) o1 in
      set_meshPosition
        (Vec3.mk (Vec3.x (meshPosition o2))
                 (Vec3.y (initialPosition o2) - progress * (1/2))
                 (Vec3.z (meshPosition o2))) o2
  else if isDisappeared o then
    let o1 := set_respawnTimer (respawnTimer o + deltaTime) o in
    if Rgeb (respawnTimer o1) (respawnDuration o1) then
      let o2 := set_isDisappeared false o1 in
      let o3 := set_meshVisible true o2 in
      let o4 := set_opacity 1 o3 in
      let o5 := set_meshPosition (initialPosition o4) o4 in
      let b1 := Body.set_position (initialPosition o5) (body o5) in
      set_body (Body.set_collisionResponse true b1) o5
    else o1
  else o.

(** [platform.onPlayerContact()] *)
Definition onPlayerContact (o : t) : t :=
  if negb (isDisappearing o) && negb (isDisappeared o) then
    set_disappearTimer 0 (set_isDisappearing true o)
  else o.

(** A run of update steps, one per frame. *)
Definition run (dts : list R) (o : t) : t :=
  fold_left (fun q dt => update dt q) dts o.

(** The three phases of the platform. *)
Definition Solid (o : t) : Prop :=
  isDisappearing o = false /\ isDisappeared o = false.
Definition Disappearing (o : t) : Prop :=
  isDisappearing o = true /\ isDisappeared o = false.
Definition Gone (o : t) : Prop :=
  isDisappeared o = true /\ meshVisible o = false /\
  Body.collisionResponse (body o) = false.
End DisappearingPlatform.

Module Vortex.
(** The decorative ring and particles live in the scene only. *)
Record t : Type := mk {
  position : Vec3.t;
  radius : R;
  strength : R;
  rotationSpeed : R
}.

(** [createVortex(position, radius, strength)] *)
Definition create (position : Vec3.t) (radius strength : R) : t :=
  mk position radius strength 1.

(** [this.physics] inside a method of the vortex: the object literal built
    by [createVortex] has the properties type, mesh, particles, position,
    radius, strength, rotationSpeed, update and applyForceToPlayer, and no
    statement adds a [physics] property to it ([physics] is a property of the
    manager).  The method is called as [obstacle.applyForceToPlayer(..)], so
    [this] is the vortex and the lookup yields [undefined]. *)
Definition physics (v : t) : option PhysicsSystem.t := None.

(** [vortex.applyForceToPlayer(player, deltaTime)].  [player.body] is an
    object, hence truthy. *)
Definition applyForceToPlayer (v : t) (player : Player.t) (deltaTime : R)
  : Result Player.t :=
  let dx := Vec3.x (position v) - Vec3.x (Player.meshPosition player) in
  let dz := Vec3.z (position v) - Vec3.z (Player.meshPosition player) in
  let distanceSquared := dx * dx + dz * dz in
  if Rltb distanceSquared (radius v * radius v) then
    let distance := sqrt distanceSquared in
    let forceMagnitude := (1 - distance / radius v) * strength v in
    let direction := Vec3.mk (dx / distance) 0 (dz / distance) in
    match physics v with
    | None => Throw TypeError     (* reading [applyForce] of undefined *)
    | Some _ =>
        Ok (Player.set_body
              (PhysicsSystem.applyForce (Player.body player) direction
                 (forceMagnitude * deltaTime)) player)
    end
  else Ok player.
End Vortex.

Module ObstaclesManager.
(** Spike traps and pendulums take no part in [applyObstacleForces]. *)
Inductive Obstacle : Type :=
| ObVortex (v : Vortex.t)
| ObDisappearingPlatform (o : DisappearingPlatform.t)
| ObOther.

(** The body of the loop of [applyObstacleForces(player, deltaTime)] *)
Definition applyObstacleForce (player : Player.t) (deltaTime : R) (o : Obstacle)
  : Result (Obstacle * Player.t) :=
  match o with
  | ObVortex v =>
      match Vortex.applyForceToPlayer v player deltaTime with
      | Ok p => Ok (o, p)
      | Throw e => Throw e
      end
  | ObDisappearingPlatform q =>
      let playerPos := Player.meshPosition player in
      let platformPos := DisappearingPlatform.meshPosition q in
      if Rltb (Math_abs (Vec3.x playerPos - Vec3.x platformPos))
              (DisappearingPlatform.width q / 2)
         && Rltb (Math_abs (Vec3.z playerPos - Vec3.z platformPos))
                 (DisappearingPlatform.depth q / 2)
         && Rltb (Math_abs (Vec3.y playerPos -
                            (Vec3.y platformPos + DisappearingPlatform.height q / 2
                             + Player.radius player)))
                 (1/10)
      then Ok (ObDisappearingPlatform (DisappearingPlatform.onPlayerContact q),
               player)
      else Ok (o, player)
  | ObOther => Ok (o, player)
  end.

(** [applyObstacleForces(player, deltaTime)]: the obstacles and the player
    as the loop leaves them, and the exception that ended it, if any. *)
Fixpoint applyObstacleForces (l : list Obstacle) (player : Player.t)
  (deltaTime : R) : list Obstacle * Player.t * option JsError :=
  match l with
  | [] => ([], player, None)
  | o :: l' =>
      match applyObstacleForce player deltaTime o with
      | Throw e => (o :: l', player, Some e)
      | Ok (o1, p1) =>
          let '(l1, p2, r) := applyObstacleForces l' p1 deltaTime in
          (o1 :: l1, p2, r)
      end
  end.
End ObstaclesManager.

(** ** Auxiliary notions of the statements *)

(** What a pickup adds to the trace when the checkpoint is already active. *)
Definition repeatedPickupEvents (m : CollectiblesManager.t) : list Event :=
  EvCollectionEffect CHECKPOINT ::
  match CollectiblesManager.onCollectible m with
  | Some k => [EvCollectible k CHECKPOINT]
  | None => []
  end.

(** The distance [checkFinish] computes: in the (x, z) plane only. *)
Definition planarDistance (u v : Vec3.t) : R :=
  sqrt ((Vec3.x u - Vec3.x v) * (Vec3.x u - Vec3.x v) +
        (Vec3.z u - Vec3.z v) * (Vec3.z u - Vec3.z v)).

Module DP := DisappearingPlatform.

(** The fields of a disappearing platform that no update writes. *)
Definition sameSetup (o o' : DP.t) : Prop :=
  DP.initialPosition o' = DP.initialPosition o /\
  DP.disappearDuration o' = DP.disappearDuration o /\
  DP.respawnDuration o' = DP.respawnDuration o.

Module MP := MovingPlatform.

(** The progress [update] computes before it clamps. *)
Definition advanced (dt : R) (o : MP.t) : R :=
  MP.progress o + dt * MP.speed o * MP.direction o.

(** The flag a timeout closure switches off is off. *)
Definition switchedOff (a : TimerAction) (p : Player.t) : Prop :=
  match a with
  | ExpireJumpPower => Player.hasJumpPower p = false
  | ExpireSpeedBoost => Player.hasSpeedBoost p = false
  end.

(** What a frame cannot touch: the power-up flags and the host's clock and
    pending timeouts. *)
Definition samePowers (p p' : Player.t) (h h' : Host.t) : Prop :=
  Player.hasJumpPower p' = Player.hasJumpPower p /\
  Player.hasSpeedBoost p' = Player.hasSpeedBoost p /\
  Player.meshPosition p' = Player.meshPosition p /\
  Host.timers h' = Host.timers h /\
  Host.now h' = Host.now h.

(** ** Sample states *)

(** A grounded ball, off cooldown, without the power-up. *)
Definition groundedBall : Player.t :=
  Player.set_canJump true (Player.create (Vec3.mk 0 3 0)).

(** A boosted ball that has fallen off the level, with a checkpoint as its
    spawn point and a death callback registered. *)
Definition fallenBall : Player.t :=
  Player.set_meshPosition (Vec3.mk 3 (-11) 0)
    (Player.set_body
       (Body.mk (Vec3.mk 3 (-11) 0) (Vec3.mk 2 (-14) 1) (Vec3.mk 1 0 1)
                Vec3.zero 1 true)
       (Player.set_hasSpeedBoost true
          (Player.setOnDeathCallback 1%nat
             (Player.setSpawnPoint (Vec3.mk 12 (7/2) 4)
                (Player.create (Vec3.mk 0 3 0)))))).

(** After a respawn: the jump power is picked up again, a wall is touched
    sideways, and two frames ask for a jump. *)
Definition afterRespawn : list Step :=
  [ PickJumpPower 10;
    Collide (1/10);
    Frame (1/60) (mkInput false false false false true);
    Physics (Body.mk (Vec3.mk 0 (29/10) 0) (Vec3.mk 0 (-1/6) 0) Vec3.zero
                     Vec3.zero 1 true);
    Frame (1/60) (mkInput true false false false true) ].

(** A boosted ball pushed forward by the input while it moves at speed 50. *)
Definition rushingBall : Player.t :=
  Player.set_isMoving true
    (Player.set_moveDirection (Vec2.mk 0 (-1))
       (Player.set_hasSpeedBoost true
          (Player.set_body
             (Body.mk (Vec3.mk 0 1 0) (Vec3.mk 30 (-2) (-40)) Vec3.zero
                      Vec3.zero 1 true)
             (Player.create (Vec3.mk 0 3 0))))).

(** A ball that rolls at speed 12 with no key held. *)
Definition coastingBall : Player.t :=
  Player.set_body
    (Body.mk (Vec3.mk 0 1 0) (Vec3.mk 12 (-3) 0) Vec3.zero Vec3.zero 1 true)
    (Player.create (Vec3.mk 0 3 0)).

(** The checkpoint of the first level, and a manager with the three
    callbacks the game registers. *)
Definition levelOneCheckpoint : Collectible.t :=
  Collectible.createCheckpoint (Vec3.mk 12 (5/2) 4).

Definition levelOneManager : CollectiblesManager.t :=
  CollectiblesManager.mk [levelOneCheckpoint] (Some 1%nat) (Some 2%nat)
    (Some 3%nat).

(** A level in progress with its finish zone of radius 3/2, loaded at
    wall-clock time 1000, and the host 42.5 seconds later. *)
Definition levelOneLoaded : LevelManager.t :=
  LevelManager.mk [] false 1000 0 (mkFinish (Vec3.mk 20 (1/2) 0) (3/2)).

Definition hostAtFinish : Host.t := Host.mk 43500 [] 1 [].

Definition nearFinish : Vec3.t := Vec3.mk (204/10) 9 0.
Definition farFromFinish : Vec3.t := Vec3.mk (-5) 1 7.

(** A disappearing platform of the default size, as created. *)
Definition freshPlatform : DisappearingPlatform.t :=
  DisappearingPlatform.create (Vec3.mk 4 1 (-2)) 2 (1/2) 2.

(** A short-travel platform along x: distance 0.3 at speed 2. *)
Definition shortPlatform : MP.t :=
  MP.create (Vec3.mk 18 5 (-8)) (Some AxisX) (Some (3/10)) (Some 2).

(** The moving platform of the first level: along z, distance 5, speed 2. *)
Definition levelOnePlatform : MP.t :=
  MP.create (Vec3.mk (-6) 1 0) (Some AxisZ) (Some 5) (Some 2).

(** A vortex with the default radius 3 and strength 10, and a ball one unit
    away from its centre. *)
Definition defaultVortex : Vortex.t := Vortex.create (Vec3.mk 0 (1/2) 0) 3 10.

Definition ballInVortex : Player.t := Player.create (Vec3.mk 1 (1/2) 0).

(** ** Further notions: jumps, frame time, timer ownership *)

Definition isJumpEffect (e : Event) : bool :=
  match e with
  | EvJumpEffect => true
  | _ => false
  end.

(** How many jumps the host has seen. *)
Definition jumpCount (h : Host.t) : nat :=
  length (filter isJumpEffect (Host.trace h)).

(** Simulated time of the frames of a run. *)
Fixpoint frameTime (l : list Step) : R :=
  match l with
  | [] => 0
  | Frame dt _ :: l' => dt + frameTime l'
  | _ :: l' => frameTime l'
  end.

Definition forwardInTime (s : Step) : Prop :=
  match s with
  | Frame dt _ => 0 <= dt
  | _ => True
  end.

(** Every pending timeout is the one whose handle the player holds for that
    power-up, and handles are positive, fresh and distinct. *)
Definition timersOwned (p : Player.t) (h : Host.t) : Prop :=
  (1 <= Host.nextTimer h)%nat /\
  NoDup (map Host.tid (Host.timers h)) /\
  (forall tm, In tm (Host.timers h) ->
     (1 <= Host.tid tm < Host.nextTimer h)%nat /\
     match Host.action tm with
     | ExpireJumpPower => Player.jumpPowerTimeout p = Some (Host.tid tm)
     | ExpireSpeedBoost => Player.speedBoostTimeout p = Some (Host.tid tm)
     end).

(** The pending timeouts of one kind. *)
Definition pendingOf (a : TimerAction) (h : Host.t) : list Host.Timer :=
  filter (fun tm => match a, Host.action tm with
                    | ExpireJumpPower, ExpireJumpPower => true
                    | ExpireSpeedBoost, ExpireSpeedBoost => true
                    | _, _ => false
                    end) (Host.timers h).

(** A ball with the jump power, on the ground. *)
Definition poweredBall : Player.t :=
  Player.set_hasJumpPower true groundedBall.

(** After a jump: the ball lands at once and the jump key stays held for
    four frames of a tenth of a second. *)
Definition bounceAndHold : list Step :=
  [ Collide 1;
    Frame (1/10) (mkInput false false false false true);
    Frame (1/10) (mkInput false false false false true);
    Collide 1;
    Frame (1/10) (mkInput true false false false true);
    Frame (1/10) (mkInput false false false false true) ].

(** ** The collectibles manager, continued *)

Module Collectibles.
(** [getCoinCount()] *)
Definition isCoin (c : Collectible.t) : bool :=
  match Collectible.type c with
  | COIN => true
  | _ => false
  end.

Definition getCoinCount (m : CollectiblesManager.t) : nat :=
  length (filter isCoin (CollectiblesManager.collectibles m)).

(** [getCollectedCoins()] *)
Definition getCollectedCoins (m : CollectiblesManager.t) : nat :=
  length (filter (fun c => isCoin c && Collectible.collected c)
                 (CollectiblesManager.collectibles m)).

Definition set_collectibles (l : list Collectible.t) (m : CollectiblesManager.t)
  : CollectiblesManager.t :=
  CollectiblesManager.mk l (CollectiblesManager.onCollectible m)
    (CollectiblesManager.onCoinCollected m)
    (CollectiblesManager.onCheckpointActivated m).

(** The body of the loop of [resetCollectibles()]; putting the mesh back
    into the scene is scene-only. *)
Definition isCheckpoint (c : Collectible.t) : bool :=
  match Collectible.type c with
  | CHECKPOINT => true
  | _ => false
  end.

Definition resetOne (c : Collectible.t) : Collectible.t :=
  if isCheckpoint c && Collectible.activated c then c
  else if Collectible.collected c then Collectible.set_collected false c
  else c.

(** [resetCollectibles()] *)
Definition resetCollectibles (m : CollectiblesManager.t) : CollectiblesManager.t :=
  set_collectibles (map resetOne (CollectiblesManager.collectibles m)) m.

(** [setCallbacks(callbacks)]: a property the argument lacks is undefined. *)
Definition setCallbacks (onCollectible onCoinCollected onCheckpointActivated
                           : option Callback) (m : CollectiblesManager.t)
  : CollectiblesManager.t :=
  CollectiblesManager.mk (CollectiblesManager.collectibles m)
    onCollectible onCoinCollected onCheckpointActivated.

(** [cleanup()] *)
Definition cleanup (m : CollectiblesManager.t) : CollectiblesManager.t :=
  set_collectibles [] m.

(** The animation state of the manager: [animating] and [animationTime]. *)
Record Animation : Type := mkAnimation {
  animating : bool;
  animationTime : R
}.

(** As the constructor leaves it. *)
Definition animationInit : Animation := mkAnimation true 0.

Definition set_meshY (y : R) (c : Collectible.t) : Collectible.t :=
  Collectible.mk (Collectible.type c)
    (Vec3.mk (Vec3.x (Collectible.meshPosition c)) y
             (Vec3.z (Collectible.meshPosition c)))
    (Collectible.collected c) (Collectible.activated c)
    (Collectible.basePosition c) (Collectible.radius c)
    (Collectible.value c) (Collectible.duration c).

(** The body of the loop of [updateAnimation]: the hover moves the mesh;
    rotation, scale and opacity are scene-only. *)
Definition animateOne (time : R) (c : Collectible.t) : Collectible.t :=
  if negb (Collectible.collected c) then
    let hoverHeight := 1/10 in
    let hoverSpeed := 2 in
    let newY := Vec3.y (Collectible.basePosition c)
                + sin (time * hoverSpeed) * hoverHeight in
    set_meshY newY c
  else c.

(** [updateAnimation(deltaTime)] *)
Definition updateAnimation (deltaTime : R) (a : Animation)
  (m : CollectiblesManager.t) : Animation * CollectiblesManager.t :=
  if negb (animating a) then (a, m)
  else
    let a1 := mkAnimation (animating a) (animationTime a + deltaTime) in
    (a1, set_collectibles
           (map (animateOne (animationTime a1))
                (CollectiblesManager.collectibles m)) m).

(** [update(deltaTime, player)] *)
Definition update (deltaTime : R) (a : Animation) (m : CollectiblesManager.t)
  (p : Player.t) (h : Host.t)
  : Animation * CollectiblesManager.t * Player.t * Host.t :=
  let '(a1, m1) := updateAnimation deltaTime a m in
  let '(m2, p2, h2) := CollectiblesManager.checkCollisions m1 p h in
  (a1, m2, p2, h2).

(** What [collectItem] leaves of the collectible itself. *)
Definition picked (c : Collectible.t) : Collectible.t :=
  match Collectible.type c with
  | CHECKPOINT =>
      Collectible.set_collected false
        (if Collectible.activated c then Collectible.set_collected true c
         else Collectible.set_activated true (Collectible.set_collected true c))
  | _ => Collectible.set_collected true c
  end.

(** The proximity test of [checkCollisions]. *)
Definition inReach (p : Player.t) (c : Collectible.t) : bool :=
  Rltb (CollectiblesManager.distanceTo (Player.meshPosition p)
          (Collectible.meshPosition c))
       (Collectible.radius c + Player.radius p).
(** What one pass of [checkCollisions] does to one collectible, for a
    player standing at the place it has when the pass starts. *)
Definition visited (p : Player.t) (c : Collectible.t) : Collectible.t :=
  if Collectible.collected c then c
  else if inReach p c then picked c
  else c.
End Collectibles.

Definition isCoinEvent (e : Event) : bool :=
  match e with
  | EvCoinCollected _ _ => true
  | _ => false
  end.

(** How many coins have been reported to the score callback. *)
Definition coinReports (h : Host.t) : nat :=
  length (filter isCoinEvent (Host.trace h)).

(** Two coins and a jump power-up, with the callbacks of the game, and a
    ball on the first coin. *)
Definition coinRow : CollectiblesManager.t :=
  CollectiblesManager.mk
    [ Collectible.createCoin (Vec3.mk (-5) (3/2) (-5));
      Collectible.createCoin (Vec3.mk (-5) (3/2) 5);
      Collectible.createJumpPower (Vec3.mk 0 (3/2) 8) ]
    (Some 1%nat) (Some 2%nat) (Some 3%nat).

Definition ballOnCoin : Player.t := Player.create (Vec3.mk (-5) (3/2) (-5)).

(** ** The level manager, continued: the catalogue and loading *)

(** An entry of [level.obstacles]. *)
Record ObstacleData : Type := mkObstacleData {
  od_type : string;
  od_width : R;
  od_height : R;
  od_depth : R;
  od_position : Vec3.t;
  od_axis : option Axis;
  od_distance : option R;
  od_speed : option R
}.

(** An entry of [level.collectibles]. *)
Record CollectibleData : Type := mkCollectibleData {
  cd_type : string;
  cd_position : Vec3.t
}.

(** A level of the catalogue.  Platforms, decorations and the environment
    are static geometry of the scene and of the simulation world and are not
    tracked. *)
Record Level : Type := mkLevel {
  levelName : string;
  playerStart : Vec3.t;
  levelObstacles : list ObstacleData;
  levelCollectibles : list CollectibleData;
  levelFinish : FinishArea
}.

Module Levels.
(** The level manager with its catalogue.  [finishArea] is undefined until a
    level has been built. *)
Record t : Type := mk {
  levels : list Level;
  currentLevelIndex : Z;
  currentLevel : option Level;
  obstacles : list Obstacle;
  isLevelComplete : bool;
  startTime : R;
  completionTime : R;
  finishArea : option FinishArea
}.

(** The constructor, for a given catalogue. *)
Definition create (catalogue : list Level) : t :=
  mk catalogue 0 None [] false 0 0 None.

(** [this.levels[levelIndex]] *)
Definition levelAt (l : list Level) (i : Z) : option Level :=
  if (i <? 0)%Z then None else nth_error l (Z.to_nat i).

(** The switch of [createObstacle(data)]: an entry of another type creates
    nothing. *)
Definition createObstacle (data : ObstacleData) : option Obstacle :=
  if String.eqb (od_type data) "revolvingBar" then
    Some (ObRevolvingBar
            (RevolvingBar.mk (Body.create 1 (od_position data))
                             (Vec3.mk 0 1 0)
                             (MovingPlatform.orElse (od_speed data) 1)))
  else if String.eqb (od_type data) "movingPlatform" then
    Some (ObMovingPlatform
            (MovingPlatform.create (od_position data) (od_axis data)
                                   (od_distance data) (od_speed data)))
  else None.

(** The switch of [createCollectible(data)] *)
Definition createCollectible (data : CollectibleData) : option Collectible.t :=
  if String.eqb (cd_type data) "coin" then
    Some (Collectible.createCoin (cd_position data))
  else if String.eqb (cd_type data) "jumpPower" then
    Some (Collectible.createJumpPower (cd_position data))
  else if String.eqb (cd_type data) "speedBoost" then
    Some (Collectible.createSpeedBoost (cd_position data))
  else if String.eqb (cd_type data) "checkpoint" then
    Some (Collectible.createCheckpoint (cd_position data))
  else None.

(** The entries a list of data creates, in order. *)
Fixpoint created {A B : Type} (f : A -> option B) (l : list A) : list B :=
  match l with
  | [] => []
  | a :: l' => match f a with
               | Some b => b :: created f l'
               | None => created f l'
               end
  end.

(** [clearLevel()] *)
Definition clearLevel (m : t) (c : CollectiblesManager.t)
  : t * CollectiblesManager.t :=
  (mk (levels m) (currentLevelIndex m) (currentLevel m) []
      (isLevelComplete m) (startTime m) (completionTime m) (finishArea m),
   Collectibles.cleanup c).

(** [buildLevel(level)] *)
Definition buildLevel (level : Level) (m : t) (c : CollectiblesManager.t)
  : t * CollectiblesManager.t :=
  (mk (levels m) (currentLevelIndex m) (currentLevel m)
      (obstacles m ++ created createObstacle (levelObstacles level))
      (isLevelComplete m) (startTime m) (completionTime m)
      (Some (mkFinish (finishPosition (levelFinish level))
                      (finishRadius (levelFinish level)))),
   Collectibles.set_collectibles
     (CollectiblesManager.collectibles c
      ++ created createCollectible (levelCollectibles level)) c).

(** [loadLevel(levelIndex)]: the start position, or the TypeError of
    [buildLevel(undefined)], with the manager as the call leaves it. *)
Definition loadLevel (levelIndex : Z) (m : t) (c : CollectiblesManager.t)
  (h : Host.t) : Result Vec3.t * t * CollectiblesManager.t :=
  let '(m1, c1) := clearLevel m c in
  let m2 := mk (levels m1) levelIndex (levelAt (levels m1) levelIndex)
               (obstacles m1) false (Host.now h) (completionTime m1)
               (finishArea m1) in
  match currentLevel m2 with
  | None => (Throw TypeError, m2, c1)
  | Some level =>
      let '(m3, c3) := buildLevel level m2 c1 in
      (Ok (playerStart level), m3, c3)
  end.

(** [getCurrentLevelIndex()] *)
Definition getCurrentLevelIndex (m : t) : Z := currentLevelIndex m.

(** [getNextLevelIndex()] *)
Definition getNextLevelIndex (m : t) : Z :=
  let nextIndex := (currentLevelIndex m + 1)%Z in
  if (nextIndex <? Z.of_nat (List.length (levels m)))%Z then nextIndex
  else (-1)%Z.

(** [hasNextLevel()] *)
Definition hasNextLevel (m : t) : bool :=
  negb (getNextLevelIndex m =? -1)%Z.

(** The level state as [checkFinish] and [updateObstacles] read it, once a
    finish area exists. *)
Definition asManager (m : t) (fa : FinishArea) : LevelManager.t :=
  LevelManager.mk (obstacles m) (isLevelComplete m) (startTime m)
                  (completionTime m) fa.

Definition withManager (s : LevelManager.t) (m : t) : t :=
  mk (levels m) (currentLevelIndex m) (currentLevel m)
     (LevelManager.obstacles s) (LevelManager.isLevelComplete s)
     (LevelManager.startTime s) (LevelManager.completionTime s)
     (finishArea m).

(** [checkFinish(playerPosition)]; without a finish area, reading
    [finishArea.position] throws. *)
Definition checkFinish (playerPosition : Vec3.t) (m : t) (h : Host.t)
  : Result bool * t :=
  if isLevelComplete m then (Ok true, m)
  else
    match finishArea m with
    | None => (Throw TypeError, m)
    | Some fa =>
        let '(b, s) := LevelManager.checkFinish playerPosition (asManager m fa) h in
        (Ok b, withManager s m)
    end.

(** [update(deltaTime, player)]; the decorations are scene-only. *)
Definition update (deltaTime : R) (player : Player.t) (m : t) (h : Host.t)
  : Result unit * t :=
  let m1 := mk (levels m) (currentLevelIndex m) (currentLevel m)
               (map (LevelManager.updateObstacle deltaTime) (obstacles m))
               (isLevelComplete m) (startTime m) (completionTime m)
               (finishArea m) in
  match checkFinish (Player.meshPosition player) m1 h with
  | (Ok _, m2) => (Ok tt, m2)
  | (Throw e, m2) => (Throw e, m2)
  end.
End Levels.

(** The two levels of [createLevels()]: start, obstacles, collectibles and
    finish zone. *)
Definition level1 : Level :=
  mkLevel "Level 1: The Beginning" (Vec3.mk 0 3 0)
    [ mkObstacleData "revolvingBar" 6 (1/2) (1/2) (Vec3.mk 12 3 0)
        None None (Some 1);
      mkObstacleData "movingPlatform" 2 (1/2) 2 (Vec3.mk (-6) 1 0)
        (Some AxisZ) (Some 5) (Some 2) ]
    [ mkCollectibleData "coin" (Vec3.mk (-5) (3/2) (-5));
      mkCollectibleData "coin" (Vec3.mk (-5) (3/2) 5);
      mkCollectibleData "coin" (Vec3.mk 5 (3/2) (-5));
      mkCollectibleData "coin" (Vec3.mk 5 2 0);
      mkCollectibleData "coin" (Vec3.mk 10 (7/2) 0);
      mkCollectibleData "coin" (Vec3.mk 14 (7/2) 0);
      mkCollectibleData "coin" (Vec3.mk 12 (7/2) (-2));
      mkCollectibleData "coin" (Vec3.mk 12 (7/2) 6);
      mkCollectibleData "coin" (Vec3.mk 12 (7/2) 10);
      mkCollectibleData "coin" (Vec3.mk 12 (7/2) 14);
      mkCollectibleData "jumpPower" (Vec3.mk (-8) (3/2) 0);
      mkCollectibleData "speedBoost" (Vec3.mk 14 (7/2) (-4));
      mkCollectibleData "checkpoint" (Vec3.mk 12 (5/2) 4) ]
    (mkFinish (Vec3.mk 12 (5/2) 14) (3/2)).

Definition level2 : Level :=
  mkLevel "Level 2: The Challenge" (Vec3.mk 0 3 0)
    [ mkObstacleData "movingPlatform" 3 (1/2) 3 (Vec3.mk 0 (1/2) 6)
        (Some AxisZ) (Some 3) (Some 2);
      mkObstacleData "revolvingBar" 8 (1/2) (1/2) (Vec3.mk 12 (7/2) 12)
        None None (Some (3/2));
      mkObstacleData "revolvingBar" 6 (1/2) (1/2) (Vec3.mk 12 (11/2) (-8))
        None None (Some 2);
      mkObstacleData "movingPlatform" 1 2 1 (Vec3.mk 18 5 (-8))
        (Some AxisX) (Some 2) (Some 3) ]
    [ mkCollectibleData "coin" (Vec3.mk (-3) (3/2) (-3));
      mkCollectibleData "coin" (Vec3.mk 3 (3/2) (-3));
      mkCollectibleData "coin" (Vec3.mk 3 (3/2) 3);
      mkCollectibleData "coin" (Vec3.mk (-3) (3/2) 3);
      mkCollectibleData "coin" (Vec3.mk 0 (3/2) 6);
      mkCollectibleData "coin" (Vec3.mk 0 (3/2) 9);
      mkCollectibleData "coin" (Vec3.mk 0 (3/2) 12);
      mkCollectibleData "coin" (Vec3.mk 9 (7/2) 9);
      mkCollectibleData "coin" (Vec3.mk 15 (7/2) 9);
      mkCollectibleData "coin" (Vec3.mk 9 (7/2) 15);
      mkCollectibleData "coin" (Vec3.mk 15 (7/2) 15);
      mkCollectibleData "coin" (Vec3.mk 12 (7/2) 12);
      mkCollectibleData "coin" (Vec3.mk 12 4 2);
      mkCollectibleData "coin" (Vec3.mk 9 (11/2) (-5));
      mkCollectibleData "coin" (Vec3.mk 9 (11/2) (-11));
      mkCollectibleData "coin" (Vec3.mk 15 (11/2) (-5));
      mkCollectibleData "coin" (Vec3.mk 15 (11/2) (-11));
      mkCollectibleData "coin" (Vec3.mk 12 (11/2) (-8));
      mkCollectibleData "coin" (Vec3.mk 24 (11/2) (-8));
      mkCollectibleData "jumpPower" (Vec3.mk 0 (3/2) 0);
      mkCollectibleData "speedBoost" (Vec3.mk 10 (7/2) 12);
      mkCollectibleData "jumpPower" (Vec3.mk 12 (11/2) (-12));
      mkCollectibleData "checkpoint" (Vec3.mk 0 (1/2) 12);
      mkCollectibleData "checkpoint" (Vec3.mk 12 (5/2) 12);
      mkCollectibleData "checkpoint" (Vec3.mk 12 (9/2) (-8)) ]
    (mkFinish (Vec3.mk 24 (9/2) (-8)) (3/2)).

(** [createLevels()] *)
Definition catalogue : list Level := [level1; level2].

(** As a factory leaves a collectible: not collected, not activated, the
    mesh on its base position. *)
Definition pristine (c : Collectible.t) : Prop :=
  Collectible.collected c = false /\
  Collectible.activated c = false /\
  Collectible.meshPosition c = Collectible.basePosition c.

(** As [createObstacle] leaves a moving platform: at its start, heading
    forward. *)
Definition atStart (o : Obstacle) : Prop :=
  match o with
  | ObMovingPlatform q =>
      MovingPlatform.progress q = 0 /\ MovingPlatform.direction q = 1 /\
      Body.position (MovingPlatform.body q) = MovingPlatform.startPos q
  | ObRevolvingBar _ => True
  end.

(** ** The obstacles manager, continued: spike traps and the update loop *)

Module SpikeTrap.
(** The warning plane and its pulse are scene-only. *)
Record t : Type := mk {
  isActive : bool;
  spikesVisible : bool;        (* [spikesMesh.visible] *)
  baseBody : Body.t;
  spikeBody : Body.t
}.

(** [createSpikeTrap(position, size)]: both boxes are static; the spike box
    sits 0.1 + spikeHeight / 2 above the base and does not collide yet. *)
Definition create (position : Vec3.t) : t :=
  let spikeHeight := 6/10 in
  let spikePosition :=
    Vec3.mk (Vec3.x position) (Vec3.y position + (1/10 + spikeHeight / 2))
            (Vec3.z position) in
  mk false false (Body.create 0 position)
     (Body.set_collisionResponse false (Body.create 0 spikePosition)).

(** [spikeTrap.setActive(active)] *)
Definition setActive (active : bool) (s : t) : t :=
  mk active active (baseBody s)
     (Body.set_collisionResponse active (spikeBody s)).

(** [spikeTrap.update(deltaTime)]: empty. *)
Definition update (deltaTime : R) (s : t) : t := s.
End SpikeTrap.

Module Obstacles.
(** The bob of a pendulum is moved by the simulation world and its chain is
    scene-only; so are the ring and the particles of a vortex. *)
Inductive Item : Type :=
| ItSpikeTrap (s : SpikeTrap.t)
| ItPendulum
| ItPlatform (o : DisappearingPlatform.t)
| ItVortex (v : Vortex.t).

Record t : Type := mk {
  obstacles : list Item;
  spikesActive : bool;
  timeToNextSpikeToggle : R
}.

(** The constructor. *)
Definition create : t := mk [] false 2.

(** [createSpikeTrap], [createDisappearingPlatform], [createVortex],
    [createPendulum]: the new obstacle goes to the end of the list. *)
Definition createSpikeTrap (position : Vec3.t) (m : t) : t :=
  mk (obstacles m ++ [ItSpikeTrap (SpikeTrap.create position)])
     (spikesActive m) (timeToNextSpikeToggle m).

Definition createDisappearingPlatform (position : Vec3.t) (w hgt d : R) (m : t)
  : t :=
  mk (obstacles m ++ [ItPlatform (DisappearingPlatform.create position w hgt d)])
     (spikesActive m) (timeToNextSpikeToggle m).

Definition createVortex (position : Vec3.t) (radius strength : R) (m : t) : t :=
  mk (obstacles m ++ [ItVortex (Vortex.create position radius strength)])
     (spikesActive m) (timeToNextSpikeToggle m).

Definition createPendulum (m : t) : t :=
  mk (obstacles m ++ [ItPendulum]) (spikesActive m) (timeToNextSpikeToggle m).

(** [obstacle.update(deltaTime)], by kind. *)
Definition updateItem (deltaTime : R) (i : Item) : Item :=
  match i with
  | ItSpikeTrap s => ItSpikeTrap (SpikeTrap.update deltaTime s)
  | ItPlatform o => ItPlatform (DisappearingPlatform.update deltaTime o)
  | ItPendulum => ItPendulum
  | ItVortex v => ItVortex v
  end.

(** The loop over the spike traps after a toggle. *)
Definition armItem (active : bool) (i : Item) : Item :=
  match i with
  | ItSpikeTrap s => ItSpikeTrap (SpikeTrap.setActive active s)
  | _ => i
  end.

(** [update(deltaTime)].  The obstacles are updated one by one, each on its
    own state; [markedForDeletion] is assigned nowhere in the program, so no
    obstacle is removed here. *)
Definition update (deltaTime : R) (m : t) : t :=
  let l1 := map (updateItem deltaTime) (obstacles m) in
  if Rgtb (timeToNextSpikeToggle m) 0 then
    let t1 := timeToNextSpikeToggle m - deltaTime in
    if Rleb t1 0 then
      let active := negb (spikesActive m) in
      mk (map (armItem active) l1) active (if active then 1 else 2)
    else mk l1 (spikesActive m) t1
  else mk l1 (spikesActive m) (timeToNextSpikeToggle m).

(** A run of update steps, one per frame. *)
Definition run (dts : list R) (m : t) : t :=
  fold_left (fun q dt => update dt q) dts m.

(** The obstacle as [applyObstacleForces] sees it. *)
Definition forForces (i : Item) : ObstaclesManager.Obstacle :=
  match i with
  | ItVortex v => ObstaclesManager.ObVortex v
  | ItPlatform o => ObstaclesManager.ObDisappearingPlatform o
  | _ => ObstaclesManager.ObOther
  end.

(** Every spike trap shows, collides and is armed as the manager says. *)
Definition inStep (active : bool) (i : Item) : Prop :=
  match i with
  | ItSpikeTrap s =>
      SpikeTrap.isActive s = active /\
      SpikeTrap.spikesVisible s = active /\
      Body.collisionResponse (SpikeTrap.spikeBody s) = active
  | _ => True
  end.
End Obstacles.

(** The player is inside the radius of the vortex, in the (x, z) plane. *)
Definition inPull (player : Player.t) (o : ObstaclesManager.Obstacle) : Prop :=
  match o with
  | ObstaclesManager.ObVortex v =>
      (Vec3.x (Vortex.position v) - Vec3.x (Player.meshPosition player)) *
      (Vec3.x (Vortex.position v) - Vec3.x (Player.meshPosition player)) +
      (Vec3.z (Vortex.position v) - Vec3.z (Player.meshPosition player)) *
      (Vec3.z (Vortex.position v) - Vec3.z (Player.meshPosition player))
      < Vortex.radius v * Vortex.radius v
  | _ => False
  end.

(** ** The physics bridge: the registry of body and mesh pairs *)

Module Pairs.
(** Bodies and meshes are objects compared by identity; a handle stands for
    one.  [world] is the list of bodies of the simulation world. *)
Definition Handle : Type := nat.

Record t : Type := mk {
  bodies : list Handle;
  meshes : list Handle;
  world : list Handle
}.

(** The constructor: nothing registered. *)
Definition create : t := mk [] [] [].

(** [Array.prototype.indexOf]: the first position, if any. *)
Fixpoint indexOf (b : Handle) (l : list Handle) : option nat :=
  match l with
  | [] => None
  | x :: l' => if Nat.eqb x b then Some 0%nat
               else option_map S (indexOf b l')
  end.

(** [array.splice(i, 1)] *)
Fixpoint removeAt {A : Type} (i : nat) (l : list A) : list A :=
  match l, i with
  | [], _ => []
  | _ :: l', O => l'
  | x :: l', S j => x :: removeAt j l'
  end.

(** [world.addBody(body)], as the factories of bodies call it. *)
Definition addBody (b : Handle) (s : t) : t :=
  mk (bodies s) (meshes s) (world s ++ [b]).

(** [world.removeBody(body)]: the body leaves the world if it is in it. *)
Definition worldRemove (b : Handle) (w : list Handle) : list Handle :=
  match indexOf b w with
  | Some i => removeAt i w
  | None => w
  end.

(** [addBodyMeshPair(body, mesh)] *)
Definition addBodyMeshPair (b m : Handle) (s : t) : t :=
  mk (bodies s ++ [b]) (meshes s ++ [m]) (world s).

(** [removeBodyMeshPair(body, mesh)] *)
Definition removeBodyMeshPair (b m : Handle) (s : t) : t :=
  match indexOf b (bodies s) with
  | Some bodyIndex =>
      mk (removeAt bodyIndex (bodies s)) (removeAt bodyIndex (meshes s))
         (worldRemove b (world s))
  | None => mk (bodies s) (meshes s) (worldRemove b (world s))
  end.

(** [cleanup()]; the debug helpers are scene-only. *)
Definition cleanup (s : t) : t :=
  mk [] [] (fold_left (fun w b => worldRemove b w) (bodies s) (world s)).

(** The positions of the objects behind the handles. *)
Definition Places : Type := Handle -> Vec3.t.

Definition put (k : Handle) (v : Vec3.t) (f : Places) : Places :=
  fun x => if Nat.eqb x k then v else f x.

(** The loop of [update(deltaTime)] after the world has stepped: each
    registered mesh takes the position of the body with the same index. *)
Fixpoint syncEach (bs ms : list Handle) (body : Places) (mesh : Places)
  : Places :=
  match bs, ms with
  | b :: bs', m :: ms' => syncEach bs' ms' body (put m (body b) mesh)
  | _, _ => mesh
  end.

Definition sync (s : t) (body : Places) (mesh : Places) : Places :=
  syncEach (bodies s) (meshes s) body mesh.

(** [checkCollision(bodyA, bodyB)] over [world.contacts], a contact being
    the pair of its two bodies [bi], [bj]. *)
Fixpoint checkCollision (contacts : list (Handle * Handle)) (a b : Handle)
  : bool :=
  match contacts with
  | [] => false
  | (bi, bj) :: rest =>
      if (Nat.eqb bi a && Nat.eqb bj b) || (Nat.eqb bi b && Nat.eqb bj a)
      then true
      else checkCollision rest a b
  end.
End Pairs.

(** ** The game (js/game.js) *)

(** What one call of the library's [world.step] does, seen from the ball:
    the body as it is integrated, and [contact.ni.y] of each 'collide' event
    dispatched on the way. *)
Record Integration : Type := mkIntegration {
  integrated : Body.t;
  contactNormals : list R
}.

(** The data [onLevelComplete] computes for the level-complete screen. *)
Record Summary : Type := mkSummary {
  summaryTime : R;
  summaryCoins : nat;
  summaryTotalCoins : nat;
  summaryScore : R
}.

(** [Math.floor], [Math.max], [Math.min] *)
Definition Math_floor (a : R) : R := IZR (Int_part a).
Definition Math_max (a b : R) : R := Rmax a b.
Definition Math_min (a b : R) : R := Rmin a b.

Module Game.
(** The state of the game.  [animation] is the animation clock of the
    collectibles manager.  The renderer, the camera, the user interface, the
    sounds and the FPS counter are presentation and are not tracked; the
    timeouts that show a screen change no state of the game. *)
Record t : Type := mk {
  isRunning : bool;
  isPaused : bool;
  isGameOver : bool;
  isLevelComplete : bool;
  score : R;
  lastFrameTime : R;
  deltaTime : R;
  inputState : InputState;
  player : option Player.t;
  levelManager : Levels.t;
  collectiblesManager : CollectiblesManager.t;
  animation : Collectibles.Animation;
  obstaclesManager : Obstacles.t
}.

Definition set_isRunning (v : bool) (g : t) : t :=
  mk v (isPaused g) (isGameOver g) (isLevelComplete g) (score g)
     (lastFrameTime g) (deltaTime g) (inputState g) (player g) (levelManager
     g) (collectiblesManager g) (animation g) (obstaclesManager g).

Definition set_isPaused (v : bool) (g : t) : t :=
  mk (isRunning g) v (isGameOver g) (isLevelComplete g) (score g)
     (lastFrameTime g) (deltaTime g) (inputState g) (player g) (levelManager
     g) (collectiblesManager g) (animation g) (obstaclesManager g).

Definition set_isGameOver (v : bool) (g : t) : t :=
  mk (isRunning g) (isPaused g) v (isLevelComplete g) (score g)
     (lastFrameTime g) (deltaTime g) (inputState g) (player g) (levelManager
     g) (collectiblesManager g) (animation g) (obstaclesManager g).

Definition set_isLevelComplete (v : bool) (g : t) : t :=
  mk (isRunning g) (isPaused g) (isGameOver g) v (score g) (lastFrameTime g)
     (deltaTime g) (inputState g) (player g) (levelManager g)
     (collectiblesManager g) (animation g) (obstaclesManager g).

Definition set_score (v : R) (g : t) : t :=
  mk (isRunning g) (isPaused g) (isGameOver g) (isLevelComplete g) v
     (lastFrameTime g) (deltaTime g) (inputState g) (player g) (levelManager
     g) (collectiblesManager g) (animation g) (obstaclesManager g).

Definition set_lastFrameTime (v : R) (g : t) : t :=
  mk (isRunning g) (isPaused g) (isGameOver g) (isLevelComplete g) (score g)
     v (deltaTime g) (inputState g) (player g) (levelManager g)
     (collectiblesManager g) (animation g) (obstaclesManager g).

Definition set_deltaTime (v : R) (g : t) : t :=
  mk (isRunning g) (isPaused g) (isGameOver g) (isLevelComplete g) (score g)
     (lastFrameTime g) v (inputState g) (player g) (levelManager g)
     (collectiblesManager g) (animation g) (obstaclesManager g).

Definition set_inputState (v : InputState) (g : t) : t :=
  mk (isRunning g) (isPaused g) (isGameOver g) (isLevelComplete g) (score g)
     (lastFrameTime g) (deltaTime g) v (player g) (levelManager g)
     (collectiblesManager g) (animation g) (obstaclesManager g).

Definition set_player (v : option Player.t) (g : t) : t :=
  mk (isRunning g) (isPaused g) (isGameOver g) (isLevelComplete g) (score g)
     (lastFrameTime g) (deltaTime g) (inputState g) v (levelManager g)
     (collectiblesManager g) (animation g) (obstaclesManager g).

Definition set_levelManager (v : Levels.t) (g : t) : t :=
  mk (isRunning g) (isPaused g) (isGameOver g) (isLevelComplete g) (score g)
     (lastFrameTime g) (deltaTime g) (inputState g) (player g) v
     (collectiblesManager g) (animation g) (obstaclesManager g).

Definition set_collectiblesManager (v : CollectiblesManager.t) (g : t) : t :=
  mk (isRunning g) (isPaused g) (isGameOver g) (isLevelComplete g) (score g)
     (lastFrameTime g) (deltaTime g) (inputState g) (player g) (levelManager
     g) v (animation g) (obstaclesManager g).

Definition set_animation (v : Collectibles.Animation) (g : t) : t :=
  mk (isRunning g) (isPaused g) (isGameOver g) (isLevelComplete g) (score g)
     (lastFrameTime g) (deltaTime g) (inputState g) (player g) (levelManager
     g) (collectiblesManager g) v (obstaclesManager g).

Definition set_obstaclesManager (v : Obstacles.t) (g : t) : t :=
  mk (isRunning g) (isPaused g) (isGameOver g) (isLevelComplete g) (score g)
     (lastFrameTime g) (deltaTime g) (inputState g) (player g) (levelManager
     g) (collectiblesManager g) (animation g) v.

(** The closures the game registers with the collectibles manager and with
    the player. *)
Definition onCollectibleCollectedCb : Callback := 1%nat.
Definition onCoinCollectedCb : Callback := 2%nat.
Definition onCheckpointActivatedCb : Callback := 3%nat.
Definition onPlayerDeathCb : Callback := 4%nat.

(** The constructor followed by [createGameSystems()]. *)
Definition create : t :=
  mk false false false false 0 0 0 (mkInput false false false false false)
     None (Levels.create catalogue)
     (Collectibles.setCallbacks (Some onCollectibleCollectedCb)
        (Some onCoinCollectedCb) (Some onCheckpointActivatedCb)
        (CollectiblesManager.mk [] None None None))
     Collectibles.animationInit Obstacles.create.

(** [quitToMenu()] *)
Definition quitToMenu (g : t) : t :=
  set_isPaused false (set_isRunning false g).

(** [pauseGame()] *)
Definition pauseGame (g : t) : t :=
  if negb (isRunning g) then g else set_isPaused true g.

(** [resumeGame()]; [now] is [performance.now()]. *)
Definition resumeGame (now : R) (g : t) : t :=
  if negb (isRunning g) then g
  else set_lastFrameTime now (set_isPaused false g).

(** [startGame()] *)
Definition startGame (g : t) (h : Host.t) : Result unit * t * Host.t :=
  let g1 := set_score 0
              (set_isLevelComplete false
                 (set_isGameOver false
                    (set_isPaused false (set_isRunning true g)))) in
  match Levels.loadLevel 0 (levelManager g1) (collectiblesManager g1) h with
  | (Throw e, m, c) =>
      (Throw e, set_collectiblesManager c (set_levelManager m g1), h)
  | (Ok playerStartPosition, m, c) =>
      let g2 := set_collectiblesManager c (set_levelManager m g1) in
      match player g2 with
      | None =>
          let p := Player.setOnDeathCallback onPlayerDeathCb
                     (Player.create playerStartPosition) in
          (Ok tt, set_player (Some p) g2, h)
      | Some p =>
          let '(p1, h1) := Player.respawn p h in
          let p2 := Player.setSpawnPoint playerStartPosition p1 in
          (Ok tt, set_player (Some p2) g2, h1)
      end
  end.

(** [restartLevel()] *)
Definition restartLevel (g : t) (h : Host.t) : Result unit * t * Host.t :=
  let g1 := set_isLevelComplete false (set_isGameOver false g) in
  let currentLevelIndex := Levels.getCurrentLevelIndex (levelManager g1) in
  match Levels.loadLevel currentLevelIndex (levelManager g1)
          (collectiblesManager g1) h with
  | (Throw e, m, c) =>
      (Throw e, set_collectiblesManager c (set_levelManager m g1), h)
  | (Ok playerStartPosition, m, c) =>
      let g2 := set_collectiblesManager c (set_levelManager m g1) in
      let '(g3, h3) :=
        match player g2 with
        | Some p =>
            let '(p1, h1) :=
              Player.respawn (Player.setSpawnPoint playerStartPosition p) h in
            (set_player (Some p1) g2, h1)
        | None => (g2, h)
        end in
      let g4 := set_score 0 g3 in
      (Ok tt, set_isPaused false (set_isRunning true g4), h3)
  end.

(** [nextLevel()] *)
Definition nextLevel (g : t) (h : Host.t) : Result unit * t * Host.t :=
  let nextLevelIndex := Levels.getNextLevelIndex (levelManager g) in
  if (nextLevelIndex =? -1)%Z then (Ok tt, quitToMenu g, h)
  else
    match Levels.loadLevel nextLevelIndex (levelManager g)
            (collectiblesManager g) h with
    | (Throw e, m, c) =>
        (Throw e, set_collectiblesManager c (set_levelManager m g), h)
    | (Ok playerStartPosition, m, c) =>
        let g2 := set_collectiblesManager c (set_levelManager m g) in
        let '(g3, h3) :=
          match player g2 with
          | Some p =>
              let '(p1, h1) :=
                Player.respawn (Player.setSpawnPoint playerStartPosition p) h in
              (set_player (Some p1) g2, h1)
          | None => (g2, h)
          end in
        let g4 := set_isLevelComplete false (set_isGameOver false g3) in
        (Ok tt, set_isPaused false (set_isRunning true g4), h3)
    end.

(** [onPlayerDeath()] *)
Definition onPlayerDeath (g : t) : t :=
  if isGameOver g then g else set_isGameOver true g.

(** The time bonus of [onLevelComplete()] *)
Definition timeBonus (time : R) : R :=
  Math_max 0 (1000 - Math_floor time * 10).

(** [onLevelComplete()]: the game afterwards and, when the call is not a
    repeat, the data it computes for the screen. *)
Definition onLevelComplete (g : t) : t * option Summary :=
  if isLevelComplete g then (g, None)
  else
    let g1 := set_isLevelComplete true g in
    let time := Levels.completionTime (levelManager g1) in
    let coins := Collectibles.getCollectedCoins (collectiblesManager g1) in
    let totalCoins := Collectibles.getCoinCount (collectiblesManager g1) in
    let coinBonus := INR coins * 100 in
    let levelScore := score g1 + timeBonus time + coinBonus in
    (g1, Some (mkSummary time coins totalCoins levelScore)).

(** [onCoinCollected(value)] *)
Definition onCoinCollected (value : R) (g : t) : t :=
  set_score (score g + value) g.

(** [onCollectibleCollected(collectible)] and
    [onCheckpointActivated(checkpoint)] only play a sound. *)
Definition onCollectibleCollected (ty : CollectibleType) (g : t) : t := g.
Definition onCheckpointActivated (at_ : Vec3.t) (g : t) : t := g.

(** A callback of the game runs when the player or the collectibles manager
    calls it. *)
Definition react (e : Event) (g : t) : t :=
  match e with
  | EvOnDeath cb =>
      if Nat.eqb cb onPlayerDeathCb then onPlayerDeath g else g
  | EvCoinCollected cb value =>
      if Nat.eqb cb onCoinCollectedCb then onCoinCollected value g else g
  | EvCheckpointActivated cb at_ =>
      if Nat.eqb cb onCheckpointActivatedCb then onCheckpointActivated at_ g
      else g
  | EvCollectible cb ty =>
      if Nat.eqb cb onCollectibleCollectedCb then onCollectibleCollected ty g
      else g
  | _ => g
  end.

(** The calls made between the host states [h] and [h'], in order.  The
    callbacks touch no state that the caller reads. *)
Definition since (h h' : Host.t) : list Event :=
  skipn (List.length (Host.trace h)) (Host.trace h').

Definition deliver (h h' : Host.t) (g : t) : t :=
  fold_left (fun q e => react e q) (since h h') g.

(** The switch of [handleKeyUp(event)] on [event.key] *)
Definition releaseKey (key : string) (i : InputState) : InputState :=
  if String.eqb key "w" || String.eqb key "W" || String.eqb key "ArrowUp"
  then mkInput false (backward i) (left i) (right i) (jumpKey i)
  else if String.eqb key "s" || String.eqb key "S" || String.eqb key "ArrowDown"
  then mkInput (forward i) false (left i) (right i) (jumpKey i)
  else if String.eqb key "a" || String.eqb key "A" || String.eqb key "ArrowLeft"
  then mkInput (forward i) (backward i) false (right i) (jumpKey i)
  else if String.eqb key "d" || String.eqb key "D" || String.eqb key "ArrowRight"
  then mkInput (forward i) (backward i) (left i) false (jumpKey i)
  else if String.eqb key " "
  then mkInput (forward i) (backward i) (left i) (right i) false
  else i.

(** [handleKeyUp(event)] *)
Definition handleKeyUp (key : string) (g : t) : t :=
  set_inputState (releaseKey key (inputState g)) g.

(** The movement and jump cases of the switch of [handleKeyDown(event)] *)
Definition pressKey (key : string) (i : InputState) : InputState :=
  if String.eqb key "w" || String.eqb key "W" || String.eqb key "ArrowUp"
  then mkInput true (backward i) (left i) (right i) (jumpKey i)
  else if String.eqb key "s" || String.eqb key "S" || String.eqb key "ArrowDown"
  then mkInput (forward i) true (left i) (right i) (jumpKey i)
  else if String.eqb key "a" || String.eqb key "A" || String.eqb key "ArrowLeft"
  then mkInput (forward i) (backward i) true (right i) (jumpKey i)
  else if String.eqb key "d" || String.eqb key "D" || String.eqb key "ArrowRight"
  then mkInput (forward i) (backward i) (left i) true (jumpKey i)
  else if String.eqb key " "
  then mkInput (forward i) (backward i) (left i) (right i) true
  else i.

(** [handleKeyDown(event)] *)
Definition handleKeyDown (key : string) (g : t) (h : Host.t)
  : Result unit * t * Host.t :=
  if negb (isRunning g) || isPaused g then (Ok tt, g, h)
  else if String.eqb key "r" || String.eqb key "R" then restartLevel g h
  else (Ok tt, set_inputState (pressKey key (inputState g)) g, h).

(** [physics.update(deltaTime)] seen from the ball. *)
Definition physicsStep (w : Integration) (p : Player.t) : Player.t :=
  physicsUpdate (integrated w)
    (fold_left (fun q niy => Player.onCollide niy q) (contactNormals w) p).

(** The blocks of [update()] after the pause test, in order. *)

(** "Update player" *)
Definition playerUpdate (g : t) (h : Host.t) : t * Host.t :=
  match player g with
  | Some p =>
      let '(p1, h1) := Player.update (deltaTime g) (inputState g) p h in
      (deliver h h1 (set_player (Some p1) g), h1)
  | None => (g, h)
  end.

(** "Check for level completion" *)
Definition finishCheck (g : t) (h : Host.t) : Result unit * t :=
  match player g with
  | Some p =>
      if negb (isLevelComplete g) then
        match Levels.checkFinish (Player.meshPosition p) (levelManager g) h with
        | (Throw e, m) => (Throw e, set_levelManager m g)
        | (Ok reached, m) =>
            let g1 := set_levelManager m g in
            (Ok tt, if reached then fst (onLevelComplete g1) else g1)
        end
      else (Ok tt, g)
  | None => (Ok tt, g)
  end.

(** "Update level elements"; without a player, [player.mesh] throws once
    the obstacles have moved. *)
Definition levelUpdate (g : t) (h : Host.t) : Result unit * t :=
  match player g with
  | Some p =>
      let '(r, m) := Levels.update (deltaTime g) p (levelManager g) h in
      (r, set_levelManager m g)
  | None =>
      let m := levelManager g in
      (Throw TypeError,
       set_levelManager
         (Levels.mk (Levels.levels m) (Levels.currentLevelIndex m)
            (Levels.currentLevel m)
            (map (LevelManager.updateObstacle (deltaTime g)) (Levels.obstacles m))
            (Levels.isLevelComplete m) (Levels.startTime m)
            (Levels.completionTime m) (Levels.finishArea m)) g)
  end.

(** "Update collectibles" *)
Definition collectiblesUpdate (g : t) (h : Host.t) : t * Host.t :=
  match player g with
  | Some p =>
      let '(a1, m1, p1, h1) :=
        Collectibles.update (deltaTime g) (animation g)
          (collectiblesManager g) p h in
      (deliver h h1
         (set_player (Some p1)
            (set_collectiblesManager m1 (set_animation a1 g))), h1)
  | None => (g, h)
  end.

(** What [applyObstacleForces] leaves of an obstacle of the manager. *)
Definition absorb (i : Obstacles.Item) (o : ObstaclesManager.Obstacle)
  : Obstacles.Item :=
  match i, o with
  | Obstacles.ItPlatform _, ObstaclesManager.ObDisappearingPlatform q =>
      Obstacles.ItPlatform q
  | _, _ => i
  end.

Fixpoint absorbAll (l : list Obstacles.Item)
  (l' : list ObstaclesManager.Obstacle) : list Obstacles.Item :=
  match l, l' with
  | i :: r, o :: r' => absorb i o :: absorbAll r r'
  | _, _ => l
  end.

(** "Update obstacles" *)
Definition obstaclesUpdate (g : t) : Result unit * t :=
  let om := Obstacles.update (deltaTime g) (obstaclesManager g) in
  let g1 := set_obstaclesManager om g in
  match player g1 with
  | Some p =>
      let '(l, p1, e) :=
        ObstaclesManager.applyObstacleForces
          (map Obstacles.forForces (Obstacles.obstacles om)) p (deltaTime g1) in
      let om1 := Obstacles.mk (absorbAll (Obstacles.obstacles om) l)
                   (Obstacles.spikesActive om)
                   (Obstacles.timeToNextSpikeToggle om) in
      (match e with Some err => Throw err | None => Ok tt end,
       set_player (Some p1) (set_obstaclesManager om1 g1))
  | None => (Ok tt, g1)
  end.

(** [update()]; [now] is [performance.now()], [w] what the simulation
    world does in this frame.  An exception ends the frame where it is
    thrown. *)
Definition update (now : R) (w : Integration) (g : t) (h : Host.t)
  : Result unit * t * Host.t :=
  let g1 := set_lastFrameTime now
              (set_deltaTime ((now - lastFrameTime g) / 1000) g) in
  let g2 := set_deltaTime (Math_min (deltaTime g1) (1/10)) g1 in
  if negb (isRunning g2) || isPaused g2 then (Ok tt, g2, h)
  else
    let g3 := set_player (option_map (physicsStep w) (player g2)) g2 in
    let '(g4, h4) := playerUpdate g3 h in
    match finishCheck g4 h4 with
    | (Throw e, g5) => (Throw e, g5, h4)
    | (Ok _, g5) =>
        match levelUpdate g5 h4 with
        | (Throw e, g6) => (Throw e, g6, h4)
        | (Ok _, g6) =>
            let '(g7, h7) := collectiblesUpdate g6 h4 in
            let '(r, g8) := obstaclesUpdate g7 in
            (r, g8, h7)
        end
    end.

(** What happens to a game: the calls of the user interface, the key
    events, a frame of the main loop, and wall-clock time passing between
    them. *)
Inductive Action : Type :=
| StartGame
| PauseGame
| ResumeGame (now : R)
| RestartLevel
| NextLevel
| QuitToMenu
| KeyDown (key : string)
| KeyUp (key : string)
| Tick (now : R) (w : Integration)
| Pass (ms : R).

(** The timeouts belong to the player. *)
Definition pass (ms : R) (g : t) (h : Host.t) : t * Host.t :=
  match player g with
  | Some p => let '(p1, h1) := elapse ms p h in (set_player (Some p1) g, h1)
  | None =>
      (g, Host.mk (Host.now h + ms) (Host.timers h) (Host.nextTimer h)
            (Host.trace h))
  end.

(** An exception is reported by the browser and the page goes on with the
    state the call has left. *)
Definition settle {A : Type} (r : Result A * t * Host.t) : t * Host.t :=
  let '(_, g, h) := r in (g, h).

Definition step (a : Action) (g : t) (h : Host.t) : t * Host.t :=
  match a with
  | StartGame => settle (startGame g h)
  | PauseGame => (pauseGame g, h)
  | ResumeGame now => (resumeGame now g, h)
  | RestartLevel => settle (restartLevel g h)
  | NextLevel => settle (nextLevel g h)
  | QuitToMenu => (quitToMenu g, h)
  | KeyDown key => settle (handleKeyDown key g h)
  | KeyUp key => (handleKeyUp key g, h)
  | Tick now w => settle (update now w g h)
  | Pass ms => pass ms g h
  end.

Fixpoint run (l : list Action) (g : t) (h : Host.t) : t * Host.t :=
  match l with
  | [] => (g, h)
  | a :: l' => let '(g1, h1) := step a g h in run l' g1 h1
  end.
End Game.

(** A game whose ball has taken a checkpoint at (10, 5, 0) and holds the
    jump power, and the host with the pending expiry. *)
Definition checkpointedBall : Player.t :=
  Player.set_jumpPowerTimeout (Some 1%nat)
    (Player.set_hasJumpPower true
       (Player.setSpawnPoint (Vec3.mk 10 5 0)
          (Player.setOnDeathCallback Game.onPlayerDeathCb
             (Player.create (Vec3.mk 0 3 0))))).

Definition hostWithJumpTimer : Host.t :=
  Host.mk 5000 [Host.mkTimer 1 15000 ExpireJumpPower] 2 [].

Definition gameAfterCheckpoint : Game.t :=
  Game.set_player (Some checkpointedBall)
    (Game.set_score 30 (Game.set_isRunning true Game.create)).


(** What a call adds to the score: the value the coin callback of the game
    is called with. *)
Definition coinValue (e : Event) : R :=
  match e with
  | EvCoinCollected cb value =>
      if Nat.eqb cb Game.onCoinCollectedCb then value else 0
  | _ => 0
  end.

Definition coinSum (l : list Event) : R :=
  fold_right (fun e s => coinValue e + s) 0 l.

(** Every coin is worth ten points, as [createCoin] makes it. *)
Definition coinsWorthTen (l : list Collectible.t) : Prop :=
  Forall (fun c => Collectibles.isCoin c = true -> Collectible.value c = 10) l.

(** The coin callback of the collectibles manager is the one of the game. *)
Definition wired (g : Game.t) : Prop :=
  CollectiblesManager.onCoinCollected (Game.collectiblesManager g) =
  Some Game.onCoinCollectedCb.

(** The coins collected in the current level. *)
Definition collectedCoins (g : Game.t) : nat :=
  Collectibles.getCollectedCoins (Game.collectiblesManager g).

(** Play within a level: anything but starting, restarting or changing the
    level. *)
Definition playing (a : Game.Action) : Prop :=
  match a with
  | Game.StartGame | Game.RestartLevel | Game.NextLevel => False
  | Game.KeyDown key => key <> "r"%string /\ key <> "R"%string
  | _ => True
  end.










(** A running game on the first level with the ball on its first coin. *)
Definition gameOnCoin : Game.t :=
  let '(_, m, c) :=
    Levels.loadLevel 0 (Game.levelManager Game.create)
      (Game.collectiblesManager Game.create) Host.init in
  Game.set_player (Some (Player.setOnDeathCallback Game.onPlayerDeathCb
                           (Player.create (Vec3.mk (-5) (3/2) (-5)))))
    (Game.set_collectiblesManager c
       (Game.set_levelManager m (Game.set_isRunning true Game.create))).

(** A frame in which the world leaves the ball where it is. *)
Definition stillFrame : Integration :=
  mkIntegration (Body.create 1 (Vec3.mk (-5) (3/2) (-5))) [].



(** ** The audio manager (js/obstacles.js): the volume settings *)

Module Audio.
(** [masterGain] and [bgMusicNode] hold [gain.value] of the node, or [None]
    while there is no node.  [stubbed] records the fallback of [init()],
    which replaces [setMasterVolume] by a function that does nothing. *)
Record t : Type := mk {
  masterVolume : R;
  musicVolume : R;
  sfxVolume : R;
  isMuted : bool;
  masterGain : option R;
  bgMusicNode : option R;
  stubbed : bool
}.

(** The constructor with [init()]; [webAudio] tells whether the browser
    provides an audio context. *)
Definition create (webAudio : bool) : t :=
  if webAudio then mk (7/10) (5/10) (8/10) false (Some (7/10)) None false
  else mk (7/10) (5/10) (8/10) false None None true.

(** [setMasterVolume(volume)] *)
Definition setMasterVolume (volume : R) (a : t) : t :=
  if stubbed a then a
  else
    let v := Math_max 0 (Math_min 1 volume) in
    mk v (musicVolume a) (sfxVolume a) (isMuted a)
       (match masterGain a with Some _ => Some v | None => None end)
       (bgMusicNode a) (stubbed a).

(** [setMusicVolume(volume)] *)
Definition setMusicVolume (volume : R) (a : t) : t :=
  let v := Math_max 0 (Math_min 1 volume) in
  mk (masterVolume a) v (sfxVolume a) (isMuted a) (masterGain a)
     (match bgMusicNode a with Some _ => Some v | None => None end)
     (stubbed a).

(** [setSfxVolume(volume)] *)
Definition setSfxVolume (volume : R) (a : t) : t :=
  mk (masterVolume a) (musicVolume a) (Math_max 0 (Math_min 1 volume))
     (isMuted a) (masterGain a) (bgMusicNode a) (stubbed a).

(** [setMuted(muted)] *)
Definition setMuted (muted : bool) (a : t) : t :=
  mk (masterVolume a) (musicVolume a) (sfxVolume a) muted
     (match masterGain a with
      | Some _ => Some (if muted then 0 else masterVolume a)
      | None => None
      end)
     (bgMusicNode a) (stubbed a).
End Audio.

(** * Properties *)

(** ** Comparisons *)

Lemma Rltb_true_iff (a b : R) : Rltb a b = true <-> a < b.
Proof. unfold Rltb; destruct (Rlt_dec a b); split; intros; congruence || lra. Qed.

Lemma Rltb_false_iff (a b : R) : Rltb a b = false <-> b <= a.
Proof. unfold Rltb; destruct (Rlt_dec a b); split; intros; congruence || lra. Qed.

Lemma Rleb_true_iff (a b : R) : Rleb a b = true <-> a <= b.
Proof. unfold Rleb; destruct (Rle_dec a b); split; intros; congruence || lra. Qed.

Lemma Rleb_false_iff (a b : R) : Rleb a b = false <-> b < a.
Proof. unfold Rleb; destruct (Rle_dec a b); split; intros; congruence || lra. Qed.

Lemma Rgtb_true_iff (a b : R) : Rgtb a b = true <-> b < a.
Proof. apply Rltb_true_iff. Qed.

Lemma Rgtb_false_iff (a b : R) : Rgtb a b = false <-> a <= b.
Proof. apply Rltb_false_iff. Qed.

Lemma Rgeb_true_iff (a b : R) : Rgeb a b = true <-> b <= a.
Proof. apply Rleb_true_iff. Qed.

Lemma Rgeb_false_iff (a b : R) : Rgeb a b = false <-> a < b.
Proof. apply Rleb_false_iff. Qed.

Lemma vec3_eta (v : Vec3.t) : Vec3.mk (Vec3.x v) (Vec3.y v) (Vec3.z v) = v.
Proof. destruct v; reflexivity. Qed.

(** ** Jump *)

Lemma jump_unpowered (p : Player.t) (h : Host.t) :
  Player.hasJumpPower p = false -> Player.jump p h = (p, h).
Proof.
  intros Hpow. unfold Player.jump, Player.isOnJumpPad.
  rewrite Hpow. destruct (Player.canJump p); reflexivity.
Qed.

(** C2.  With [hasJumpPower] false, [jump()] changes nothing: the body keeps
    its velocity (no impulse), the cooldown is not started and no effect is
    emitted, whatever the ground-contact flag and the cooldown are.  The
    same holds when the jump is asked for through [processInput]: body,
    cooldown, ground-contact flag and host are as before. *)
Theorem jump_without_power_is_noop (p : Player.t) (h : Host.t) :
  Player.hasJumpPower p = false ->
  Player.jump p h = (p, h) /\
  (forall i : InputState,
   let '(p', h') := Player.processInput i p h in
   Player.body p' = Player.body p /\
   Player.jumpCooldown p' = Player.jumpCooldown p /\
   Player.canJump p' = Player.canJump p /\
   h' = h).
Proof.
  intros Hpow. split; [apply jump_unpowered, Hpow|].
  intros i. unfold Player.processInput.
  match goal with
  | |- context [if ?c then Player.jump ?q h else _] =>
      assert (Hq : Player.hasJumpPower q = false /\
                   Player.body q = Player.body p /\
                   Player.jumpCooldown q = Player.jumpCooldown p /\
                   Player.canJump q = Player.canJump p);
      [|rewrite (jump_unpowered q h (proj1 Hq)); destruct c; tauto]
  end.
  repeat match goal with
  | |- context [if ?c then _ else _] => destruct c
  end; cbn; auto.
Qed.

Lemma jump_without_power_is_noop_witness :
  Player.canJump groundedBall = true /\
  Player.jumpCooldown groundedBall <= 0 /\
  Player.jump groundedBall Host.init = (groundedBall, Host.init).
Proof.
  split; [reflexivity|]. split; [simpl; lra|].
  apply (proj1 (jump_without_power_is_noop groundedBall Host.init eq_refl)).
Defined.

(** ** Death and respawn *)

Lemma removeAllPowerups_spec (p : Player.t) (h : Host.t) :
  let '(p', h') := Player.removeAllPowerups p h in
  Player.hasJumpPower p' = false /\ Player.hasSpeedBoost p' = false /\
  Player.body p' = Player.body p /\
  Player.spawnPosition p' = Player.spawnPosition p /\
  Player.canJump p' = Player.canJump p /\
  Player.jumpCooldown p' = Player.jumpCooldown p /\
  Player.onDeath p' = Player.onDeath p /\
  Host.trace h' = Host.trace h /\ Host.now h' = Host.now h.
Proof.
  unfold Player.removeAllPowerups.
  destruct p as [r sp mf jf ms cj ij jc md im hj hs sf ta [[|jt]|] [[|st]|] od b mp];
    cbn; repeat split; reflexivity.
Qed.

Lemma respawn_spec (p : Player.t) (h : Host.t) :
  let '(p', h') := Player.respawn p h in
  Body.position (Player.body p') = Player.spawnPosition p /\
  Body.velocity (Player.body p') = Vec3.zero /\
  Body.angularVelocity (Player.body p') = Vec3.zero /\
  Player.spawnPosition p' = Player.spawnPosition p /\
  Player.canJump p' = false /\ Player.jumpCooldown p' = 1/2 /\
  Player.hasJumpPower p' = false /\ Player.hasSpeedBoost p' = false /\
  Player.onDeath p' = Player.onDeath p /\
  Host.trace h' = Host.trace h /\ Host.now h' = Host.now h.
Proof.
  unfold Player.respawn.
  match goal with
  | |- context [Player.removeAllPowerups ?q ?g] =>
      pose proof (removeAllPowerups_spec q g) as H;
      destruct (Player.removeAllPowerups q g) as [p' h']
  end.
  destruct H as (Hj & Hs & Hb & Hsp & Hc & Hcd & Hod & Htr & Hnow).
  rewrite Hb, Hsp, Hc, Hcd, Hod, Htr, Hnow. cbn.
  rewrite vec3_eta. repeat split; assumption.
Qed.

(** C3.  When the ball is below the death plane ([mesh.position.y < -10]),
    [checkBounds()] kills the player: the body is put exactly on the current
    spawn point, its linear and angular velocity are exactly zero, both
    power-up flags are cleared, and the death callback, when one is
    registered, is invoked (once, after the death effect). *)
Theorem checkBounds_below_death_plane (p : Player.t) (h : Host.t) :
  Vec3.y (Player.meshPosition p) < -10 ->
  let '(p', h') := Player.checkBounds p h in
  Body.position (Player.body p') = Player.spawnPosition p /\
  Player.spawnPosition p' = Player.spawnPosition p /\
  Body.velocity (Player.body p') = Vec3.zero /\
  Body.angularVelocity (Player.body p') = Vec3.zero /\
  Player.hasJumpPower p' = false /\
  Player.hasSpeedBoost p' = false /\
  Host.trace h' =
    Host.trace h ++ EvDeathEffect ::
      match Player.onDeath p with Some cb => [EvOnDeath cb] | None => [] end.
Proof.
  intros Hy. unfold Player.checkBounds.
  rewrite (proj2 (Rltb_true_iff _ _) Hy).
  unfold Player.die.
  pose proof (respawn_spec p (Player.createDeathEffect h)) as H.
  destruct (Player.respawn p (Player.createDeathEffect h)) as [p2 h2].
  destruct H as (Hpos & Hv & Hw & Hsp & _ & _ & Hj & Hs & Hod & Htr & _).
  rewrite Hod.
  destruct (Player.onDeath p) as [cb|]; cbn;
    rewrite ?Htr; cbn; rewrite <- ?app_assoc; cbn; repeat split; assumption.
Qed.

Lemma checkBounds_below_death_plane_witness :
  let '(p', h') := Player.checkBounds fallenBall Host.init in
  Body.position (Player.body p') = Vec3.mk 12 (7/2) 4 /\
  Body.velocity (Player.body p') = Vec3.zero /\
  Host.trace h' = [EvDeathEffect; EvOnDeath 1%nat].
Proof.
  pose proof (checkBounds_below_death_plane fallenBall Host.init) as H.
  destruct (Player.checkBounds fallenBall Host.init) as [p' h'].
  destruct H as (Hpos & _ & Hv & _ & _ & _ & Htr).
  - cbn. lra.
  - repeat split; assumption.
Defined.

(** ** Ground contact *)

Lemma jump_not_grounded (p : Player.t) (h : Host.t) :
  Player.canJump p = false -> Player.jump p h = (p, h).
Proof. intros Hc. unfold Player.jump. rewrite Hc. reflexivity. Qed.

Lemma processInput_not_grounded (i : InputState) (p : Player.t) (h : Host.t) :
  Player.canJump p = false ->
  Player.canJump (fst (Player.processInput i p h)) = false /\
  snd (Player.processInput i p h) = h.
Proof.
  intros Hc. unfold Player.processInput.
  repeat match goal with
  | |- context [if ?c then _ else _] =>
      match c with
      | context [Player.canJump] => fail 1
      | _ => destruct c
      end
  end; cbn; rewrite Hc; rewrite ?andb_false_r; cbn; auto.
Qed.

Lemma applyMovementForces_canJump (dt : R) (p : Player.t) :
  Player.canJump (Player.applyMovementForces dt p) = Player.canJump p.
Proof.
  unfold Player.applyMovementForces.
  destruct (Player.isMoving p); [|reflexivity].
  cbn. reflexivity.
Qed.

Lemma checkBounds_not_grounded (p : Player.t) (h : Host.t) :
  Player.canJump p = false ->
  Player.canJump (fst (Player.checkBounds p h)) = false.
Proof.
  intros Hc. unfold Player.checkBounds.
  destruct (Rltb _ _); [|exact Hc].
  unfold Player.die.
  pose proof (respawn_spec p (Player.createDeathEffect h)) as H.
  destruct (Player.respawn p (Player.createDeathEffect h)) as [p2 h2].
  destruct H as (_ & _ & _ & _ & Hcj & _).
  destruct (Player.onDeath p2); exact Hcj.
Qed.

Lemma update_not_grounded (dt : R) (i : InputState) (p : Player.t) (h : Host.t) :
  Player.canJump p = false ->
  Player.canJump (fst (Player.update dt i p h)) = false.
Proof.
  intros Hc. unfold Player.update.
  destruct (processInput_not_grounded i p h Hc) as [H1 _].
  destruct (Player.processInput i p h) as [p1 h1]. cbn in H1.
  pose proof (checkBounds_not_grounded (Player.applyMovementForces dt p1) h1) as H3.
  rewrite applyMovementForces_canJump in H3. specialize (H3 H1).
  destruct (Player.checkBounds _ h1) as [p3 h3]. cbn in H3.
  destruct (Rgtb _ _); cbn; exact H3.
Qed.

Lemma fire_canJump (a : TimerAction) (p : Player.t) :
  Player.canJump (Player.fire a p) = Player.canJump p.
Proof. destruct a; reflexivity. Qed.

Lemma elapse_canJump (ms : R) (p : Player.t) (h : Host.t) :
  Player.canJump (fst (elapse ms p h)) = Player.canJump p.
Proof.
  unfold elapse. cbn.
  generalize (Host.sortByDue (filter (Host.isDue (Host.now h + ms)) (Host.timers h))).
  intros l. revert p. induction l as [|tm l IH]; intros p; cbn; [reflexivity|].
  rewrite IH. apply fire_canJump.
Qed.

Lemma step_not_grounded (s : Step) (p : Player.t) (h : Host.t) :
  ~ grounding s ->
  Player.canJump p = false ->
  Player.canJump (fst (step s p h)) = false.
Proof.
  intros Hs Hc. destruct s as [dt i|b|niy|d|d|ms]; unfold step.
  - apply update_not_grounded, Hc.
  - exact Hc.
  - cbn in Hs. unfold Player.onCollide.
    rewrite (proj2 (Rgtb_false_iff niy (1/2))) by lra. exact Hc.
  - unfold Player.giveJumpPower. cbn. exact Hc.
  - unfold Player.giveSpeedBoost. cbn. exact Hc.
  - rewrite elapse_canJump. exact Hc.
Qed.

Lemma steps_not_grounded (l : list Step) (p : Player.t) (h : Host.t) :
  Forall (fun s => ~ grounding s) l ->
  Player.canJump p = false ->
  Player.canJump (fst (steps l p h)) = false.
Proof.
  revert p h. induction l as [|s l IH]; intros p h Hl Hc; cbn; [exact Hc|].
  inversion Hl as [|s' l' Hs Hl']; subst.
  pose proof (step_not_grounded s p h Hs Hc) as H1.
  destruct (step s p h) as [p1 h1]. cbn in H1.
  apply IH; assumption.
Qed.

(** C10.  Right after [respawn()] the ground-contact flag is false and the
    cooldown is 0.5; from there on, through any frames, physics steps,
    pickups, timeouts and contacts none of which has an upward normal
    (ni.y > 0.5), a call of [jump()] changes neither the body nor the
    cooldown nor anything else. *)
Theorem jump_after_respawn_is_noop (p : Player.t) (h : Host.t) (l : list Step) :
  Forall (fun s => ~ grounding s) l ->
  let '(p1, h1) := Player.respawn p h in
  Player.canJump p1 = false /\
  Player.jumpCooldown p1 = 1/2 /\
  let '(p2, h2) := steps l p1 h1 in
  Player.jump p2 h2 = (p2, h2).
Proof.
  intros Hl.
  pose proof (respawn_spec p h) as H.
  destruct (Player.respawn p h) as [p1 h1].
  destruct H as (_ & _ & _ & _ & Hcj & Hcd & _).
  split; [exact Hcj|]. split; [exact Hcd|].
  pose proof (steps_not_grounded l p1 h1 Hl Hcj) as H2.
  destruct (steps l p1 h1) as [p2 h2]. cbn in H2.
  apply jump_not_grounded, H2.
Qed.

Lemma jump_after_respawn_is_noop_witness :
  let '(p1, h1) := Player.respawn groundedBall Host.init in
  let '(p2, h2) := steps afterRespawn p1 h1 in
  Player.jump p2 h2 = (p2, h2).
Proof.
  pose proof (jump_after_respawn_is_noop groundedBall Host.init afterRespawn) as H.
  destruct (Player.respawn groundedBall Host.init) as [p1 h1].
  destruct (steps afterRespawn p1 h1) as [p2 h2].
  apply H.
  unfold afterRespawn.
  repeat constructor; cbn; try tauto; lra.
Defined.

(** ** Horizontal speed *)

Lemma planar_length_scale (a b k : R) :
  0 <= k ->
  sqrt (a * k * (a * k) + 0 * 0 + b * k * (b * k)) =
  k * sqrt (a * a + 0 * 0 + b * b).
Proof.
  intros Hk.
  replace (a * k * (a * k) + 0 * 0 + b * k * (b * k))
    with (k * k * (a * a + 0 * 0 + b * b)) by ring.
  rewrite sqrt_mult; [|nra|nra].
  rewrite sqrt_square by exact Hk. reflexivity.
Qed.

Lemma applyMovementForces_boost (dt : R) (p : Player.t) :
  speedCap (Player.applyMovementForces dt p) = speedCap p.
Proof.
  unfold speedCap, Player.applyMovementForces.
  destruct (Player.isMoving p); reflexivity.
Qed.

Lemma applyMovementForces_velocity_moving (dt : R) (p : Player.t) :
  Player.isMoving p = true ->
  Body.velocity (Player.body (Player.applyMovementForces dt p)) =
  let v := Body.velocity (Player.body p) in
  if Rgtb (horizontalSpeed p) (speedCap p) then
    Vec3.mk (Vec3.x v * (speedCap p / horizontalSpeed p)) (Vec3.y v)
            (Vec3.z v * (speedCap p / horizontalSpeed p))
  else v.
Proof.
  intros Hm. unfold Player.applyMovementForces. rewrite Hm.
  fold (speedCap p). cbn. fold (horizontalSpeed p).
  destruct (Rgtb (horizontalSpeed p) (speedCap p)); reflexivity.
Qed.

Lemma applyMovementForces_velocity_coasting (dt : R) (p : Player.t) :
  Player.isMoving p = false ->
  Body.velocity (Player.body (Player.applyMovementForces dt p)) =
  let v := Body.velocity (Player.body p) in
  Vec3.mk (Vec3.x v * (95/100)) (Vec3.y v) (Vec3.z v * (95/100)).
Proof.
  intros Hm. unfold Player.applyMovementForces. rewrite Hm. reflexivity.
Qed.

(** C1, as the code has it.  While the player is moving, one call of
    [applyMovementForces] leaves the horizontal speed at or below the cap
    ([maxSpeed], times [speedBoostFactor] under the boost), for every initial
    velocity and every [dt]; while the player is not moving there is no
    clamp, the horizontal velocity is multiplied by 0.95; on both paths the
    vertical component of the velocity is unchanged. *)
Theorem applyMovementForces_capped_when_moving (p : Player.t) (dt : R) :
  0 <= speedCap p ->
  (Player.isMoving p = true ->
   horizontalSpeed (Player.applyMovementForces dt p) <= speedCap p) /\
  (Player.isMoving p = false ->
   horizontalSpeed (Player.applyMovementForces dt p) =
   95/100 * horizontalSpeed p) /\
  Vec3.y (Body.velocity (Player.body (Player.applyMovementForces dt p))) =
  Vec3.y (Body.velocity (Player.body p)).
Proof.
  intros Hcap.
  destruct (Player.isMoving p) eqn:Hm.
  - pose proof (applyMovementForces_velocity_moving dt p Hm) as Hv.
    unfold horizontalSpeed at 1. rewrite Hv. cbn zeta.
    destruct (Rgtb (horizontalSpeed p) (speedCap p)) eqn:Hgt.
    + apply Rgtb_true_iff in Hgt.
      split; [|split; [discriminate|reflexivity]].
      intros _. unfold Vec3.length. cbn [Vec3.x Vec3.y Vec3.z].
      rewrite planar_length_scale.
      * unfold horizontalSpeed, Vec3.length in *.
        cbn [Vec3.x Vec3.y Vec3.z] in *.
        set (speed := sqrt _) in *.
        unfold Rdiv. rewrite Rmult_assoc, Rinv_l by lra. lra.
      * apply Rmult_le_pos; [exact Hcap|].
        left. apply Rinv_0_lt_compat. lra.
    + apply Rgtb_false_iff in Hgt.
      split; [|split; [discriminate|reflexivity]].
      intros _. exact Hgt.
  - pose proof (applyMovementForces_velocity_coasting dt p Hm) as Hv.
    split; [discriminate|]. split; [|rewrite Hv; reflexivity].
    intros _. unfold horizontalSpeed, Vec3.length. rewrite Hv.
    cbn [Vec3.x Vec3.y Vec3.z]. apply planar_length_scale. lra.
Qed.

Lemma applyMovementForces_capped_when_moving_witness :
  horizontalSpeed (Player.applyMovementForces (1/60) rushingBall) <= 15.
Proof.
  replace 15 with (speedCap rushingBall) by (cbn; lra).
  apply (applyMovementForces_capped_when_moving rushingBall (1/60)).
  - cbn. lra.
  - reflexivity.
Defined.

(** C1 as stated fails when the player is not moving: a ball that rolls at
    speed 12 and gets no directional input still rolls at 11.4 after the
    call, above [maxSpeed] = 10. *)
Lemma applyMovementForces_uncapped_when_coasting :
  0 < 1/60 /\
  Player.hasSpeedBoost coastingBall = false /\
  ~ horizontalSpeed (Player.applyMovementForces (1/60) coastingBall)
    <= Player.maxSpeed coastingBall.
Proof.
  split; [lra|]. split; [reflexivity|].
  unfold horizontalSpeed, Vec3.length. cbn.
  replace (12 * (95 / 100) * (12 * (95 / 100)) + 0 * 0 + 0 * (95 / 100) * (0 * (95 / 100)))
    with ((114/10) * (114/10)) by field.
  rewrite sqrt_square by lra. lra.
Qed.

(** ** Checkpoints *)

Lemma notify_trace (cb : option Callback) (e : Callback -> Event) (h : Host.t) :
  Host.trace (CollectiblesManager.notify cb e h) =
  Host.trace h ++ match cb with Some k => [e k] | None => [] end.
Proof. destruct cb; cbn; [reflexivity|]. rewrite app_nil_r. reflexivity. Qed.

Lemma collectItem_active_checkpoint
  (m : CollectiblesManager.t) (c : Collectible.t) (p : Player.t) (h : Host.t) :
  Collectible.type c = CHECKPOINT ->
  Collectible.activated c = true ->
  Collectible.collected c = false ->
  let '(c', p', h') := CollectiblesManager.collectItem m c p h in
  c' = c /\ p' = p /\
  Host.timers h' = Host.timers h /\
  Host.trace h' = Host.trace h ++ repeatedPickupEvents m.
Proof.
  intros Hty Hact Hcol. unfold CollectiblesManager.collectItem.
  destruct c as [ty mp col act bp r v d]. cbn in Hty, Hact, Hcol. subst.
  cbn. repeat split.
  - destruct (CollectiblesManager.onCollectible m); reflexivity.
  - rewrite notify_trace. cbn. rewrite <- app_assoc. reflexivity.
Qed.

(** C4.  Picking up a checkpoint twice activates it once.  After the first
    pickup it is activated, its collected flag is false, the spawn point is
    just above it and the activation callback has run once (when it was not
    active before).  A second pickup, right away or at any later state of
    the player and the host, leaves the checkpoint and the player as they
    are, arms no timer and adds to the trace only the collection effect and
    the general callback, no activation; the collected flag is false
    again. *)
Theorem checkpoint_pickup_idempotent
  (m : CollectiblesManager.t) (c : Collectible.t) (p : Player.t) (h : Host.t) :
  Collectible.type c = CHECKPOINT ->
  let '(c1, p1, h1) := CollectiblesManager.collectItem m c p h in
  Collectible.activated c1 = true /\
  Collectible.collected c1 = false /\
  (Collectible.activated c = false ->
   Player.spawnPosition p1 =
     Vec3.mk (Vec3.x (Collectible.meshPosition c))
             (Vec3.y (Collectible.meshPosition c) + 1)
             (Vec3.z (Collectible.meshPosition c)) /\
   Host.trace h1 =
     Host.trace h ++ EvCollectionEffect CHECKPOINT ::
       match CollectiblesManager.onCheckpointActivated m with
       | Some k => [EvCheckpointActivated k (Collectible.meshPosition c)]
       | None => []
       end ++
       match CollectiblesManager.onCollectible m with
       | Some k => [EvCollectible k CHECKPOINT]
       | None => []
       end) /\
  (forall (p' : Player.t) (h' : Host.t),
   let '(c2, p2, h2) := CollectiblesManager.collectItem m c1 p' h' in
   c2 = c1 /\ p2 = p' /\
   Collectible.collected c2 = false /\
   Host.timers h2 = Host.timers h' /\
   Host.trace h2 = Host.trace h' ++ repeatedPickupEvents m) /\
  (forall k at_, ~ In (EvCheckpointActivated k at_) (repeatedPickupEvents m)).
Proof.
  intros Hty.
  assert (Hfirst :
    let '(c1, p1, h1) := CollectiblesManager.collectItem m c p h in
    Collectible.type c1 = CHECKPOINT /\
    Collectible.activated c1 = true /\
    Collectible.collected c1 = false /\
    (Collectible.activated c = false ->
     Player.spawnPosition p1 =
       Vec3.mk (Vec3.x (Collectible.meshPosition c))
               (Vec3.y (Collectible.meshPosition c) + 1)
               (Vec3.z (Collectible.meshPosition c)) /\
     Host.trace h1 =
       Host.trace h ++ EvCollectionEffect CHECKPOINT ::
         match CollectiblesManager.onCheckpointActivated m with
         | Some k => [EvCheckpointActivated k (Collectible.meshPosition c)]
         | None => []
         end ++
         match CollectiblesManager.onCollectible m with
         | Some k => [EvCollectible k CHECKPOINT]
         | None => []
         end)).
  { unfold CollectiblesManager.collectItem.
    destruct c as [ty mp col act bp r v d]. cbn in Hty. subst ty.
    destruct act; cbn.
    - repeat split; discriminate.
    - repeat split.
      rewrite !notify_trace. cbn.
      rewrite <- !app_assoc. cbn.
      destruct (CollectiblesManager.onCheckpointActivated m); reflexivity. }
  destruct (CollectiblesManager.collectItem m c p h) as [[c1 p1] h1].
  destruct Hfirst as (Hty1 & Hact1 & Hcol1 & Hsp).
  split; [exact Hact1|]. split; [exact Hcol1|]. split; [exact Hsp|].
  split.
  - intros p' h'.
    pose proof (collectItem_active_checkpoint m c1 p' h' Hty1 Hact1 Hcol1) as H2.
    destruct (CollectiblesManager.collectItem m c1 p' h') as [[c2 p2] h2].
    destruct H2 as (Hc & Hp & Htm & Htr). subst c2 p2. auto.
  - intros k at_ Hin. unfold repeatedPickupEvents in Hin.
    destruct (CollectiblesManager.onCollectible m); cbn in Hin;
      intuition discriminate.
Qed.

Lemma checkpoint_pickup_idempotent_witness :
  let '(c1, p1, h1) :=
    CollectiblesManager.collectItem levelOneManager levelOneCheckpoint
      groundedBall Host.init in
  let '(c2, p2, h2) := CollectiblesManager.collectItem levelOneManager c1 p1 h1 in
  Collectible.activated c1 = true /\ c2 = c1 /\ p2 = p1.
Proof.
  pose proof (checkpoint_pickup_idempotent levelOneManager levelOneCheckpoint
                groundedBall Host.init eq_refl) as H.
  destruct (CollectiblesManager.collectItem levelOneManager levelOneCheckpoint
              groundedBall Host.init) as [[c1 p1] h1].
  destruct H as (Ha & _ & _ & Hsecond & _).
  specialize (Hsecond p1 h1).
  destruct (CollectiblesManager.collectItem levelOneManager c1 p1 h1)
    as [[c2 p2] h2].
  destruct Hsecond as (Hc & Hp & _).
  repeat split; assumption.
Defined.

(** Through the collision loop: walking again into the radius of an active
    checkpoint changes neither the collectibles nor the player. *)
Lemma checkCollisions_active_checkpoint
  (m : CollectiblesManager.t) (c : Collectible.t) (p : Player.t) (h : Host.t) :
  CollectiblesManager.collectibles m = [c] ->
  Collectible.type c = CHECKPOINT ->
  Collectible.activated c = true ->
  Collectible.collected c = false ->
  fst (CollectiblesManager.checkCollisions m p h) = (m, p).
Proof.
  intros Hm Hty Hact Hcol.
  unfold CollectiblesManager.checkCollisions. rewrite Hm.
  cbn [CollectiblesManager.checkEach]. rewrite Hcol.
  destruct (Rltb _ _).
  - pose proof (collectItem_active_checkpoint m c p h Hty Hact Hcol) as H.
    destruct (CollectiblesManager.collectItem m c p h) as [[c' p'] h'].
    destruct H as (-> & -> & _). cbn. rewrite <- Hm. destruct m; reflexivity.
  - cbn. rewrite <- Hm. destruct m; reflexivity.
Qed.

(** ** The finish zone *)

Lemma checkFinish_complete (pos : Vec3.t) (m : LevelManager.t) (h : Host.t) :
  LevelManager.isLevelComplete m = true ->
  LevelManager.checkFinish pos m h = (true, m).
Proof. intros Hc. unfold LevelManager.checkFinish. rewrite Hc. reflexivity. Qed.

Lemma checkFinish_result (pos : Vec3.t) (m : LevelManager.t) (h : Host.t) :
  fst (LevelManager.checkFinish pos m h) =
  LevelManager.isLevelComplete (snd (LevelManager.checkFinish pos m h)).
Proof.
  unfold LevelManager.checkFinish.
  destruct (LevelManager.isLevelComplete m) eqn:Hc; cbn; [congruence|].
  destruct (Rltb _ _); cbn; congruence.
Qed.

(** C7.  [checkFinish] is terminal and planar.  Once the level is complete
    every call returns true and changes nothing, wherever the player is, so
    a call that returned true is followed by calls that return true.  Before
    completion it returns true exactly when the distance in the (x, z) plane
    from the player to the centre of the finish zone is below the radius;
    the vertical coordinate of the player plays no part.  The first call
    that returns true marks the level complete and snapshots the time: the
    stored [completionTime], which [getCompletionTime()] reads back, is the
    seconds elapsed since the level was loaded; the start time, the
    obstacles and the finish zone are kept; and no later call, at whatever
    time, overwrites the stored time. *)
Theorem checkFinish_terminal_and_planar
  (pos : Vec3.t) (m : LevelManager.t) (h : Host.t) :
  (LevelManager.isLevelComplete m = true ->
   LevelManager.checkFinish pos m h = (true, m)) /\
  (LevelManager.isLevelComplete m = false ->
   (fst (LevelManager.checkFinish pos m h) = true <->
    planarDistance pos (finishPosition (LevelManager.finishArea m))
      < finishRadius (LevelManager.finishArea m))) /\
  (forall y' : R,
   LevelManager.checkFinish (Vec3.mk (Vec3.x pos) y' (Vec3.z pos)) m h =
   LevelManager.checkFinish pos m h) /\
  (LevelManager.isLevelComplete m = false ->
   fst (LevelManager.checkFinish pos m h) = true ->
   let m' := snd (LevelManager.checkFinish pos m h) in
   LevelManager.isLevelComplete m' = true /\
   LevelManager.completionTime m' =
     (Host.now h - LevelManager.startTime m) / 1000 /\
   LevelManager.getCompletionTime m' =
     (Host.now h - LevelManager.startTime m) / 1000 /\
   LevelManager.startTime m' = LevelManager.startTime m /\
   LevelManager.obstacles m' = LevelManager.obstacles m /\
   LevelManager.finishArea m' = LevelManager.finishArea m /\
   forall (pos' : Vec3.t) (h' : Host.t),
     LevelManager.getCompletionTime
       (snd (LevelManager.checkFinish pos' m' h')) =
     (Host.now h - LevelManager.startTime m) / 1000) /\
  (fst (LevelManager.checkFinish pos m h) = false ->
   snd (LevelManager.checkFinish pos m h) = m) /\
  (fst (LevelManager.checkFinish pos m h) = true ->
   forall (pos' : Vec3.t) (h' : Host.t),
   LevelManager.checkFinish pos' (snd (LevelManager.checkFinish pos m h)) h' =
   (true, snd (LevelManager.checkFinish pos m h))).
Proof.
  split; [apply checkFinish_complete|].
  split.
  { intros Hc. unfold LevelManager.checkFinish, planarDistance,
      LevelManager.Math_pow2. rewrite Hc.
    destruct (Rltb _ _) eqn:Hlt; cbn.
    - apply Rltb_true_iff in Hlt. tauto.
    - apply Rltb_false_iff in Hlt. split; [discriminate|intros; lra]. }
  split; [reflexivity|].
  split.
  { intros Hc Ht. cbn zeta.
    assert (Hdone : LevelManager.isLevelComplete
                      (snd (LevelManager.checkFinish pos m h)) = true)
      by (rewrite <- checkFinish_result; exact Ht).
    split; [exact Hdone|].
    assert (Hfields :
      LevelManager.completionTime (snd (LevelManager.checkFinish pos m h)) =
        (Host.now h - LevelManager.startTime m) / 1000 /\
      LevelManager.startTime (snd (LevelManager.checkFinish pos m h)) =
        LevelManager.startTime m /\
      LevelManager.obstacles (snd (LevelManager.checkFinish pos m h)) =
        LevelManager.obstacles m /\
      LevelManager.finishArea (snd (LevelManager.checkFinish pos m h)) =
        LevelManager.finishArea m).
    { revert Ht. unfold LevelManager.checkFinish. rewrite Hc.
      destruct (Rltb _ _); cbn; [auto|discriminate]. }
    destruct Hfields as (F1 & F2 & F3 & F4).
    split; [exact F1|]. split; [exact F1|].
    split; [exact F2|]. split; [exact F3|]. split; [exact F4|].
    intros pos' h'. rewrite (checkFinish_complete pos' _ h' Hdone).
    exact F1. }
  split.
  { unfold LevelManager.checkFinish.
    destruct (LevelManager.isLevelComplete m); cbn; [discriminate|].
    destruct (Rltb _ _); cbn; [discriminate|reflexivity]. }
  intros Ht pos' h'. apply checkFinish_complete.
  rewrite <- checkFinish_result. exact Ht.
Qed.

Lemma checkFinish_terminal_and_planar_witness :
  fst (LevelManager.checkFinish nearFinish levelOneLoaded hostAtFinish) = true /\
  LevelManager.getCompletionTime
    (snd (LevelManager.checkFinish nearFinish levelOneLoaded hostAtFinish)) =
    85/2 /\
  LevelManager.getCompletionTime
    (snd (LevelManager.checkFinish farFromFinish
            (snd (LevelManager.checkFinish nearFinish levelOneLoaded hostAtFinish))
            Host.init)) = 85/2 /\
  LevelManager.checkFinish farFromFinish
    (snd (LevelManager.checkFinish nearFinish levelOneLoaded hostAtFinish))
    hostAtFinish =
  (true, snd (LevelManager.checkFinish nearFinish levelOneLoaded hostAtFinish)).
Proof.
  destruct (checkFinish_terminal_and_planar nearFinish levelOneLoaded hostAtFinish)
    as (_ & Hiff & _ & Hsnap & _ & Hterm).
  assert (Hin : fst (LevelManager.checkFinish nearFinish levelOneLoaded
                       hostAtFinish) = true).
  { apply Hiff; [reflexivity|].
    unfold planarDistance. cbn.
    replace ((204/10 - 20) * (204/10 - 20) + (0 - 0) * (0 - 0))
      with ((4/10) * (4/10)) by field.
    rewrite sqrt_square by lra. lra. }
  destruct (Hsnap eq_refl Hin) as (_ & _ & Hget & _ & _ & _ & Hkeep).
  split; [exact Hin|].
  split; [rewrite Hget; cbn; lra|].
  split; [rewrite Hkeep; cbn; lra|].
  apply Hterm. exact Hin.
Defined.

(** ** The disappearing platform *)

Lemma total_cons (dt : R) (l : list R) : total (dt :: l) = dt + total l.
Proof. reflexivity. Qed.

Lemma total_app (l l' : list R) : total (l ++ l') = total l + total l'.
Proof.
  induction l as [|dt l IH]; cbn [app]; rewrite ?total_cons.
  - unfold total at 2. cbn. lra.
  - rewrite IH. lra.
Qed.

Lemma total_nonneg (l : list R) :
  Forall (fun dt => 0 <= dt) l -> 0 <= total l.
Proof.
  induction 1 as [|dt l Hdt Hl IH]; [cbn; lra|].
  rewrite total_cons. lra.
Qed.

Lemma onPlayerContact_solid (o : DP.t) :
  DP.Solid o ->
  DP.Disappearing (DP.onPlayerContact o) /\
  DP.disappearTimer (DP.onPlayerContact o) = 0 /\
  sameSetup o (DP.onPlayerContact o).
Proof.
  intros [H1 H2]. unfold DP.onPlayerContact. rewrite H1, H2. cbn.
  unfold DP.Disappearing, sameSetup. cbn. auto.
Qed.

Lemma update_fading (dt : R) (o : DP.t) :
  DP.Disappearing o ->
  DP.disappearTimer o + dt < DP.disappearDuration o ->
  DP.Disappearing (DP.update dt o) /\
  DP.disappearTimer (DP.update dt o) = DP.disappearTimer o + dt /\
  DP.meshVisible (DP.update dt o) = DP.meshVisible o /\
  DP.body (DP.update dt o) = DP.body o /\
  sameSetup o (DP.update dt o).
Proof.
  intros [H1 H2] Hlt. unfold DP.update. rewrite H1, H2. cbn.
  rewrite (proj2 (Rgeb_false_iff _ _) Hlt).
  unfold DP.Disappearing, sameSetup. cbn. auto 10.
Qed.

Lemma update_vanish (dt : R) (o : DP.t) :
  DP.Disappearing o ->
  DP.disappearDuration o <= DP.disappearTimer o + dt ->
  DP.Gone (DP.update dt o) /\
  DP.isDisappearing (DP.update dt o) = false /\
  DP.respawnTimer (DP.update dt o) = 0 /\
  sameSetup o (DP.update dt o).
Proof.
  intros [H1 H2] Hge. unfold DP.update. rewrite H1, H2. cbn.
  rewrite (proj2 (Rgeb_true_iff _ _) Hge).
  unfold DP.Gone, sameSetup. cbn. auto 10.
Qed.

Lemma update_waiting (dt : R) (o : DP.t) :
  DP.isDisappearing o = false -> DP.isDisappeared o = true ->
  DP.respawnTimer o + dt < DP.respawnDuration o ->
  DP.isDisappearing (DP.update dt o) = false /\
  DP.isDisappeared (DP.update dt o) = true /\
  DP.respawnTimer (DP.update dt o) = DP.respawnTimer o + dt /\
  DP.meshVisible (DP.update dt o) = DP.meshVisible o /\
  DP.body (DP.update dt o) = DP.body o /\
  sameSetup o (DP.update dt o).
Proof.
  intros H1 H2 Hlt. unfold DP.update. rewrite H1, H2. cbn.
  rewrite (proj2 (Rgeb_false_iff _ _) Hlt).
  unfold sameSetup. cbn. auto 10.
Qed.

Lemma update_respawn (dt : R) (o : DP.t) :
  DP.isDisappearing o = false -> DP.isDisappeared o = true ->
  DP.respawnDuration o <= DP.respawnTimer o + dt ->
  DP.Solid (DP.update dt o) /\
  DP.meshVisible (DP.update dt o) = true /\
  DP.opacity (DP.update dt o) = 1 /\
  DP.meshPosition (DP.update dt o) = DP.initialPosition o /\
  Body.position (DP.body (DP.update dt o)) = DP.initialPosition o /\
  Body.collisionResponse (DP.body (DP.update dt o)) = true.
Proof.
  intros H1 H2 Hge. unfold DP.update. rewrite H1, H2. cbn.
  rewrite (proj2 (Rgeb_true_iff _ _) Hge).
  unfold DP.Solid. cbn. auto 10.
Qed.

Lemma run_cons (dt : R) (l : list R) (o : DP.t) :
  DP.run (dt :: l) o = DP.run l (DP.update dt o).
Proof. reflexivity. Qed.

Lemma run_app (l l' : list R) (o : DP.t) :
  DP.run (l ++ l') o = DP.run l' (DP.run l o).
Proof. unfold DP.run. apply fold_left_app. Qed.

Lemma run_fading (l : list R) (o : DP.t) :
  DP.Disappearing o ->
  Forall (fun dt => 0 <= dt) l ->
  DP.disappearTimer o + total l < DP.disappearDuration o ->
  DP.Disappearing (DP.run l o) /\
  DP.disappearTimer (DP.run l o) = DP.disappearTimer o + total l /\
  DP.meshVisible (DP.run l o) = DP.meshVisible o /\
  DP.body (DP.run l o) = DP.body o /\
  sameSetup o (DP.run l o).
Proof.
  revert o. induction l as [|dt l IH]; intros o Hd Hl Hlt.
  - unfold total. cbn. rewrite Rplus_0_r. unfold sameSetup. auto 10.
  - rewrite run_cons. rewrite total_cons in *.
    inversion Hl as [|dt' l' Hdt Hl']; subst.
    pose proof (total_nonneg l Hl') as Hnn.
    destruct (update_fading dt o Hd) as (Hd1 & Ht1 & Hv1 & Hb1 & Hs1); [lra|].
    destruct Hs1 as (Hi1 & Hdd1 & Hr1).
    destruct (IH (DP.update dt o) Hd1 Hl') as (Hd2 & Ht2 & Hv2 & Hb2 & Hs2).
    { rewrite Ht1, Hdd1. lra. }
    destruct Hs2 as (Hi2 & Hdd2 & Hr2).
    unfold sameSetup. rewrite Ht2, Ht1, Hv2, Hv1, Hb2, Hb1, Hi2, Hi1, Hdd2, Hdd1, Hr2, Hr1.
    split; [exact Hd2|]. repeat split; lra.
Qed.

Lemma run_waiting (l : list R) (o : DP.t) :
  DP.isDisappearing o = false -> DP.isDisappeared o = true ->
  Forall (fun dt => 0 <= dt) l ->
  DP.respawnTimer o + total l < DP.respawnDuration o ->
  DP.isDisappearing (DP.run l o) = false /\
  DP.isDisappeared (DP.run l o) = true /\
  DP.respawnTimer (DP.run l o) = DP.respawnTimer o + total l /\
  sameSetup o (DP.run l o).
Proof.
  revert o. induction l as [|dt l IH]; intros o H1 H2 Hl Hlt.
  - unfold total. cbn. rewrite Rplus_0_r. unfold sameSetup. auto 10.
  - rewrite run_cons. rewrite total_cons in *.
    inversion Hl as [|dt' l' Hdt Hl']; subst.
    pose proof (total_nonneg l Hl') as Hnn.
    destruct (update_waiting dt o H1 H2) as (Ha & Hb & Ht1 & _ & _ & Hs1); [lra|].
    destruct Hs1 as (Hi1 & Hdd1 & Hr1).
    destruct (IH (DP.update dt o) Ha Hb Hl') as (Ha2 & Hb2 & Ht2 & Hs2).
    { rewrite Ht1, Hr1. lra. }
    destruct Hs2 as (Hi2 & Hdd2 & Hr2).
    unfold sameSetup. rewrite Ht2, Ht1, Hi2, Hi1, Hdd2, Hdd1, Hr2, Hr1.
    repeat split; try assumption; lra.
Qed.

Lemma run_waiting_gone (l : list R) (o : DP.t) :
  DP.isDisappearing o = false -> DP.Gone o ->
  Forall (fun dt => 0 <= dt) l ->
  DP.respawnTimer o + total l < DP.respawnDuration o ->
  DP.Gone (DP.run l o).
Proof.
  revert o. induction l as [|dt l IH]; intros o H1 Hg Hl Hlt; [exact Hg|].
  rewrite run_cons. rewrite total_cons in Hlt.
  inversion Hl as [|dt' l' Hdt Hl']; subst.
  pose proof (total_nonneg l Hl') as Hnn.
  destruct Hg as (G1 & G2 & G3).
  destruct (update_waiting dt o H1 G1) as (Ha & Hb & Ht & Hv & Hbody & Hs);
    [lra|].
  destruct Hs as (_ & _ & Hr).
  apply IH; try assumption.
  - unfold DP.Gone. rewrite Hv, Hbody. auto.
  - rewrite Ht, Hr. lra.
Qed.

(** X30.  The cycle of a disappearing platform, as [update] runs it.  A
    solid platform whose fade lasts [disappearDuration] = 2 and whose
    absence lasts [respawnDuration] = 3 is touched once.  Through frames of
    total time below 2 it is still fading; at the frame that brings the
    total to 2 or more it is gone (invisible, collision response off).
    From there, through frames of total time below 3 it stays gone, still
    invisible and without collision response, and at the frame that brings
    that total to 3 or more it is solid again: visible, opacity 1, mesh and
    body on the initial position, collision response on. *)
Theorem disappearing_platform_cycle
  (o : DP.t) (l1 l2 : list R) (d1 d2 : R) :
  DP.Solid o ->
  DP.disappearDuration o = 2 ->
  DP.respawnDuration o = 3 ->
  Forall (fun dt => 0 <= dt) l1 -> total l1 < 2 -> 2 <= total l1 + d1 ->
  Forall (fun dt => 0 <= dt) l2 -> total l2 < 3 -> 3 <= total l2 + d2 ->
  let fading := DP.run l1 (DP.onPlayerContact o) in
  let gone := DP.update d1 fading in
  let waiting := DP.run l2 gone in
  let back := DP.update d2 waiting in
  DP.Disappearing fading /\
  DP.Gone gone /\
  DP.Gone waiting /\
  DP.isDisappeared waiting = true /\
  DP.Solid back /\
  DP.meshVisible back = true /\
  DP.opacity back = 1 /\
  DP.meshPosition back = DP.initialPosition o /\
  Body.position (DP.body back) = DP.initialPosition o /\
  Body.collisionResponse (DP.body back) = true.
Proof.
  intros Hs Hdd Hrd Hl1 Ht1 Hd1 Hl2 Ht2 Hd2. cbn zeta.
  destruct (onPlayerContact_solid o Hs) as (Hc & Hc0 & Hi0 & Hdd0 & Hr0).
  destruct (run_fading l1 (DP.onPlayerContact o) Hc Hl1)
    as (Hf & Hft & _ & _ & Hi1 & Hdd1 & Hr1).
  { rewrite Hc0, Hdd0, Hdd. lra. }
  set (fading := DP.run l1 (DP.onPlayerContact o)) in *.
  destruct (update_vanish d1 fading Hf) as (Hg & Hg1 & Hg0 & Hi2 & Hdd2 & Hr2).
  { rewrite Hft, Hc0, Hdd1, Hdd0, Hdd. lra. }
  set (gone := DP.update d1 fading) in *.
  destruct (run_waiting l2 gone Hg1 (proj1 Hg) Hl2)
    as (Hw1 & Hw2 & Hwt & Hi3 & Hdd3 & Hr3).
  { rewrite Hg0, Hr2, Hr1, Hr0, Hrd. lra. }
  set (waiting := DP.run l2 gone) in *.
  destruct (update_respawn d2 waiting Hw1 Hw2)
    as (Hb & Hbv & Hbo & Hbm & Hbp & Hbc).
  { rewrite Hwt, Hg0, Hr3, Hr2, Hr1, Hr0, Hrd. lra. }
  assert (Hgw : DP.Gone waiting).
  { apply run_waiting_gone; try assumption.
    rewrite Hg0, Hr2, Hr1, Hr0, Hrd. lra. }
  rewrite Hbm, Hbp, Hi3, Hi2, Hi1, Hi0.
  split; [exact Hf|]. split; [exact Hg|]. split; [exact Hgw|].
  repeat split; try assumption; try apply Hb.
Qed.

Lemma disappearing_platform_cycle_witness :
  let gone :=
    DP.update (1/10) (DP.run [1; 95/100] (DP.onPlayerContact freshPlatform)) in
  let waiting := DP.run [1; 1; 1/2] gone in
  let back := DP.update 1 waiting in
  DP.Gone gone /\ DP.Gone waiting /\ DP.Solid back /\
  DP.meshPosition back = Vec3.mk 4 1 (-2) /\
  DP.opacity back = 1.
Proof.
  destruct (disappearing_platform_cycle freshPlatform [1; 95/100] [1; 1; 1/2]
              (1/10) 1)
    as (_ & Hg & Hgw & _ & Hb & _ & Ho & Hm & _).
  - split; reflexivity.
  - reflexivity.
  - reflexivity.
  - repeat constructor; lra.
  - unfold total; cbn; lra.
  - unfold total; cbn; lra.
  - repeat constructor; lra.
  - unfold total; cbn; lra.
  - unfold total; cbn; lra.
  - cbn zeta. split; [exact Hg|]. split; [exact Hgw|]. split; [exact Hb|].
    split; assumption.
Defined.

(** C5.  The platform is not gone half a second after the touch.  The
    factory documents [disappearDelay] = 0.5 as the time after the touch
    before the platform disappears, but [update] never reads it and fades
    against [disappearDuration] = 2: after a touch and five frames of a
    tenth of a second the platform is not gone; it is still visible, it
    still collides, and it is still fading, with its fade timer at 0.5 of
    the 2 seconds. *)
Lemma disappearing_platform_not_gone_after_half_second :
  let frames := [1/10; 1/10; 1/10; 1/10; 1/10] in
  let o := DP.run frames (DP.onPlayerContact freshPlatform) in
  1/2 <= total frames /\
  ~ DP.Gone o /\
  DP.meshVisible o = true /\
  Body.collisionResponse (DP.body o) = true /\
  DP.Disappearing o /\
  DP.disappearTimer o = 1/2 /\
  DP.disappearDuration o = 2.
Proof.
  cbn zeta.
  assert (Hs : DP.Solid freshPlatform) by (split; reflexivity).
  destruct (onPlayerContact_solid freshPlatform Hs) as (Hc & Hc0 & Hi0 & Hdd0 & Hr0).
  destruct (run_fading [1/10; 1/10; 1/10; 1/10; 1/10]
              (DP.onPlayerContact freshPlatform) Hc)
    as (Hf & Ht & Hv & Hb & (_ & Hd & _)).
  - repeat constructor; lra.
  - rewrite Hc0, Hdd0. unfold total; cbn; lra.
  - split; [unfold total; cbn; lra|].
    split.
    { intros (Hg & _). destruct Hf as [_ Hf']. congruence. }
    split; [rewrite Hv; reflexivity|].
    split; [rewrite Hb; reflexivity|].
    split; [exact Hf|].
    split; [rewrite Ht, Hc0; unfold total; cbn; lra|].
    rewrite Hd, Hdd0. reflexivity.
Qed.

(** ** The moving platform *)

Lemma Rneqb_true (a b : R) : a <> b -> Rneqb a b = true.
Proof. intros H. unfold Rneqb. destruct (Req_dec_T a b); [contradiction|reflexivity]. Qed.

Lemma coord_addAlong (ax : Axis) (delta : R) (v : Vec3.t) :
  MP.coord ax (MP.addAlong ax delta v) = MP.coord ax v + delta.
Proof. destruct ax; reflexivity. Qed.

Lemma update_setup (dt : R) (o : MP.t) :
  MP.startPos (MP.update dt o) = MP.startPos o /\
  MP.axis (MP.update dt o) = MP.axis o /\
  MP.distance (MP.update dt o) = MP.distance o /\
  MP.speed (MP.update dt o) = MP.speed o.
Proof.
  unfold MP.update. cbn.
  destruct (Rgeb _ _); [cbn; auto|].
  destruct (Rleb _ _); cbn; auto.
Qed.

Lemma update_body (dt : R) (o : MP.t) :
  Body.position (MP.body (MP.update dt o)) =
    MP.addAlong (MP.axis o)
      (MP.progress (MP.update dt o) * MP.direction (MP.update dt o))
      (MP.startPos o) /\
  Body.velocity (MP.body (MP.update dt o)) = Vec3.zero /\
  Body.angularVelocity (MP.body (MP.update dt o)) = Vec3.zero.
Proof.
  unfold MP.update. cbn.
  destruct (Rgeb _ _); [cbn; rewrite vec3_eta; auto|].
  destruct (Rleb _ _); cbn; rewrite vec3_eta; auto.
Qed.

Lemma update_turn_back (dt : R) (o : MP.t) :
  MP.distance o <= advanced dt o ->
  MP.progress (MP.update dt o) = MP.distance o /\
  MP.direction (MP.update dt o) = -1.
Proof.
  unfold advanced. intros H. unfold MP.update. cbn.
  rewrite (proj2 (Rgeb_true_iff _ _) H). cbn. auto.
Qed.

Lemma update_turn_forth (dt : R) (o : MP.t) :
  advanced dt o < MP.distance o -> advanced dt o <= 0 ->
  MP.progress (MP.update dt o) = 0 /\
  MP.direction (MP.update dt o) = 1.
Proof.
  unfold advanced. intros H1 H2. unfold MP.update. cbn.
  rewrite (proj2 (Rgeb_false_iff _ _) H1), (proj2 (Rleb_true_iff _ _) H2).
  cbn. auto.
Qed.

Lemma update_between (dt : R) (o : MP.t) :
  0 < advanced dt o < MP.distance o ->
  MP.progress (MP.update dt o) = advanced dt o /\
  MP.direction (MP.update dt o) = MP.direction o.
Proof.
  unfold advanced. intros [H1 H2]. unfold MP.update. cbn.
  rewrite (proj2 (Rgeb_false_iff _ _) H2), (proj2 (Rleb_false_iff _ _) H1).
  cbn. auto.
Qed.

Lemma update_clamped (dt : R) (o : MP.t) :
  0 <= MP.distance o ->
  0 <= MP.progress (MP.update dt o) <= MP.distance o.
Proof.
  intros Hd.
  destruct (Rle_lt_dec (MP.distance o) (advanced dt o)) as [H|H].
  - destruct (update_turn_back dt o H) as [-> _]. lra.
  - destruct (Rle_lt_dec (advanced dt o) 0) as [H0|H0].
    + destruct (update_turn_forth dt o H H0) as [-> _]. lra.
    + destruct (update_between dt o (conj H0 H)) as [-> _]. lra.
Qed.

Lemma mp_run_cons (dt : R) (l : list R) (o : MP.t) :
  MP.run (dt :: l) o = MP.run l (MP.update dt o).
Proof. reflexivity. Qed.

Lemma mp_run_app (l l' : list R) (o : MP.t) :
  MP.run (l ++ l') o = MP.run l' (MP.run l o).
Proof. unfold MP.run. apply fold_left_app. Qed.

Lemma total_pos (l : list R) :
  Forall (fun dt => 0 < dt) l -> l <> [] -> 0 < total l.
Proof.
  intros Hl Hne. destruct Hl as [|dt l Hdt Hl]; [congruence|].
  rewrite total_cons.
  assert (0 <= total l); [|lra].
  apply total_nonneg. eapply Forall_impl; [|exact Hl]. cbn. intros; lra.
Qed.

(** The way out: steps that add up to the remaining travel end exactly on
    the far turning point. *)
Lemma run_outward (l : list R) (o : MP.t) :
  l <> [] ->
  Forall (fun dt => 0 < dt) l ->
  0 < MP.speed o -> MP.direction o = 1 -> 0 <= MP.progress o ->
  MP.progress o + MP.speed o * total l = MP.distance o ->
  MP.progress (MP.run l o) = MP.distance o /\
  MP.direction (MP.run l o) = -1 /\
  MP.startPos (MP.run l o) = MP.startPos o /\
  MP.axis (MP.run l o) = MP.axis o /\
  MP.distance (MP.run l o) = MP.distance o /\
  MP.speed (MP.run l o) = MP.speed o.
Proof.
  revert o. induction l as [|dt l IH]; intros o Hne Hl Hs Hd Hp Hsum;
    [congruence|].
  inversion Hl as [|dt' l' Hdt Hl']; subst.
  rewrite mp_run_cons. rewrite total_cons in Hsum.
  destruct (update_setup dt o) as (Hsp & Hax & Hdi & Hspd).
  assert (Hadv : advanced dt o = MP.progress o + MP.speed o * dt).
  { unfold advanced. rewrite Hd. ring. }
  assert (Hstep : 0 < MP.speed o * dt) by (apply Rmult_lt_0_compat; lra).
  destruct l as [|dt2 l2].
  - unfold total in Hsum. cbn in Hsum. cbn [MP.run fold_left].
    destruct (update_turn_back dt o) as [H1 H2]; [lra|].
    auto 10.
  - assert (Ht : 0 < total (dt2 :: l2)) by (apply total_pos; congruence).
    assert (Hrest : 0 < MP.speed o * total (dt2 :: l2))
      by (apply Rmult_lt_0_compat; lra).
    destruct (update_between dt o) as [H1 H2]; [lra|].
    assert (A1 : dt2 :: l2 <> []) by congruence.
    assert (A2 : 0 < MP.speed (MP.update dt o)) by (rewrite Hspd; exact Hs).
    assert (A3 : MP.direction (MP.update dt o) = 1) by congruence.
    assert (A4 : 0 <= MP.progress (MP.update dt o)) by (rewrite H1; lra).
    assert (A5 : MP.progress (MP.update dt o) +
                 MP.speed (MP.update dt o) * total (dt2 :: l2) =
                 MP.distance (MP.update dt o))
      by (rewrite H1, Hspd, Hdi; lra).
    destruct (IH (MP.update dt o) A1 Hl' A2 A3 A4 A5)
      as (I1 & I2 & I3 & I4 & I5 & I6).
    rewrite I1, I3, I4, I5, I6, Hsp, Hax, Hdi, Hspd. auto 10.
Qed.

(** The way back: steps that add up to the travel covered end exactly on
    the near turning point. *)
Lemma run_homeward (l : list R) (o : MP.t) :
  l <> [] ->
  Forall (fun dt => 0 < dt) l ->
  0 < MP.speed o -> MP.direction o = -1 ->
  0 < MP.distance o -> MP.progress o <= MP.distance o ->
  MP.progress o - MP.speed o * total l = 0 ->
  MP.progress (MP.run l o) = 0 /\
  MP.direction (MP.run l o) = 1 /\
  MP.startPos (MP.run l o) = MP.startPos o /\
  MP.axis (MP.run l o) = MP.axis o /\
  Body.position (MP.body (MP.run l o)) =
    MP.addAlong (MP.axis o) (0 * 1) (MP.startPos o) /\
  Body.velocity (MP.body (MP.run l o)) = Vec3.zero /\
  Body.angularVelocity (MP.body (MP.run l o)) = Vec3.zero.
Proof.
  revert o. induction l as [|dt l IH]; intros o Hne Hl Hs Hd Hdist Hp Hsum;
    [congruence|].
  inversion Hl as [|dt' l' Hdt Hl']; subst.
  rewrite mp_run_cons. rewrite total_cons in Hsum.
  destruct (update_setup dt o) as (Hsp & Hax & Hdi & Hspd).
  destruct (update_body dt o) as (Hbp & Hbv & Hbw).
  assert (Hadv : advanced dt o = MP.progress o - MP.speed o * dt).
  { unfold advanced. rewrite Hd. ring. }
  assert (Hstep : 0 < MP.speed o * dt) by (apply Rmult_lt_0_compat; lra).
  destruct l as [|dt2 l2].
  - unfold total in Hsum. cbn in Hsum. cbn [MP.run fold_left].
    destruct (update_turn_forth dt o) as [H1 H2]; [lra|lra|].
    rewrite H1, H2 in Hbp. auto 10.
  - assert (Ht : 0 < total (dt2 :: l2)) by (apply total_pos; congruence).
    assert (Hrest : 0 < MP.speed o * total (dt2 :: l2))
      by (apply Rmult_lt_0_compat; lra).
    destruct (update_between dt o) as [H1 H2]; [lra|].
    assert (A1 : dt2 :: l2 <> []) by congruence.
    assert (A2 : 0 < MP.speed (MP.update dt o)) by (rewrite Hspd; exact Hs).
    assert (A3 : MP.direction (MP.update dt o) = -1) by congruence.
    assert (A4 : 0 < MP.distance (MP.update dt o)) by (rewrite Hdi; exact Hdist).
    assert (A5 : MP.progress (MP.update dt o) <= MP.distance (MP.update dt o))
      by (rewrite H1, Hdi; lra).
    assert (A6 : MP.progress (MP.update dt o) -
                 MP.speed (MP.update dt o) * total (dt2 :: l2) = 0)
      by (rewrite H1, Hspd; lra).
    destruct (IH (MP.update dt o) A1 Hl' A2 A3 A4 A5 A6)
      as (I1 & I2 & I3 & I4 & I5 & I6 & I7).
    rewrite I1, I3, I4, I5, Hsp, Hax. auto 10.
Qed.

(** [updateObstacles] moves each moving platform by one [update]. *)
Lemma updateObstacles_moving
  (dt : R) (m : LevelManager.t) (o : MP.t) (rest : list Obstacle) :
  LevelManager.obstacles m = ObMovingPlatform o :: rest ->
  exists rest',
    LevelManager.obstacles (LevelManager.updateObstacles dt m) =
    ObMovingPlatform (MP.update dt o) :: rest'.
Proof.
  intros Hm. unfold LevelManager.updateObstacles. cbn. rewrite Hm. cbn.
  eexists. reflexivity.
Qed.

Lemma run_clamped (l : list R) (o : MP.t) :
  0 <= MP.progress o <= MP.distance o ->
  0 <= MP.progress (MP.run l o) <= MP.distance o /\
  MP.distance (MP.run l o) = MP.distance o.
Proof.
  revert o. induction l as [|dt l IH]; intros o Hp; [cbn; auto|].
  rewrite mp_run_cons.
  destruct (update_setup dt o) as (_ & _ & Hdi & _).
  assert (Hd : 0 <= MP.distance o) by lra.
  pose proof (update_clamped dt o Hd) as Hc.
  destruct (IH (MP.update dt o)) as [I1 I2]; [rewrite Hdi; exact Hc|].
  rewrite I2, Hdi in *. auto.
Qed.

(** C6, as the code has it.  A platform starts forward at progress 0 and is
    updated with positive time steps.  When the steps reach the far turning
    point exactly (a first run of steps totalling distance / speed) and then
    the near one exactly (a second run totalling distance / speed), so after
    2 * distance / speed seconds in all, the body is back on its start
    coordinate along the axis, at progress 0 and forward again.  Whatever the
    steps, progress stays within [0, distance], the body is at rest (linear
    and angular velocity zero) after every step, and a step turns the
    platform backward when it reaches distance and forward when it reaches
    0; what a step overshoots a turning point by is dropped. *)
Theorem moving_platform_periodic_on_exact_turns
  (o : MP.t) (l1 l2 : list R) :
  MP.direction o = 1 -> MP.progress o = 0 ->
  0 < MP.distance o -> 0 < MP.speed o ->
  Forall (fun dt => 0 < dt) l1 -> Forall (fun dt => 0 < dt) l2 ->
  total l1 = MP.distance o / MP.speed o ->
  total l2 = MP.distance o / MP.speed o ->
  total (l1 ++ l2) = 2 * MP.distance o / MP.speed o /\
  MP.coord (MP.axis o) (Body.position (MP.body (MP.run (l1 ++ l2) o))) =
    MP.coord (MP.axis o) (MP.startPos o) /\
  MP.progress (MP.run (l1 ++ l2) o) = 0 /\
  MP.direction (MP.run (l1 ++ l2) o) = 1 /\
  (forall l : list R,
     0 <= MP.progress (MP.run l o) <= MP.distance o) /\
  (forall (l : list R) (dt : R),
     Body.velocity (MP.body (MP.run (l ++ [dt]) o)) = Vec3.zero /\
     Body.angularVelocity (MP.body (MP.run (l ++ [dt]) o)) = Vec3.zero) /\
  (forall (q : MP.t) (dt : R),
     (MP.distance q <= advanced dt q ->
      MP.progress (MP.update dt q) = MP.distance q /\
      MP.direction (MP.update dt q) = -1) /\
     (advanced dt q < MP.distance q -> advanced dt q <= 0 ->
      MP.progress (MP.update dt q) = 0 /\
      MP.direction (MP.update dt q) = 1)).
Proof.
  intros Hd Hp Hdist Hs Hl1 Hl2 Ht1 Ht2.
  assert (Htravel : MP.speed o * (MP.distance o / MP.speed o) = MP.distance o)
    by (field; lra).
  assert (Hpos : 0 < MP.distance o / MP.speed o)
    by (apply Rdiv_lt_0_compat; assumption).
  assert (Hne1 : l1 <> []).
  { intros ->. unfold total in Ht1. cbn in Ht1. lra. }
  assert (Hne2 : l2 <> []).
  { intros ->. unfold total in Ht2. cbn in Ht2. lra. }
  destruct (run_outward l1 o Hne1 Hl1 Hs Hd) as (O1 & O2 & O3 & O4 & O5 & O6).
  { lra. }
  { rewrite Hp, Ht1, Htravel. lra. }
  destruct (run_homeward l2 (MP.run l1 o) Hne2 Hl2)
    as (B1 & B2 & B3 & B4 & B5 & _).
  { rewrite O6. exact Hs. }
  { exact O2. }
  { rewrite O5. exact Hdist. }
  { rewrite O1, O5. lra. }
  { rewrite O1, O6, Ht2, Htravel. lra. }
  rewrite mp_run_app.
  split. { rewrite total_app, Ht1, Ht2. field. lra. }
  split. { rewrite B5, O4, O3, coord_addAlong. lra. }
  split; [exact B1|]. split; [exact B2|].
  split. { intros l. apply run_clamped. lra. }
  split.
  { intros l dt. rewrite mp_run_app. cbn [MP.run fold_left].
    destruct (update_body dt (fold_left (fun q d => MP.update d q) l o))
      as (_ & Hv & Hw).
    split; assumption. }
  intros q dt. split.
  - apply update_turn_back.
  - apply update_turn_forth.
Qed.

Lemma total_repeat (dt : R) (n : nat) :
  total (repeat dt n) = INR n * dt.
Proof.
  induction n as [|n IH]; [unfold total; cbn; lra|].
  cbn [repeat]. rewrite total_cons, IH, S_INR. lra.
Qed.

Lemma moving_platform_periodic_on_exact_turns_witness :
  let frames := repeat (1/10) 25 in
  MP.coord AxisZ
    (Body.position (MP.body (MP.run (frames ++ frames) levelOnePlatform))) = 0.
Proof.
  cbn zeta.
  assert (Hdist : MP.distance levelOnePlatform = 5).
  { unfold levelOnePlatform, MP.create, MP.orElse. cbn.
    rewrite Rneqb_true by lra. reflexivity. }
  assert (Hspeed : MP.speed levelOnePlatform = 2).
  { unfold levelOnePlatform, MP.create, MP.orElse. cbn.
    rewrite Rneqb_true by lra. reflexivity. }
  assert (Hfr : Forall (fun dt => 0 < dt) (repeat (1/10) 25)).
  { apply Forall_forall. intros x Hx. apply repeat_spec in Hx. subst. lra. }
  assert (Htot : total (repeat (1/10) 25) =
                 MP.distance levelOnePlatform / MP.speed levelOnePlatform).
  { rewrite total_repeat, Hdist, Hspeed. cbn -[Rmult Rdiv Rplus]. lra. }
  assert (Hd : 0 < MP.distance levelOnePlatform) by (rewrite Hdist; lra).
  assert (Hs : 0 < MP.speed levelOnePlatform) by (rewrite Hspeed; lra).
  destruct (moving_platform_periodic_on_exact_turns levelOnePlatform
              (repeat (1/10) 25) (repeat (1/10) 25)
              eq_refl eq_refl Hd Hs Hfr Hfr Htot Htot)
    as (_ & Hc & _).
  exact Hc.
Defined.

(** C6 as stated fails when a step overshoots a turning point.  A platform
    with distance 0.3 and speed 2 has 2 * distance / speed = 0.3 seconds;
    after three frames of 0.1 seconds it is not back on its start
    coordinate 18 but a tenth short of it, at x = 17.9: the second frame
    reaches 0.4, is cut to 0.3, and the 0.1 dropped there is missing at the
    end. *)
Lemma moving_platform_overshoot_not_periodic :
  let frames := [1/10; 1/10; 1/10] in
  MP.direction shortPlatform = 1 /\
  MP.progress shortPlatform = 0 /\
  total frames = 2 * MP.distance shortPlatform / MP.speed shortPlatform /\
  MP.coord (MP.axis shortPlatform)
    (Body.position (MP.body (MP.run frames shortPlatform))) = 179/10 /\
  MP.coord (MP.axis shortPlatform)
    (Body.position (MP.body (MP.run frames shortPlatform))) <>
  MP.coord (MP.axis shortPlatform) (MP.startPos shortPlatform).
Proof.
  cbn zeta.
  assert (Hdist : MP.distance shortPlatform = 3/10).
  { unfold shortPlatform, MP.create, MP.orElse. cbn.
    rewrite Rneqb_true by lra. reflexivity. }
  assert (Hspeed : MP.speed shortPlatform = 2).
  { unfold shortPlatform, MP.create, MP.orElse. cbn.
    rewrite Rneqb_true by lra. reflexivity. }
  assert (Hdir : MP.direction shortPlatform = 1) by reflexivity.
  assert (Hpro : MP.progress shortPlatform = 0) by reflexivity.
  set (o1 := MP.update (1/10) shortPlatform).
  set (o2 := MP.update (1/10) o1).
  set (o3 := MP.update (1/10) o2).
  change (MP.run [1/10; 1/10; 1/10] shortPlatform) with o3.
  destruct (update_setup (1/10) shortPlatform) as (S1 & X1 & D1 & V1).
  destruct (update_setup (1/10) o1) as (S2 & X2 & D2 & V2).
  fold o1 in S1, X1, D1, V1. fold o2 in S2, X2, D2, V2.
  destruct (update_between (1/10) shortPlatform) as [P1 R1].
  { unfold advanced. rewrite Hpro, Hspeed, Hdir, Hdist. lra. }
  fold o1 in P1, R1. unfold advanced in P1.
  rewrite Hpro, Hspeed, Hdir in P1.
  destruct (update_turn_back (1/10) o1) as [P2 R2].
  { unfold advanced. rewrite P1, V1, Hspeed, R1, Hdir, D1, Hdist. lra. }
  fold o2 in P2, R2. rewrite D1, Hdist in P2.
  destruct (update_between (1/10) o2) as [P3 R3].
  { unfold advanced. rewrite P2, V2, V1, Hspeed, R2, D2, D1, Hdist. lra. }
  fold o3 in P3, R3. unfold advanced in P3.
  rewrite P2, V2, V1, Hspeed, R2 in P3.
  destruct (update_body (1/10) o2) as (B3 & _).
  fold o3 in B3. rewrite P3, R3, R2, X2, X1, S2, S1 in B3.
  split; [reflexivity|]. split; [reflexivity|].
  split. { rewrite Hdist, Hspeed. unfold total. cbn. lra. }
  rewrite B3, coord_addAlong. cbn. split; lra.
Qed.

(** ** The vortex *)

Lemma vortex_in_range_throws (v : Vortex.t) (player : Player.t) (dt : R) :
  (Vec3.x (Vortex.position v) - Vec3.x (Player.meshPosition player)) *
  (Vec3.x (Vortex.position v) - Vec3.x (Player.meshPosition player)) +
  (Vec3.z (Vortex.position v) - Vec3.z (Player.meshPosition player)) *
  (Vec3.z (Vortex.position v) - Vec3.z (Player.meshPosition player))
  < Vortex.radius v * Vortex.radius v ->
  Vortex.applyForceToPlayer v player dt = Throw TypeError.
Proof.
  intros H. unfold Vortex.applyForceToPlayer.
  rewrite (proj2 (Rltb_true_iff _ _) H). reflexivity.
Qed.

Lemma vortex_out_of_range_idle (v : Vortex.t) (player : Player.t) (dt : R) :
  Vortex.radius v * Vortex.radius v <=
  (Vec3.x (Vortex.position v) - Vec3.x (Player.meshPosition player)) *
  (Vec3.x (Vortex.position v) - Vec3.x (Player.meshPosition player)) +
  (Vec3.z (Vortex.position v) - Vec3.z (Player.meshPosition player)) *
  (Vec3.z (Vortex.position v) - Vec3.z (Player.meshPosition player)) ->
  Vortex.applyForceToPlayer v player dt = Ok player.
Proof.
  intros H. unfold Vortex.applyForceToPlayer.
  rewrite (proj2 (Rltb_false_iff _ _) H). reflexivity.
Qed.

(** C8, what the code does inside the radius.  For a ball one unit from the
    centre of a vortex of radius 3, [applyForceToPlayer] does not pull: the
    call ends in a TypeError at [this.physics.applyForce], before any force
    reaches the body, and the exception ends [applyObstacleForces] as
    well. *)
Theorem vortex_pull_throws :
  Vortex.applyForceToPlayer defaultVortex ballInVortex (1/60) = Throw TypeError /\
  ObstaclesManager.applyObstacleForces
    [ObstaclesManager.ObVortex defaultVortex] ballInVortex (1/60) =
  ([ObstaclesManager.ObVortex defaultVortex], ballInVortex, Some TypeError).
Proof.
  assert (H : Vortex.applyForceToPlayer defaultVortex ballInVortex (1/60) =
              Throw TypeError).
  { apply vortex_in_range_throws. cbn. lra. }
  split; [exact H|].
  cbn [ObstaclesManager.applyObstacleForces ObstaclesManager.applyObstacleForce].
  rewrite H. reflexivity.
Qed.

(** ** Power-up expiry *)

Lemma In_insertByDue (x tm : Host.Timer) (l : list Host.Timer) :
  In x (Host.insertByDue tm l) <-> x = tm \/ In x l.
Proof.
  induction l as [|u l IH]; cbn.
  - intuition.
  - destruct (Rltb _ _); cbn; [intuition|]. rewrite IH. intuition.
Qed.

Lemma In_sortByDue (x : Host.Timer) (l : list Host.Timer) :
  In x (Host.sortByDue l) <-> In x l.
Proof.
  unfold Host.sortByDue.
  assert (G : forall acc,
    In x (fold_left (fun a tm => Host.insertByDue tm a) l acc) <->
    In x l \/ In x acc).
  { induction l as [|u l IH]; intros acc; cbn; [intuition|].
    rewrite IH, In_insertByDue. intuition. }
  rewrite G. cbn. intuition.
Qed.

Lemma fire_switches_off (a : TimerAction) (p : Player.t) :
  switchedOff a (Player.fire a p).
Proof. destruct a; reflexivity. Qed.

Lemma fire_keeps_off (a b : TimerAction) (p : Player.t) :
  switchedOff a p -> switchedOff a (Player.fire b p).
Proof. destruct a, b; cbn; auto. Qed.

Lemma fired_stays_off (a : TimerAction) (l : list Host.Timer) (p : Player.t) :
  switchedOff a p ->
  switchedOff a (fold_left (fun q tm => Player.fire (Host.action tm) q) l p).
Proof.
  revert p. induction l as [|tm l IH]; intros p H; cbn; [exact H|].
  apply IH, fire_keeps_off, H.
Qed.

Lemma fired_switches_off (tm : Host.Timer) (l : list Host.Timer) (p : Player.t) :
  In tm l ->
  switchedOff (Host.action tm)
    (fold_left (fun q u => Player.fire (Host.action u) q) l p).
Proof.
  revert p. induction l as [|u l IH]; intros p Hin; [contradiction|].
  cbn [fold_left]. destruct Hin as [->|Hin].
  - apply fired_stays_off, fire_switches_off.
  - apply IH, Hin.
Qed.

(** Once the wall clock passes the due time of a pending timeout, its flag
    is off, frames or no frames. *)
Lemma elapse_switches_off
  (tm : Host.Timer) (ms : R) (p : Player.t) (h : Host.t) :
  In tm (Host.timers h) ->
  Host.due tm <= Host.now h + ms ->
  switchedOff (Host.action tm) (fst (elapse ms p h)).
Proof.
  intros Hin Hdue. unfold elapse. cbn [fst].
  apply fired_switches_off. apply In_sortByDue.
  apply filter_In. split; [exact Hin|].
  unfold Host.isDue. apply Rleb_true_iff. exact Hdue.
Qed.

Lemma giveJumpPower_spec (d : R) (p : Player.t) (h : Host.t) :
  let '(p1, h1) := Player.giveJumpPower d p h in
  Player.hasJumpPower p1 = true /\
  Player.meshPosition p1 = Player.meshPosition p /\
  Host.now h1 = Host.now h /\
  exists id, In (Host.mkTimer id (Host.now h + d * 1000) ExpireJumpPower)
                (Host.timers h1).
Proof.
  unfold Player.giveJumpPower. cbn.
  destruct (Player.jumpPowerTimeout p) as [[|k]|]; cbn; repeat split;
    eexists; apply in_or_app; right; left; reflexivity.
Qed.

Lemma giveSpeedBoost_spec (d : R) (p : Player.t) (h : Host.t) :
  let '(p1, h1) := Player.giveSpeedBoost d p h in
  Player.hasSpeedBoost p1 = true /\
  Player.meshPosition p1 = Player.meshPosition p /\
  Host.now h1 = Host.now h /\
  exists id, In (Host.mkTimer id (Host.now h + d * 1000) ExpireSpeedBoost)
                (Host.timers h1).
Proof.
  unfold Player.giveSpeedBoost. cbn.
  destruct (Player.speedBoostTimeout p) as [[|k]|]; cbn; repeat split;
    eexists; apply in_or_app; right; left; reflexivity.
Qed.

Lemma jump_samePowers (p : Player.t) (h : Host.t) :
  samePowers p (fst (Player.jump p h)) h (snd (Player.jump p h)).
Proof.
  unfold Player.jump, samePowers.
  destruct (negb (Player.canJump p)); [cbn; auto 10|].
  destruct (negb (Player.hasJumpPower p) && negb (Player.isOnJumpPad p));
    cbn; auto 10.
Qed.

Lemma processInput_samePowers (i : InputState) (p : Player.t) (h : Host.t) :
  samePowers p (fst (Player.processInput i p h)) h
    (snd (Player.processInput i p h)).
Proof.
  unfold Player.processInput.
  match goal with
  | |- context [if ?c then Player.jump ?q h else _] =>
      pose proof (jump_samePowers q h) as Hj;
      assert (Hq : samePowers p q h h);
      [|destruct c; [|exact Hq]]
  end.
  - unfold samePowers.
    repeat match goal with
    | |- context [if ?c then _ else _] => destruct c
    end; cbn; auto 10.
  - unfold samePowers in *.
    destruct Hj as (J1 & J2 & J3 & J4 & J5), Hq as (Q1 & Q2 & Q3 & _ & _).
    rewrite J1, J2, J3, J4, J5. auto 10.
Qed.

Lemma applyMovementForces_samePowers (dt : R) (p : Player.t) (h : Host.t) :
  samePowers p (Player.applyMovementForces dt p) h h.
Proof.
  unfold samePowers, Player.applyMovementForces.
  destruct (Player.isMoving p); cbn; auto 10.
Qed.

(** A frame in which the player does not die leaves the power-ups alone,
    however long its [deltaTime]. *)
Lemma update_samePowers (dt : R) (i : InputState) (p : Player.t) (h : Host.t) :
  -10 <= Vec3.y (Player.meshPosition p) ->
  samePowers p (fst (Player.update dt i p h)) h (snd (Player.update dt i p h)).
Proof.
  intros Hy. unfold Player.update.
  pose proof (processInput_samePowers i p h) as H1.
  destruct (Player.processInput i p h) as [p1 h1]. cbn [fst snd] in H1.
  pose proof (applyMovementForces_samePowers dt p1 h1) as H2.
  set (p2 := Player.applyMovementForces dt p1) in *.
  destruct H1 as (A1 & A2 & A3 & A4 & A5), H2 as (B1 & B2 & B3 & _ & _).
  unfold Player.checkBounds.
  rewrite (proj2 (Rltb_false_iff (Vec3.y (Player.meshPosition p2)) (-10)))
    by (rewrite B3, A3; exact Hy).
  unfold samePowers.
  destruct (Rgtb (Player.jumpCooldown p2) 0); cbn;
    rewrite B1, B2, B3, A1, A2, A3, A4, A5; auto 10.
Qed.

(** C9, as the code has it.  A power-up expires on the wall clock: picking
    it up arms a timeout of [duration * 1000] milliseconds, and once that
    much wall-clock time has passed the flag is false, whether or not a frame
    was updated in between.  A frame ([update(dt)]) in which the player does
    not die never expires a power-up and moves neither the clock nor the
    pending timeouts, whatever its [dt]. *)
Theorem power_expiry_is_wall_clock
  (p : Player.t) (h : Host.t) (duration ms : R) :
  duration * 1000 <= ms ->
  (let '(p1, h1) := Player.giveJumpPower duration p h in
   Player.hasJumpPower p1 = true /\
   Player.hasJumpPower (fst (elapse ms p1 h1)) = false) /\
  (let '(p1, h1) := Player.giveSpeedBoost duration p h in
   Player.hasSpeedBoost p1 = true /\
   Player.hasSpeedBoost (fst (elapse ms p1 h1)) = false) /\
  (forall (q : Player.t) (g : Host.t) (dt : R) (i : InputState),
   -10 <= Vec3.y (Player.meshPosition q) ->
   samePowers q (fst (Player.update dt i q g)) g (snd (Player.update dt i q g))).
Proof.
  intros Hms. split; [|split].
  - pose proof (giveJumpPower_spec duration p h) as H.
    destruct (Player.giveJumpPower duration p h) as [p1 h1].
    destruct H as (Hon & _ & Hnow & id & Hin).
    split; [exact Hon|].
    apply (elapse_switches_off _ ms p1 h1 Hin). cbn. rewrite Hnow. lra.
  - pose proof (giveSpeedBoost_spec duration p h) as H.
    destruct (Player.giveSpeedBoost duration p h) as [p1 h1].
    destruct H as (Hon & _ & Hnow & id & Hin).
    split; [exact Hon|].
    apply (elapse_switches_off _ ms p1 h1 Hin). cbn. rewrite Hnow. lra.
  - intros q g dt i Hy. apply update_samePowers, Hy.
Qed.

Lemma power_expiry_is_wall_clock_witness :
  let '(p1, h1) := Player.giveSpeedBoost 5 groundedBall Host.init in
  Player.hasSpeedBoost p1 = true /\
  Player.hasSpeedBoost (fst (elapse 5000 p1 h1)) = false.
Proof.
  destruct (power_expiry_is_wall_clock groundedBall Host.init 5 5000)
    as (_ & H & _); [lra|].
  exact H.
Defined.

(** C9 as stated fails: with the frame loop paused, so that no [update]
    runs at all, the jump power picked up for 10 seconds is gone once 10
    seconds of wall-clock time have passed. *)
Lemma jump_power_expires_while_paused :
  let '(p1, h1) := Player.giveJumpPower 10 groundedBall Host.init in
  Player.hasJumpPower p1 = true /\
  Player.hasJumpPower (fst (steps [Wait 10000] p1 h1)) = false.
Proof.
  pose proof (giveJumpPower_spec 10 groundedBall Host.init) as H.
  destruct (Player.giveJumpPower 10 groundedBall Host.init) as [p1 h1].
  destruct H as (Hon & _ & Hnow & id & Hin).
  split; [exact Hon|].
  cbn [steps step].
  pose proof (elapse_switches_off _ 10000 p1 h1 Hin) as Hoff.
  destruct (elapse 10000 p1 h1) as [p2 h2]. cbn [fst] in *.
  apply Hoff. cbn. rewrite Hnow. cbn. lra.
Qed.

(** * Further properties of the player *)

Lemma Rneqb_false (a b : R) : a = b -> Rneqb a b = false.
Proof. intros H. unfold Rneqb. destruct (Req_dec_T a b); [reflexivity|contradiction]. Qed.

Lemma unit_after_normalising (a b : R) :
  0 < a * a + b * b ->
  a / sqrt (a * a + b * b) * (a / sqrt (a * a + b * b)) +
  b / sqrt (a * a + b * b) * (b / sqrt (a * a + b * b)) = 1.
Proof.
  intros H.
  assert (Hs : 0 < sqrt (a * a + b * b)) by (apply sqrt_lt_R0; exact H).
  assert (Hq : sqrt (a * a + b * b) * sqrt (a * a + b * b) = a * a + b * b)
    by (apply sqrt_sqrt; lra).
  set (s := sqrt (a * a + b * b)) in *.
  replace (a / s * (a / s) + b / s * (b / s)) with ((a * a + b * b) / (s * s))
    by (field; lra).
  rewrite Hq. field. lra.
Qed.

Lemma jump_keeps_direction (p : Player.t) (h : Host.t) :
  Player.moveDirection (fst (Player.jump p h)) = Player.moveDirection p /\
  Player.isMoving (fst (Player.jump p h)) = Player.isMoving p.
Proof.
  unfold Player.jump.
  destruct (negb (Player.canJump p)); [cbn; auto|].
  destruct (negb (Player.hasJumpPower p) && negb (Player.isOnJumpPad p));
    cbn; auto.
Qed.

(** Decide the comparisons with 0 that the key combinations produce. *)
Ltac settle_keys :=
  repeat first
    [ rewrite (Rneqb_false (0 - 1 + 1) 0) by lra
    | rewrite (Rneqb_false 0 0) by lra
    | rewrite (Rneqb_true (0 - 1) 0) by (intro; lra)
    | rewrite (Rneqb_true (0 + 1) 0) by (intro; lra) ].

(** X1.  Whatever keys are held, [processInput] leaves a move direction that
    is either zero, with [isMoving] false, or of length one, with [isMoving]
    true: a diagonal is normalised, opposite keys cancel.  The player is
    moving exactly when forward and backward differ or left and right
    differ. *)
Theorem processInput_direction (i : InputState) (p : Player.t) (h : Host.t) :
  let p' := fst (Player.processInput i p h) in
  let d := Player.moveDirection p' in
  (Player.isMoving p' = true ->
   Vec2.x d * Vec2.x d + Vec2.z d * Vec2.z d = 1) /\
  (Player.isMoving p' = false -> Vec2.x d = 0 /\ Vec2.z d = 0) /\
  Player.isMoving p' =
    xorb (forward i) (backward i) || xorb (left i) (right i).
Proof.
  cbn zeta. unfold Player.processInput.
  match goal with
  | |- context [if ?c then Player.jump ?q h else _] =>
      assert (Hq : (Player.isMoving q = true ->
                    Vec2.x (Player.moveDirection q) * Vec2.x (Player.moveDirection q) +
                    Vec2.z (Player.moveDirection q) * Vec2.z (Player.moveDirection q) = 1) /\
                   (Player.isMoving q = false ->
                    Vec2.x (Player.moveDirection q) = 0 /\
                    Vec2.z (Player.moveDirection q) = 0) /\
                   Player.isMoving q =
                     xorb (forward i) (backward i) || xorb (left i) (right i));
      [|destruct (jump_keeps_direction q h) as [Hd Hm];
        destruct c; cbn [fst]; rewrite ?Hd, ?Hm; exact Hq]
  end.
  destruct i as [[] [] [] [] jk]; cbn [forward backward left right xorb orb];
    settle_keys; cbn [orb andb Player.isMoving Player.moveDirection
                      Player.set_isMoving Player.set_moveDirection Vec2.x Vec2.z];
    (split; [intros Hm; try discriminate;
             first [apply unit_after_normalising; lra | lra]
            |split; [intros Hm; try discriminate; split; lra|reflexivity]]).
Qed.

Lemma jump_powered (p : Player.t) (h : Host.t) :
  Player.canJump p = true ->
  Player.hasJumpPower p = true ->
  Player.jump p h =
  (Player.set_jumpCooldown (1/2)
     (Player.set_isJumping true
        (Player.set_canJump false
           (Player.set_body
              (Body.applyImpulse (Vec3.mk 0 (Player.jumpForce p) 0) (Player.body p))
              p))),
   Host.emit EvJumpEffect h).
Proof. intros Hc Hp. unfold Player.jump. rewrite Hc, Hp. reflexivity. Qed.

(** X2.  A grounded ball with the jump power jumps once: the vertical
    velocity grows by [jumpForce / mass], the horizontal velocity and the
    position are as they were, the ground-contact flag drops, the cooldown
    starts at 0.5, one jump effect is emitted, and a second [jump()] right
    after it does nothing. *)
Theorem jump_applies_one_impulse (p : Player.t) (h : Host.t) :
  Player.canJump p = true ->
  Player.hasJumpPower p = true ->
  let '(p1, h1) := Player.jump p h in
  Vec3.y (Body.velocity (Player.body p1)) =
    Vec3.y (Body.velocity (Player.body p)) +
    Player.jumpForce p * Body.invMass (Player.body p) /\
  Vec3.x (Body.velocity (Player.body p1)) = Vec3.x (Body.velocity (Player.body p)) /\
  Vec3.z (Body.velocity (Player.body p1)) = Vec3.z (Body.velocity (Player.body p)) /\
  Body.position (Player.body p1) = Body.position (Player.body p) /\
  Player.canJump p1 = false /\
  Player.isJumping p1 = true /\
  Player.jumpCooldown p1 = 1/2 /\
  Host.trace h1 = Host.trace h ++ [EvJumpEffect] /\
  Player.jump p1 h1 = (p1, h1).
Proof.
  intros Hc Hp. rewrite (jump_powered p h Hc Hp). cbn.
  repeat split; ring.
Qed.

Lemma jump_applies_one_impulse_witness :
  let '(p1, h1) := Player.jump poweredBall Host.init in
  Vec3.y (Body.velocity (Player.body p1)) = 12 /\
  Player.jump p1 h1 = (p1, h1).
Proof.
  pose proof (jump_applies_one_impulse poweredBall Host.init eq_refl eq_refl) as H.
  destruct (Player.jump poweredBall Host.init) as [p1 h1].
  destruct H as (Hy & _ & _ & _ & _ & _ & _ & _ & Hagain).
  split; [|exact Hagain].
  rewrite Hy. cbn. unfold Rgtb. rewrite (proj2 (Rltb_true_iff 0 1)) by lra. lra.
Defined.

(** ** The jump cooldown *)

Lemma jumpCount_emit (e : Event) (h : Host.t) :
  isJumpEffect e = false -> jumpCount (Host.emit e h) = jumpCount h.
Proof.
  intros He. unfold jumpCount, Host.emit. cbn.
  rewrite filter_app. cbn. rewrite He. rewrite app_nil_r. reflexivity.
Qed.

Lemma processInput_cooling (i : InputState) (p : Player.t) (h : Host.t) :
  0 < Player.jumpCooldown p ->
  snd (Player.processInput i p h) = h /\
  Player.jumpCooldown (fst (Player.processInput i p h)) = Player.jumpCooldown p /\
  Player.body (fst (Player.processInput i p h)) = Player.body p /\
  Player.meshPosition (fst (Player.processInput i p h)) = Player.meshPosition p /\
  Player.onDeath (fst (Player.processInput i p h)) = Player.onDeath p.
Proof.
  intros Hc. unfold Player.processInput.
  match goal with
  | |- context [if ?c then Player.jump ?q h else _] =>
      assert (Hq : Player.jumpCooldown q = Player.jumpCooldown p /\
                   Player.body q = Player.body p /\
                   Player.meshPosition q = Player.meshPosition p /\
                   Player.onDeath q = Player.onDeath p);
      [|replace c with false;
        [cbn [fst snd]; tauto|]]
  end.
  - repeat match goal with
    | |- context [if ?c then _ else _] => destruct c
    end; cbn; auto.
  - destruct Hq as (Hq & _). rewrite Hq.
    rewrite (proj2 (Rleb_false_iff _ _) Hc).
    rewrite andb_false_r. reflexivity.
Qed.

Lemma applyMovementForces_keeps (dt : R) (p : Player.t) :
  Player.jumpCooldown (Player.applyMovementForces dt p) = Player.jumpCooldown p /\
  Player.meshPosition (Player.applyMovementForces dt p) = Player.meshPosition p /\
  Player.onDeath (Player.applyMovementForces dt p) = Player.onDeath p /\
  Player.jumpPowerTimeout (Player.applyMovementForces dt p) =
    Player.jumpPowerTimeout p /\
  Player.speedBoostTimeout (Player.applyMovementForces dt p) =
    Player.speedBoostTimeout p.
Proof.
  unfold Player.applyMovementForces.
  destruct (Player.isMoving p); cbn; auto.
Qed.

Lemma checkBounds_cooling (p : Player.t) (h : Host.t) :
  0 < Player.jumpCooldown p <= 1/2 ->
  jumpCount (snd (Player.checkBounds p h)) = jumpCount h /\
  Player.jumpCooldown p <= Player.jumpCooldown (fst (Player.checkBounds p h)) <= 1/2.
Proof.
  intros Hc. unfold Player.checkBounds.
  destruct (Rltb _ _); [|cbn; split; [reflexivity|lra]].
  unfold Player.die.
  pose proof (respawn_spec p (Player.createDeathEffect h)) as H.
  destruct (Player.respawn p (Player.createDeathEffect h)) as [p2 h2].
  destruct H as (_ & _ & _ & _ & _ & Hcd & _ & _ & _ & Htr & _).
  assert (Hj : jumpCount h2 = jumpCount h).
  { unfold jumpCount. rewrite Htr. apply (jumpCount_emit EvDeathEffect h).
    reflexivity. }
  destruct (Player.onDeath p2) as [cb|]; cbn [fst snd]; rewrite Hcd.
  - rewrite jumpCount_emit by reflexivity. split; [exact Hj|lra].
  - split; [exact Hj|lra].
Qed.

Lemma update_cooling (dt : R) (i : InputState) (p : Player.t) (h : Host.t) :
  0 <= dt ->
  0 < Player.jumpCooldown p <= 1/2 ->
  jumpCount (snd (Player.update dt i p h)) = jumpCount h /\
  Player.jumpCooldown p - dt <= Player.jumpCooldown (fst (Player.update dt i p h))
    <= 1/2.
Proof.
  intros Hdt Hc. unfold Player.update.
  destruct (processInput_cooling i p h (proj1 Hc)) as (H1 & H2 & _).
  destruct (Player.processInput i p h) as [p1 h1]. cbn [fst snd] in H1, H2.
  subst h1.
  destruct (applyMovementForces_keeps dt p1) as (H3 & _).
  destruct (checkBounds_cooling (Player.applyMovementForces dt p1) h) as (H4 & H5).
  { rewrite H3, H2. exact Hc. }
  destruct (Player.checkBounds (Player.applyMovementForces dt p1) h) as [p3 h3].
  cbn [fst snd] in H4, H5. rewrite H3, H2 in H5.
  destruct (Rgtb (Player.jumpCooldown p3) 0); cbn [fst snd];
    (split; [exact H4|]); cbn; lra.
Qed.

Lemma elapse_cooling (ms : R) (p : Player.t) (h : Host.t) :
  Player.jumpCooldown (fst (elapse ms p h)) = Player.jumpCooldown p /\
  Host.trace (snd (elapse ms p h)) = Host.trace h.
Proof.
  unfold elapse. cbn [fst snd Host.trace]. split; [|reflexivity].
  generalize (Host.sortByDue (filter (Host.isDue (Host.now h + ms)) (Host.timers h))).
  intros l. revert p. induction l as [|tm l IH]; intros p; cbn; [reflexivity|].
  rewrite IH. destruct (Host.action tm); reflexivity.
Qed.

(** X3.  The cooldown holds: starting from a cooldown [c] (at most 0.5, as
    [jump] and [respawn] set it), through any run of frames, physics steps,
    contacts, pickups and waits whose frames add up to less than [c], no
    jump happens, even with the jump key held, the power active and the ball
    grounded again. *)
Theorem no_jump_during_cooldown (l : list Step) (p : Player.t) (h : Host.t) :
  Forall forwardInTime l ->
  Player.jumpCooldown p <= 1/2 ->
  frameTime l < Player.jumpCooldown p ->
  let '(p', h') := steps l p h in
  jumpCount h' = jumpCount h /\
  Player.jumpCooldown p - frameTime l <= Player.jumpCooldown p'.
Proof.
  revert p h. induction l as [|s l IH]; intros p h Hl Hmax Hlt.
  - cbn. split; [reflexivity|lra].
  - inversion Hl as [|s' l' Hs Hl']; subst.
    assert (Hnn : 0 <= frameTime l).
    { clear -Hl'. induction Hl' as [|s l Hs Hl IH]; cbn; [lra|].
      destruct s; cbn in Hs; lra. }
    cbn [steps].
    assert (Hstep :
      jumpCount (snd (step s p h)) = jumpCount h /\
      Player.jumpCooldown (fst (step s p h)) <= 1/2 /\
      frameTime l < Player.jumpCooldown (fst (step s p h)) /\
      Player.jumpCooldown p - frameTime (s :: l) <=
        Player.jumpCooldown (fst (step s p h)) - frameTime l).
    { destruct s as [dt i|b|niy|d|d|ms]; cbn [frameTime] in *; unfold step.
      - cbn in Hs.
        destruct (update_cooling dt i p h Hs) as (H1 & H2); [lra|].
        repeat split; [exact H1|lra|lra|lra].
      - cbn. repeat split; lra.
      - cbn [fst snd]. unfold Player.onCollide.
        destruct (Rgtb niy (1/2)); cbn; repeat split; lra.
      - unfold Player.giveJumpPower.
        destruct (Player.jumpPowerTimeout _) as [[|k]|]; cbn;
          repeat split; lra.
      - unfold Player.giveSpeedBoost.
        destruct (Player.speedBoostTimeout _) as [[|k]|]; cbn;
          repeat split; lra.
      - destruct (elapse_cooling ms p h) as (H1 & H2).
        unfold jumpCount. rewrite H1, H2. repeat split; lra. }
    destruct (step s p h) as [p1 h1]. cbn [fst snd] in Hstep.
    destruct Hstep as (S1 & S2 & S3 & S4).
    specialize (IH p1 h1 Hl' S2 S3).
    destruct (steps l p1 h1) as [p' h'].
    destruct IH as (I1 & I2). split; [congruence|lra].
Qed.

Lemma no_jump_during_cooldown_witness :
  let '(p1, h1) := Player.jump poweredBall Host.init in
  let '(p', h') := steps bounceAndHold p1 h1 in
  jumpCount h' = 1%nat.
Proof.
  rewrite (jump_powered poweredBall Host.init eq_refl eq_refl).
  set (p1 := Player.set_jumpCooldown _ _). set (h1 := Host.emit _ _).
  assert (Hcd : Player.jumpCooldown p1 = 1/2) by reflexivity.
  assert (Htr : Host.trace h1 = Host.trace Host.init ++ [EvJumpEffect])
    by reflexivity.
  pose proof (no_jump_during_cooldown bounceAndHold p1 h1) as H.
  destruct (steps bounceAndHold p1 h1) as [p' h'].
  destruct H as (Hc & _).
  - unfold bounceAndHold. repeat constructor; cbn; lra.
  - rewrite Hcd. lra.
  - rewrite Hcd. unfold bounceAndHold. cbn. lra.
  - rewrite Hc. unfold jumpCount. rewrite Htr. reflexivity.
Defined.

(** ** Ownership of the expiry timeouts *)

Lemma NoDup_map_same {A B : Type} (f : A -> B) (l : list A) (a b : A) :
  NoDup (map f l) -> In a l -> In b l -> f a = f b -> a = b.
Proof.
  induction l as [|u l IH]; intros Hnd Ha Hb Hf; [contradiction|].
  cbn in Hnd. inversion Hnd as [|? ? Hnotin Hnd']; subst.
  destruct Ha as [->|Ha], Hb as [->|Hb].
  - reflexivity.
  - exfalso. apply Hnotin. rewrite Hf. apply in_map, Hb.
  - exfalso. apply Hnotin. rewrite <- Hf. apply in_map, Ha.
  - apply IH; assumption.
Qed.

Lemma NoDup_map_filter {A B : Type} (f : A -> B) (g : A -> bool) (l : list A) :
  NoDup (map f l) -> NoDup (map f (filter g l)).
Proof.
  induction l as [|u l IH]; intros Hnd; cbn; [constructor|].
  cbn in Hnd. inversion Hnd as [|? ? Hnotin Hnd']; subst.
  destruct (g u); cbn; [|apply IH, Hnd'].
  constructor; [|apply IH, Hnd'].
  intros Hin. apply Hnotin. apply in_map_iff in Hin.
  destruct Hin as (x & Hx & Hin). apply filter_In in Hin.
  rewrite <- Hx. apply in_map, Hin.
Qed.

(** The invariant reads the player only through the two handles. *)
Lemma timersOwned_same_handles (p p' : Player.t) (h : Host.t) :
  Player.jumpPowerTimeout p' = Player.jumpPowerTimeout p ->
  Player.speedBoostTimeout p' = Player.speedBoostTimeout p ->
  timersOwned p h -> timersOwned p' h.
Proof.
  intros Hj Hs (H1 & H2 & H3). unfold timersOwned. rewrite Hj, Hs. auto.
Qed.

Lemma timersOwned_emit (e : Event) (p : Player.t) (h : Host.t) :
  timersOwned p h -> timersOwned p (Host.emit e h).
Proof. intros H. exact H. Qed.

Lemma timersOwned_init (position : Vec3.t) :
  timersOwned (Player.create position) Host.init.
Proof.
  unfold timersOwned. cbn. split; [lia|]. split; [constructor|].
  intros tm [].
Qed.

(** Dropping the handle of one kind after cancelling its timeout. *)
Lemma timersOwned_cancel_jump (p : Player.t) (h : Host.t) :
  timersOwned p h ->
  let h1 := match Player.jumpPowerTimeout p with
            | Some (S k) => Host.clearTimeout (S k) h
            | _ => h
            end in
  (1 <= Host.nextTimer h1)%nat /\
  Host.nextTimer h1 = Host.nextTimer h /\
  Host.now h1 = Host.now h /\
  NoDup (map Host.tid (Host.timers h1)) /\
  (forall tm, In tm (Host.timers h1) ->
     (1 <= Host.tid tm < Host.nextTimer h)%nat /\
     Host.action tm = ExpireSpeedBoost /\
     Player.speedBoostTimeout p = Some (Host.tid tm)).
Proof.
  intros (H1 & H2 & H3). cbn zeta.
  destruct (Player.jumpPowerTimeout p) as [[|k]|] eqn:Hj.
  - repeat split; try assumption; try reflexivity;
      destruct (H3 tm H) as (Hr & Ha); try lia;
      destruct (Host.action tm); try reflexivity; try exact Ha;
      try (injection Ha as Ha; lia).
  - cbn [Host.clearTimeout Host.nextTimer Host.now Host.timers].
    split; [exact H1|]. split; [reflexivity|]. split; [reflexivity|].
    split; [apply NoDup_map_filter, H2|].
    intros tm Hin. apply filter_In in Hin. destruct Hin as (Hin & Hne).
    destruct (H3 tm Hin) as (Hr & Ha).
    split; [exact Hr|].
    destruct (Host.action tm).
    + injection Ha as Ha. rewrite <- Ha, Nat.eqb_refl in Hne. discriminate.
    + split; [reflexivity|exact Ha].
  - repeat split; try assumption; try reflexivity;
      destruct (H3 tm H) as (Hr & Ha); try lia;
      destruct (Host.action tm); try reflexivity; try exact Ha;
      try discriminate.
Qed.

Lemma timersOwned_cancel_speed (p : Player.t) (h : Host.t) :
  timersOwned p h ->
  let h1 := match Player.speedBoostTimeout p with
            | Some (S k) => Host.clearTimeout (S k) h
            | _ => h
            end in
  (1 <= Host.nextTimer h1)%nat /\
  Host.nextTimer h1 = Host.nextTimer h /\
  Host.now h1 = Host.now h /\
  NoDup (map Host.tid (Host.timers h1)) /\
  (forall tm, In tm (Host.timers h1) ->
     (1 <= Host.tid tm < Host.nextTimer h)%nat /\
     Host.action tm = ExpireJumpPower /\
     Player.jumpPowerTimeout p = Some (Host.tid tm)).
Proof.
  intros (H1 & H2 & H3). cbn zeta.
  destruct (Player.speedBoostTimeout p) as [[|k]|] eqn:Hj.
  - repeat split; try assumption; try reflexivity;
      destruct (H3 tm H) as (Hr & Ha); try lia;
      destruct (Host.action tm); try reflexivity; try exact Ha;
      try (injection Ha as Ha; lia).
  - cbn [Host.clearTimeout Host.nextTimer Host.now Host.timers].
    split; [exact H1|]. split; [reflexivity|]. split; [reflexivity|].
    split; [apply NoDup_map_filter, H2|].
    intros tm Hin. apply filter_In in Hin. destruct Hin as (Hin & Hne).
    destruct (H3 tm Hin) as (Hr & Ha).
    split; [exact Hr|].
    destruct (Host.action tm).
    + split; [reflexivity|exact Ha].
    + injection Ha as Ha. rewrite <- Ha, Nat.eqb_refl in Hne. discriminate.
  - repeat split; try assumption; try reflexivity;
      destruct (H3 tm H) as (Hr & Ha); try lia;
      destruct (Host.action tm); try reflexivity; try exact Ha;
      try discriminate.
Qed.

Lemma giveJumpPower_owned (d : R) (p : Player.t) (h : Host.t) :
  timersOwned p h ->
  timersOwned (fst (Player.giveJumpPower d p h)) (snd (Player.giveJumpPower d p h)) /\
  pendingOf ExpireJumpPower (snd (Player.giveJumpPower d p h)) =
    [Host.mkTimer (Host.nextTimer h) (Host.now h + d * 1000) ExpireJumpPower].
Proof.
  intros Ho.
  pose proof (timersOwned_cancel_jump p h Ho) as Hc. cbn zeta in Hc.
  unfold Player.giveJumpPower.
  cbn [Player.jumpPowerTimeout Player.set_hasJumpPower].
  set (h1 := match Player.jumpPowerTimeout p with
             | Some (S k) => Host.clearTimeout (S k) h
             | _ => h
             end) in *.
  destruct Hc as (C1 & C2 & C3 & C4 & C5).
  cbn [Host.setTimeout fst snd]. rewrite C2, C3.
  split.
  - unfold timersOwned. cbn. split; [lia|]. split.
    + rewrite map_app. cbn. apply NoDup_app; [exact C4|repeat constructor; intros []|].
      intros x Hin [Hx|[]]. apply in_map_iff in Hin.
      destruct Hin as (tm & Ht & Hin). destruct (C5 tm Hin) as (Hr & _). lia.
    + intros tm Hin. apply in_app_or in Hin. destruct Hin as [Hin|[<-|[]]].
      * destruct (C5 tm Hin) as (Hr & Ha & Hs). rewrite Ha.
        split; [lia|exact Hs].
      * cbn. split; [lia|reflexivity].
  - unfold pendingOf. cbn [Host.timers]. rewrite filter_app. cbn.
    replace (filter _ (Host.timers h1)) with (@nil Host.Timer); [reflexivity|].
    symmetry. clear -C5. induction (Host.timers h1) as [|u l IH]; [reflexivity|].
    cbn. destruct (C5 u (or_introl eq_refl)) as (_ & Ha & _). rewrite Ha.
    apply IH. intros tm Hin. apply C5. right. exact Hin.
Qed.

Lemma giveSpeedBoost_owned (d : R) (p : Player.t) (h : Host.t) :
  timersOwned p h ->
  timersOwned (fst (Player.giveSpeedBoost d p h)) (snd (Player.giveSpeedBoost d p h)) /\
  pendingOf ExpireSpeedBoost (snd (Player.giveSpeedBoost d p h)) =
    [Host.mkTimer (Host.nextTimer h) (Host.now h + d * 1000) ExpireSpeedBoost].
Proof.
  intros Ho.
  pose proof (timersOwned_cancel_speed p h Ho) as Hc. cbn zeta in Hc.
  unfold Player.giveSpeedBoost.
  cbn [Player.speedBoostTimeout Player.set_hasSpeedBoost].
  set (h1 := match Player.speedBoostTimeout p with
             | Some (S k) => Host.clearTimeout (S k) h
             | _ => h
             end) in *.
  destruct Hc as (C1 & C2 & C3 & C4 & C5).
  cbn [Host.setTimeout fst snd]. rewrite C2, C3.
  split.
  - unfold timersOwned. cbn. split; [lia|]. split.
    + rewrite map_app. cbn. apply NoDup_app; [exact C4|repeat constructor; intros []|].
      intros x Hin [Hx|[]]. apply in_map_iff in Hin.
      destruct Hin as (tm & Ht & Hin). destruct (C5 tm Hin) as (Hr & _). lia.
    + intros tm Hin. apply in_app_or in Hin. destruct Hin as [Hin|[<-|[]]].
      * destruct (C5 tm Hin) as (Hr & Ha & Hs). rewrite Ha.
        split; [lia|exact Hs].
      * cbn. split; [lia|reflexivity].
  - unfold pendingOf. cbn [Host.timers]. rewrite filter_app. cbn.
    replace (filter _ (Host.timers h1)) with (@nil Host.Timer); [reflexivity|].
    symmetry. clear -C5.
    induction (Host.timers h1) as [|u l IH]; [reflexivity|].
    cbn. destruct (C5 u (or_introl eq_refl)) as (_ & Ha & _). rewrite Ha.
    apply IH. intros tm Hin. apply C5. right. exact Hin.
Qed.

Lemma removeAllPowerups_host (p : Player.t) (h : Host.t) :
  snd (Player.removeAllPowerups p h) =
  let h1 := match Player.jumpPowerTimeout p with
            | Some (S k) => Host.clearTimeout (S k) h
            | _ => h
            end in
  match Player.speedBoostTimeout p with
  | Some (S k) => Host.clearTimeout (S k) h1
  | _ => h1
  end.
Proof.
  unfold Player.removeAllPowerups.
  destruct p as [r sp mf jf ms cj ij jc md im hj hs sf ta [[|jt]|] [[|st]|] od b mp];
    reflexivity.
Qed.

Lemma In_clearTimeout (u : Host.Timer) (id : nat) (h : Host.t) :
  In u (Host.timers (Host.clearTimeout id h)) <->
  In u (Host.timers h) /\ Host.tid u <> id.
Proof.
  unfold Host.clearTimeout. cbn. rewrite filter_In.
  rewrite negb_true_iff, Nat.eqb_neq. reflexivity.
Qed.

Lemma removeAllPowerups_owned (p : Player.t) (h : Host.t) :
  timersOwned p h ->
  timersOwned (fst (Player.removeAllPowerups p h))
              (snd (Player.removeAllPowerups p h)) /\
  Host.timers (snd (Player.removeAllPowerups p h)) = [].
Proof.
  intros Ho.
  assert (Hempty : Host.timers (snd (Player.removeAllPowerups p h)) = []).
  { destruct Ho as (H1 & H2 & H3).
    destruct (Host.timers (snd (Player.removeAllPowerups p h))) as [|u l] eqn:Hl;
      [reflexivity|exfalso].
    assert (Hin : In u (Host.timers (snd (Player.removeAllPowerups p h))))
      by (rewrite Hl; left; reflexivity).
    clear Hl. rewrite removeAllPowerups_host in Hin. cbn zeta in Hin.
    assert (Hu : In u (Host.timers h) /\
                 (forall j, Player.jumpPowerTimeout p = Some (S j) ->
                            Host.tid u <> S j) /\
                 (forall s, Player.speedBoostTimeout p = Some (S s) ->
                            Host.tid u <> S s)).
    { destruct (Player.jumpPowerTimeout p) as [[|j]|] eqn:Ej;
        destruct (Player.speedBoostTimeout p) as [[|s]|] eqn:Es;
        rewrite ?In_clearTimeout in Hin;
        repeat split; try tauto; intros k Hk; try discriminate;
        injection Hk as <-; tauto. }
    destruct Hu as (Hin' & Hj & Hs).
    destruct (H3 u Hin') as (Hr & Ha).
    destruct (Host.action u).
    - destruct (Host.tid u) as [|k] eqn:Ht; [lia|]. apply (Hj k Ha). reflexivity.
    - destruct (Host.tid u) as [|k] eqn:Ht; [lia|]. apply (Hs k Ha). reflexivity. }
  split; [|exact Hempty].
  destruct Ho as (H1 & H2 & H3).
  unfold timersOwned. rewrite Hempty.
  split.
  - rewrite removeAllPowerups_host. cbn zeta.
    destruct (Player.jumpPowerTimeout p) as [[|j]|];
      destruct (Player.speedBoostTimeout p) as [[|s]|]; cbn; exact H1.
  - split; [constructor|]. intros tm [].
Qed.

Lemma fired_untouched (a : TimerAction) (l : list Host.Timer) (p : Player.t) :
  (forall tm, In tm l -> Host.action tm <> a) ->
  let p' := fold_left (fun q tm => Player.fire (Host.action tm) q) l p in
  match a with
  | ExpireJumpPower =>
      Player.hasJumpPower p' = Player.hasJumpPower p /\
      Player.jumpPowerTimeout p' = Player.jumpPowerTimeout p
  | ExpireSpeedBoost =>
      Player.hasSpeedBoost p' = Player.hasSpeedBoost p /\
      Player.speedBoostTimeout p' = Player.speedBoostTimeout p
  end.
Proof.
  revert p. induction l as [|u l IH]; intros p Hl; cbn zeta.
  - destruct a; split; reflexivity.
  - cbn [fold_left].
    assert (Hu : Host.action u <> a) by (apply Hl; left; reflexivity).
    specialize (IH (Player.fire (Host.action u) p)
                   (fun tm Hin => Hl tm (or_intror Hin))).
    cbn zeta in IH.
    destruct a, (Host.action u); try congruence; cbn in IH; exact IH.
Qed.

Lemma elapse_owned (ms : R) (p : Player.t) (h : Host.t) :
  timersOwned p h ->
  timersOwned (fst (elapse ms p h)) (snd (elapse ms p h)).
Proof.
  intros (H1 & H2 & H3). unfold elapse. cbn [fst snd].
  set (at_ := Host.now h + ms).
  set (ready := Host.sortByDue (filter (Host.isDue at_) (Host.timers h))).
  unfold timersOwned. cbn [Host.nextTimer Host.timers].
  split; [exact H1|]. split; [apply NoDup_map_filter, H2|].
  intros tm Hin. apply filter_In in Hin. destruct Hin as (Hin & Hwait).
  destruct (H3 tm Hin) as (Hr & Ha). split; [exact Hr|].
  assert (Hnone : forall u, In u ready -> Host.action u <> Host.action tm).
  { intros u Hu Heq. unfold ready in Hu.
    apply (proj1 (In_sortByDue _ _)) in Hu.
    apply (proj1 (filter_In _ _ _)) in Hu. destruct Hu as (Hu & Hdue).
    destruct (H3 u Hu) as (_ & Hau). rewrite Heq in Hau.
    assert (Hid : Host.tid u = Host.tid tm).
    { destruct (Host.action tm); congruence. }
    pose proof (NoDup_map_same Host.tid _ u tm H2 Hu Hin Hid) as ->.
    rewrite Hdue in Hwait. discriminate. }
  pose proof (fired_untouched (Host.action tm) ready p Hnone) as Hf.
  cbn zeta in Hf.
  destruct (Host.action tm); destruct Hf as (_ & ->); exact Ha.
Qed.

Lemma processInput_handles (i : InputState) (p : Player.t) (h : Host.t) :
  Player.jumpPowerTimeout (fst (Player.processInput i p h)) =
    Player.jumpPowerTimeout p /\
  Player.speedBoostTimeout (fst (Player.processInput i p h)) =
    Player.speedBoostTimeout p /\
  Host.timers (snd (Player.processInput i p h)) = Host.timers h /\
  Host.nextTimer (snd (Player.processInput i p h)) = Host.nextTimer h.
Proof.
  unfold Player.processInput.
  match goal with
  | |- context [if ?c then Player.jump ?q h else _] =>
      assert (Hq : Player.jumpPowerTimeout q = Player.jumpPowerTimeout p /\
                   Player.speedBoostTimeout q = Player.speedBoostTimeout p);
      [|destruct c; [|cbn [fst snd]; tauto]]
  end.
  - repeat match goal with
    | |- context [if ?c then _ else _] => destruct c
    end; cbn; auto.
  - destruct Hq as (<- & <-). unfold Player.jump.
    destruct (negb (Player.canJump _)); [cbn; auto|].
    destruct (negb (Player.hasJumpPower _) && negb (Player.isOnJumpPad _));
      cbn; auto.
Qed.

Lemma update_owned (dt : R) (i : InputState) (p : Player.t) (h : Host.t) :
  timersOwned p h ->
  timersOwned (fst (Player.update dt i p h)) (snd (Player.update dt i p h)).
Proof.
  intros Ho. unfold Player.update.
  destruct (processInput_handles i p h) as (A1 & A2 & A3 & A4).
  destruct (Player.processInput i p h) as [p1 h1]. cbn [fst snd] in *.
  destruct (applyMovementForces_keeps dt p1) as (_ & _ & _ & B1 & B2).
  set (p2 := Player.applyMovementForces dt p1) in *.
  assert (Ho2 : timersOwned p2 h1).
  { destruct Ho as (H1 & H2 & H3). unfold timersOwned.
    rewrite A3, A4, B1, B2, A1, A2. auto. }
  assert (Ho3 : timersOwned (fst (Player.checkBounds p2 h1))
                            (snd (Player.checkBounds p2 h1))).
  { unfold Player.checkBounds. destruct (Rltb _ _); [|exact Ho2].
    unfold Player.die, Player.respawn.
    match goal with
    | |- context [Player.removeAllPowerups ?q ?g] =>
        assert (Hoq : timersOwned q g)
          by (apply (timersOwned_same_handles p2); [reflexivity|reflexivity|];
              exact Ho2);
        destruct (removeAllPowerups_owned q g Hoq) as (Hr & _);
        destruct (Player.removeAllPowerups q g) as [p3 h3]
    end.
    cbn [fst snd] in Hr.
    destruct (Player.onDeath p3); exact Hr. }
  destruct (Player.checkBounds p2 h1) as [p3 h3]. cbn [fst snd] in Ho3.
  destruct (Rgtb _ _); cbn [fst snd]; [|exact Ho3].
  apply (timersOwned_same_handles p3); [reflexivity|reflexivity|exact Ho3].
Qed.

Lemma step_owned (s : Step) (p : Player.t) (h : Host.t) :
  timersOwned p h -> timersOwned (fst (step s p h)) (snd (step s p h)).
Proof.
  intros Ho. destruct s as [dt i|b|niy|d|d|ms]; unfold step.
  - apply update_owned, Ho.
  - exact Ho.
  - cbn [fst snd]. unfold Player.onCollide.
    destruct (Rgtb _ _); [|exact Ho].
    apply (timersOwned_same_handles p); [reflexivity|reflexivity|exact Ho].
  - apply giveJumpPower_owned, Ho.
  - apply giveSpeedBoost_owned, Ho.
  - apply elapse_owned, Ho.
Qed.

Lemma steps_owned (l : list Step) (p : Player.t) (h : Host.t) :
  timersOwned p h -> timersOwned (fst (steps l p h)) (snd (steps l p h)).
Proof.
  revert p h. induction l as [|s l IH]; intros p h Ho; [exact Ho|].
  cbn [steps]. pose proof (step_owned s p h Ho) as H1.
  destruct (step s p h) as [p1 h1]. apply IH, H1.
Qed.

Lemma In_pendingOf (a : TimerAction) (tm : Host.Timer) (h : Host.t) :
  In tm (pendingOf a h) <-> In tm (Host.timers h) /\ Host.action tm = a.
Proof.
  unfold pendingOf. rewrite filter_In.
  destruct a, (Host.action tm); intuition congruence.
Qed.

Lemma owned_at_most_one (a : TimerAction) (p : Player.t) (h : Host.t) :
  timersOwned p h -> (length (pendingOf a h) <= 1)%nat.
Proof.
  intros (H1 & H2 & H3).
  destruct (pendingOf a h) as [|u [|v l]] eqn:Hp; cbn; try lia.
  exfalso.
  assert (Hu : In u (pendingOf a h)) by (rewrite Hp; cbn; auto).
  assert (Hv : In v (pendingOf a h)) by (rewrite Hp; cbn; auto).
  apply In_pendingOf in Hu, Hv. destruct Hu as (Hu & Hau), Hv as (Hv & Hav).
  destruct (H3 u Hu) as (_ & Xu), (H3 v Hv) as (_ & Xv).
  rewrite Hau in Xu. rewrite Hav in Xv.
  assert (Hid : Host.tid u = Host.tid v) by (destruct a; congruence).
  pose proof (NoDup_map_same Host.tid _ u v H2 Hu Hv Hid) as Heq. subst v.
  assert (Hnd : NoDup (pendingOf a h)).
  { unfold pendingOf. apply NoDup_filter.
    apply (NoDup_map_inv Host.tid). exact H2. }
  rewrite Hp in Hnd. inversion Hnd as [|? ? Hnot _]; subst.
  apply Hnot. left. reflexivity.
Qed.

(** X4.  In every run of a player from its creation (frames, physics steps,
    contacts, pickups, waits, deaths included) the pending expiry timeouts
    are owned: each one is the timeout whose handle the player holds for that
    power-up, so at most one is pending per power-up and an earlier pickup
    leaves no stray timeout behind. *)
Theorem timeouts_owned_in_every_run (position : Vec3.t) (l : list Step) :
  let '(p, h) := steps l (Player.create position) Host.init in
  timersOwned p h /\
  (length (pendingOf ExpireJumpPower h) <= 1)%nat /\
  (length (pendingOf ExpireSpeedBoost h) <= 1)%nat.
Proof.
  pose proof (steps_owned l (Player.create position) Host.init
                (timersOwned_init position)) as H.
  destruct (steps l (Player.create position) Host.init) as [p h].
  cbn [fst snd] in H.
  split; [exact H|]. split; apply (owned_at_most_one _ p h H).
Qed.

Lemma elapse_same_queue (ms : R) (p : Player.t) (h g : Host.t) :
  Host.now g = Host.now h -> Host.timers g = Host.timers h ->
  fst (elapse ms p g) = fst (elapse ms p h).
Proof. intros Hn Ht. unfold elapse. cbn [fst]. rewrite Hn, Ht. reflexivity. Qed.

Lemma jump_power_lasts (p : Player.t) (h : Host.t) (d ms : R) :
  timersOwned p h ->
  ms < d * 1000 ->
  Player.hasJumpPower
    (fst (elapse ms (fst (Player.giveJumpPower d p h))
                    (snd (Player.giveJumpPower d p h)))) = true.
Proof.
  intros Ho Hms.
  destruct (giveJumpPower_owned d p h Ho) as (_ & Hpend).
  pose proof (giveJumpPower_spec d p h) as Hs.
  destruct (Player.giveJumpPower d p h) as [p1 h1]. cbn [fst snd] in *.
  destruct Hs as (Hon & _ & Hnow & _).
  unfold elapse. cbn [fst].
  match goal with
  | |- Player.hasJumpPower (fold_left _ ?l _) = true =>
      pose proof (fired_untouched ExpireJumpPower l p1) as Hf
  end.
  cbn zeta in Hf. destruct Hf as (Hf & _); [|rewrite Hf; exact Hon].
  intros tm Hin Ha. apply (proj1 (In_sortByDue _ _)) in Hin.
  apply (proj1 (filter_In _ _ _)) in Hin.
  destruct Hin as (Hin & Hdue).
  assert (Hp : In tm (pendingOf ExpireJumpPower h1))
    by (apply In_pendingOf; auto).
  rewrite Hpend in Hp. destruct Hp as [<-|[]].
  unfold Host.isDue in Hdue. apply Rleb_true_iff in Hdue. cbn in Hdue. lra.
Qed.

Lemma speed_boost_lasts (p : Player.t) (h : Host.t) (d ms : R) :
  timersOwned p h ->
  ms < d * 1000 ->
  Player.hasSpeedBoost
    (fst (elapse ms (fst (Player.giveSpeedBoost d p h))
                    (snd (Player.giveSpeedBoost d p h)))) = true.
Proof.
  intros Ho Hms.
  destruct (giveSpeedBoost_owned d p h Ho) as (_ & Hpend).
  pose proof (giveSpeedBoost_spec d p h) as Hs.
  destruct (Player.giveSpeedBoost d p h) as [p1 h1]. cbn [fst snd] in *.
  destruct Hs as (Hon & _ & Hnow & _).
  unfold elapse. cbn [fst].
  match goal with
  | |- Player.hasSpeedBoost (fold_left _ ?l _) = true =>
      pose proof (fired_untouched ExpireSpeedBoost l p1) as Hf
  end.
  cbn zeta in Hf. destruct Hf as (Hf & _); [|rewrite Hf; exact Hon].
  intros tm Hin Ha. apply (proj1 (In_sortByDue _ _)) in Hin.
  apply (proj1 (filter_In _ _ _)) in Hin.
  destruct Hin as (Hin & Hdue).
  assert (Hp : In tm (pendingOf ExpireSpeedBoost h1))
    by (apply In_pendingOf; auto).
  rewrite Hpend in Hp. destruct Hp as [<-|[]].
  unfold Host.isDue in Hdue. apply Rleb_true_iff in Hdue. cbn in Hdue. lra.
Qed.

Lemma jump_power_ends (p : Player.t) (h : Host.t) (d ms : R) :
  d * 1000 <= ms ->
  Player.hasJumpPower
    (fst (elapse ms (fst (Player.giveJumpPower d p h))
                    (snd (Player.giveJumpPower d p h)))) = false.
Proof.
  intros Hms. pose proof (giveJumpPower_spec d p h) as H.
  destruct (Player.giveJumpPower d p h) as [p1 h1]. cbn [fst snd].
  destruct H as (_ & _ & Hnow & id & Hin).
  apply (elapse_switches_off _ ms p1 h1 Hin). cbn. rewrite Hnow. lra.
Qed.

Lemma speed_boost_ends (p : Player.t) (h : Host.t) (d ms : R) :
  d * 1000 <= ms ->
  Player.hasSpeedBoost
    (fst (elapse ms (fst (Player.giveSpeedBoost d p h))
                    (snd (Player.giveSpeedBoost d p h)))) = false.
Proof.
  intros Hms. pose proof (giveSpeedBoost_spec d p h) as H.
  destruct (Player.giveSpeedBoost d p h) as [p1 h1]. cbn [fst snd].
  destruct H as (_ & _ & Hnow & id & Hin).
  apply (elapse_switches_off _ ms p1 h1 Hin). cbn. rewrite Hnow. lra.
Qed.

(** X5.  A power-up lasts its full duration from the latest pickup: when the
    timeouts are owned (as in every run), after [giveJumpPower(d)] or
    [giveSpeedBoost(d)] the flag is still true after any wait shorter than
    [d * 1000] milliseconds, also when the same power-up was already active
    with little time left. *)
Theorem power_lasts_its_duration
  (p : Player.t) (h : Host.t) (d ms : R) :
  timersOwned p h ->
  ms < d * 1000 ->
  (let '(p1, h1) := Player.giveJumpPower d p h in
   Player.hasJumpPower (fst (elapse ms p1 h1)) = true) /\
  (let '(p1, h1) := Player.giveSpeedBoost d p h in
   Player.hasSpeedBoost (fst (elapse ms p1 h1)) = true).
Proof.
  intros Ho Hms. split.
  - pose proof (jump_power_lasts p h d ms Ho Hms) as H.
    destruct (Player.giveJumpPower d p h) as [p1 h1]. exact H.
  - pose proof (speed_boost_lasts p h d ms Ho Hms) as H.
    destruct (Player.giveSpeedBoost d p h) as [p1 h1]. exact H.
Qed.

Lemma power_lasts_its_duration_witness :
  let '(p, h) :=
    steps [PickJumpPower 10; Wait 9000] (Player.create (Vec3.mk 0 3 0)) Host.init in
  let '(p1, h1) := Player.giveJumpPower 10 p h in
  Player.hasJumpPower (fst (elapse 9999 p1 h1)) = true.
Proof.
  pose proof (steps_owned [PickJumpPower 10; Wait 9000]
                (Player.create (Vec3.mk 0 3 0)) Host.init
                (timersOwned_init _)) as Ho.
  destruct (steps [PickJumpPower 10; Wait 9000]
              (Player.create (Vec3.mk 0 3 0)) Host.init) as [p h].
  cbn [fst snd] in Ho.
  destruct (power_lasts_its_duration p h 10 9999 Ho) as (H & _); [lra|].
  exact H.
Defined.

(** * Further properties of the collectibles *)

Lemma collectItem_picked
  (m : CollectiblesManager.t) (c : Collectible.t) (p : Player.t) (h : Host.t) :
  let '(c', p', h') := CollectiblesManager.collectItem m c p h in
  c' = Collectibles.picked c /\
  Player.meshPosition p' = Player.meshPosition p /\
  Player.radius p' = Player.radius p.
Proof.
  unfold CollectiblesManager.collectItem, Collectibles.picked.
  destruct c as [ty mp col act bp r v d]. cbn.
  destruct ty; cbn.
  - auto.
  - unfold Player.giveJumpPower. cbn.
    destruct (Player.jumpPowerTimeout p) as [[|k]|]; cbn; auto.
  - unfold Player.giveSpeedBoost. cbn.
    destruct (Player.speedBoostTimeout p) as [[|k]|]; cbn; auto.
  - destruct act; cbn; auto.
Qed.

Lemma checkEach_visited
  (m : CollectiblesManager.t) (l : list Collectible.t) (p : Player.t) (h : Host.t) :
  let '(l', p', h') := CollectiblesManager.checkEach m l p h in
  l' = map (Collectibles.visited p) l /\
  Player.meshPosition p' = Player.meshPosition p /\
  Player.radius p' = Player.radius p.
Proof.
  revert p h. induction l as [|c l IH]; intros p h; [cbn; auto|].
  cbn [CollectiblesManager.checkEach map].
  assert (Hhead :
    let '(c1, p1, h1) :=
      (if Collectible.collected c then (c, p, h)
       else if Rltb (CollectiblesManager.distanceTo (Player.meshPosition p)
                       (Collectible.meshPosition c))
                    (Collectible.radius c + Player.radius p)
            then CollectiblesManager.collectItem m c p h
            else (c, p, h)) in
    c1 = Collectibles.visited p c /\
    Player.meshPosition p1 = Player.meshPosition p /\
    Player.radius p1 = Player.radius p).
  { unfold Collectibles.visited, Collectibles.inReach.
    destruct (Collectible.collected c); [auto|].
    destruct (Rltb _ _); [|auto].
    apply collectItem_picked. }
  destruct (if Collectible.collected c then (c, p, h) else _) as [[c1 p1] h1].
  destruct Hhead as (Hc & Hm & Hr).
  specialize (IH p1 h1).
  destruct (CollectiblesManager.checkEach m l p1 h1) as [[l1 p2] h2].
  destruct IH as (Hl & Hm2 & Hr2).
  split; [|split; congruence].
  rewrite Hc, Hl. f_equal.
  apply map_ext. intros x. unfold Collectibles.visited, Collectibles.inReach.
  rewrite Hm, Hr. reflexivity.
Qed.

(** X6.  One pass of [checkCollisions] treats every collectible on its own,
    against the place the player has when the pass starts: a collected item
    is skipped, an item out of reach (distance not below the two radii
    together) is left alone, an item in reach is picked up: a coin or a
    power-up becomes collected, a checkpoint becomes activated and stays
    uncollected.  The pass moves the player nowhere and keeps the callbacks
    of the manager. *)
Theorem checkCollisions_visits_each
  (m : CollectiblesManager.t) (p : Player.t) (h : Host.t) :
  let '(m', p', h') := CollectiblesManager.checkCollisions m p h in
  CollectiblesManager.collectibles m' =
    map (Collectibles.visited p) (CollectiblesManager.collectibles m) /\
  Player.meshPosition p' = Player.meshPosition p /\
  Player.body p' = Player.body p /\
  CollectiblesManager.onCoinCollected m' = CollectiblesManager.onCoinCollected m /\
  CollectiblesManager.onCollectible m' = CollectiblesManager.onCollectible m /\
  CollectiblesManager.onCheckpointActivated m' =
    CollectiblesManager.onCheckpointActivated m.
Proof.
  unfold CollectiblesManager.checkCollisions.
  pose proof (checkEach_visited m (CollectiblesManager.collectibles m) p h) as H.
  assert (Hb : Player.body
                 (snd (fst (CollectiblesManager.checkEach m
                              (CollectiblesManager.collectibles m) p h))) =
               Player.body p).
  { clear H. generalize (CollectiblesManager.collectibles m). intros l.
    revert p h. induction l as [|c l IH]; intros p h; [reflexivity|].
    cbn [CollectiblesManager.checkEach].
    assert (Hhead : Player.body (snd (fst
      (if Collectible.collected c then (c, p, h)
       else if Rltb (CollectiblesManager.distanceTo (Player.meshPosition p)
                       (Collectible.meshPosition c))
                    (Collectible.radius c + Player.radius p)
            then CollectiblesManager.collectItem m c p h
            else (c, p, h)))) = Player.body p).
    { destruct (Collectible.collected c); [reflexivity|].
      destruct (Rltb _ _); [|reflexivity].
      unfold CollectiblesManager.collectItem.
      destruct c as [ty mp col act bp r v d]. cbn.
      destruct ty.
      - reflexivity.
      - unfold Player.giveJumpPower. cbn.
        destruct (Player.jumpPowerTimeout p) as [[|k]|]; reflexivity.
      - unfold Player.giveSpeedBoost. cbn.
        destruct (Player.speedBoostTimeout p) as [[|k]|]; reflexivity.
      - cbn. destruct act; reflexivity. }
    destruct (if Collectible.collected c then (c, p, h) else _) as [[c1 p1] h1].
    cbn [fst snd] in Hhead. specialize (IH p1 h1).
    destruct (CollectiblesManager.checkEach m l p1 h1) as [[l1 p2] h2].
    cbn [fst snd] in *. congruence. }
  destruct (CollectiblesManager.checkEach m (CollectiblesManager.collectibles m) p h)
    as [[l p1] h1].
  cbn [fst snd] in Hb. destruct H as (Hl & Hm & _).
  cbn. auto 10.
Qed.

(** ** Coins and the score callback *)

Lemma coinReports_emit (e : Event) (h : Host.t) :
  coinReports (Host.emit e h) =
  (coinReports h + if isCoinEvent e then 1 else 0)%nat.
Proof.
  unfold coinReports, Host.emit. cbn. rewrite filter_app, length_app. cbn.
  destruct (isCoinEvent e); reflexivity.
Qed.

Lemma giveJumpPower_trace (d : R) (p : Player.t) (h : Host.t) :
  Host.trace (snd (Player.giveJumpPower d p h)) = Host.trace h.
Proof.
  unfold Player.giveJumpPower. cbn.
  destruct (Player.jumpPowerTimeout p) as [[|k]|]; reflexivity.
Qed.

Lemma giveSpeedBoost_trace (d : R) (p : Player.t) (h : Host.t) :
  Host.trace (snd (Player.giveSpeedBoost d p h)) = Host.trace h.
Proof.
  unfold Player.giveSpeedBoost. cbn.
  destruct (Player.speedBoostTimeout p) as [[|k]|]; reflexivity.
Qed.

Lemma coinReports_same_trace (h h' : Host.t) :
  Host.trace h' = Host.trace h -> coinReports h' = coinReports h.
Proof. intros H. unfold coinReports. rewrite H. reflexivity. Qed.

Lemma collectItem_reports
  (m : CollectiblesManager.t) (c : Collectible.t) (p : Player.t) (h : Host.t)
  (k : Callback) :
  CollectiblesManager.onCoinCollected m = Some k ->
  coinReports (snd (CollectiblesManager.collectItem m c p h)) =
  (coinReports h + if Collectibles.isCoin c then 1 else 0)%nat.
Proof.
  intros Hk. unfold CollectiblesManager.collectItem, Collectibles.isCoin.
  destruct c as [ty mp col act bp r v d].
  cbn [Collectible.type Collectible.set_collected Collectible.duration
       Collectible.value Collectible.activated].
  unfold CollectiblesManager.createCollectionEffect.
  destruct ty.
  - rewrite Hk. cbn [CollectiblesManager.notify snd].
    destruct (CollectiblesManager.onCollectible m);
      cbn [CollectiblesManager.notify];
      rewrite ?coinReports_emit; cbn [isCoinEvent]; lia.
  - match goal with
    | |- context [Player.giveJumpPower ?x ?q ?g] =>
        pose proof (giveJumpPower_trace x q g) as Ht;
        destruct (Player.giveJumpPower x q g) as [p' h']
    end.
    cbn [snd] in *. apply coinReports_same_trace in Ht.
    rewrite coinReports_emit in Ht. cbn [isCoinEvent] in Ht.
    destruct (CollectiblesManager.onCollectible m);
      cbn [CollectiblesManager.notify];
      rewrite ?coinReports_emit; cbn [isCoinEvent]; lia.
  - match goal with
    | |- context [Player.giveSpeedBoost ?x ?q ?g] =>
        pose proof (giveSpeedBoost_trace x q g) as Ht;
        destruct (Player.giveSpeedBoost x q g) as [p' h']
    end.
    cbn [snd] in *. apply coinReports_same_trace in Ht.
    rewrite coinReports_emit in Ht. cbn [isCoinEvent] in Ht.
    destruct (CollectiblesManager.onCollectible m);
      cbn [CollectiblesManager.notify];
      rewrite ?coinReports_emit; cbn [isCoinEvent]; lia.
  - destruct act; cbn [negb snd];
      destruct (CollectiblesManager.onCollectible m);
      destruct (CollectiblesManager.onCheckpointActivated m);
      cbn [CollectiblesManager.notify snd];
      rewrite ?coinReports_emit; cbn [isCoinEvent]; lia.
Qed.

Lemma checkEach_reports
  (m : CollectiblesManager.t) (l : list Collectible.t) (p : Player.t) (h : Host.t)
  (k : Callback) :
  CollectiblesManager.onCoinCollected m = Some k ->
  let '(l', p', h') := CollectiblesManager.checkEach m l p h in
  (coinReports h' +
   length (filter (fun c => Collectibles.isCoin c && Collectible.collected c) l) =
   coinReports h +
   length (filter (fun c => Collectibles.isCoin c && Collectible.collected c) l'))%nat
  /\
  length (filter Collectibles.isCoin l') = length (filter Collectibles.isCoin l).
Proof.
  intros Hk. revert p h. induction l as [|c l IH]; intros p h; [cbn; auto|].
  cbn [CollectiblesManager.checkEach].
  assert (Hhead :
    let '(c1, p1, h1) :=
      (if Collectible.collected c then (c, p, h)
       else if Rltb (CollectiblesManager.distanceTo (Player.meshPosition p)
                       (Collectible.meshPosition c))
                    (Collectible.radius c + Player.radius p)
            then CollectiblesManager.collectItem m c p h
            else (c, p, h)) in
    Collectibles.isCoin c1 = Collectibles.isCoin c /\
    (coinReports h1 +
     (if Collectibles.isCoin c && Collectible.collected c then 1 else 0) =
     coinReports h +
     (if Collectibles.isCoin c1 && Collectible.collected c1 then 1 else 0))%nat).
  { destruct (Collectible.collected c) eqn:Hcol; [rewrite Hcol; auto|].
    destruct (Rltb _ _); [|rewrite Hcol; auto].
    pose proof (collectItem_picked m c p h) as Hp.
    pose proof (collectItem_reports m c p h k Hk) as Hr.
    destruct (CollectiblesManager.collectItem m c p h) as [[c1 p1] h1].
    cbn [snd] in Hr. destruct Hp as (-> & _). rewrite Hr.
    unfold Collectibles.picked, Collectibles.isCoin.
    destruct c as [ty mp col act bp r v d]. cbn in *.
    destruct ty; cbn; try (split; [reflexivity|lia]).
    destruct act; cbn; split; reflexivity || lia. }
  destruct (if Collectible.collected c then (c, p, h) else _) as [[c1 p1] h1].
  destruct Hhead as (Hc & Hn).
  specialize (IH p1 h1).
  destruct (CollectiblesManager.checkEach m l p1 h1) as [[l1 p2] h2].
  destruct IH as (I1 & I2).
  cbn [filter]. rewrite Hc. rewrite Hc in Hn.
  destruct (Collectibles.isCoin c) eqn:Hcoin; cbn [andb] in *.
  - destruct (Collectible.collected c), (Collectible.collected c1);
      cbn [length] in *; split; lia.
  - split; lia.
Qed.

(** X7.  Every coin is reported to the score exactly once.  With the coin
    callback registered, one pass of [checkCollisions] reports as many coins
    as it adds to [getCollectedCoins()], leaves [getCoinCount()] as it is,
    and never brings the collected count above the count. *)
Theorem coins_reported_once
  (m : CollectiblesManager.t) (p : Player.t) (h : Host.t) (k : Callback) :
  CollectiblesManager.onCoinCollected m = Some k ->
  let '(m', p', h') := CollectiblesManager.checkCollisions m p h in
  (coinReports h' + Collectibles.getCollectedCoins m =
   coinReports h + Collectibles.getCollectedCoins m')%nat /\
  Collectibles.getCoinCount m' = Collectibles.getCoinCount m /\
  (Collectibles.getCollectedCoins m' <= Collectibles.getCoinCount m')%nat.
Proof.
  intros Hk. unfold CollectiblesManager.checkCollisions.
  pose proof (checkEach_reports m (CollectiblesManager.collectibles m) p h k Hk) as H.
  destruct (CollectiblesManager.checkEach m (CollectiblesManager.collectibles m) p h)
    as [[l p1] h1].
  destruct H as (H1 & H2).
  unfold Collectibles.getCollectedCoins, Collectibles.getCoinCount. cbn.
  split; [exact H1|]. split; [exact H2|].
  clear. induction l as [|c l IH]; cbn; [lia|].
  destruct (Collectibles.isCoin c); cbn; [|exact IH].
  destruct (Collectible.collected c); cbn; lia.
Qed.

Lemma coins_reported_once_witness :
  let '(m', p', h') :=
    CollectiblesManager.checkCollisions coinRow ballOnCoin Host.init in
  coinReports h' = Collectibles.getCollectedCoins m'.
Proof.
  pose proof (coins_reported_once coinRow ballOnCoin Host.init 2%nat eq_refl) as H.
  destruct (CollectiblesManager.checkCollisions coinRow ballOnCoin Host.init)
    as [[m' p'] h'].
  destruct H as (H & _). cbn in H. lia.
Defined.

(** ** Resetting the collectibles *)

Lemma resetOne_again (c : Collectible.t) :
  Collectibles.resetOne (Collectibles.resetOne c) = Collectibles.resetOne c.
Proof.
  unfold Collectibles.resetOne, Collectibles.isCheckpoint.
  destruct c as [ty mp col act bp r v d]; cbn.
  destruct ty, act, col; reflexivity.
Qed.

(** X8.  [resetCollectibles()] makes every coin and every power-up
    uncollected again, so that no coin counts as collected, and it changes
    nothing else: kinds, places and activation flags are as before, an
    activated checkpoint stays activated.  Resetting twice is resetting
    once. *)
Theorem resetCollectibles_restores (m : CollectiblesManager.t) :
  let m' := Collectibles.resetCollectibles m in
  Collectibles.getCollectedCoins m' = 0%nat /\
  Collectibles.getCoinCount m' = Collectibles.getCoinCount m /\
  Forall2 (fun c c' =>
             Collectible.type c' = Collectible.type c /\
             Collectible.meshPosition c' = Collectible.meshPosition c /\
             Collectible.activated c' = Collectible.activated c /\
             (Collectible.type c <> CHECKPOINT -> Collectible.collected c' = false))
          (CollectiblesManager.collectibles m)
          (CollectiblesManager.collectibles m') /\
  Collectibles.resetCollectibles m' = m'.
Proof.
  cbn zeta. unfold Collectibles.resetCollectibles, Collectibles.getCollectedCoins,
    Collectibles.getCoinCount, Collectibles.set_collectibles. cbn.
  generalize (CollectiblesManager.collectibles m). intros l.
  split; [|split; [|split]].
  - induction l as [|c l IH]; [reflexivity|]. cbn [map filter].
    replace (Collectibles.isCoin (Collectibles.resetOne c) &&
             Collectible.collected (Collectibles.resetOne c)) with false;
      [exact IH|].
    unfold Collectibles.resetOne, Collectibles.isCheckpoint, Collectibles.isCoin.
    destruct c as [ty mp col act bp r v d]; cbn.
    destruct ty, act, col; reflexivity.
  - induction l as [|c l IH]; [reflexivity|]. cbn.
    replace (Collectibles.isCoin (Collectibles.resetOne c))
      with (Collectibles.isCoin c).
    + destruct (Collectibles.isCoin c); cbn; rewrite IH; reflexivity.
    + unfold Collectibles.resetOne, Collectibles.isCheckpoint, Collectibles.isCoin.
      destruct c as [ty mp col act bp r v d]; cbn.
      destruct ty, act, col; reflexivity.
  - induction l as [|c l IH]; cbn; constructor; [|exact IH].
    unfold Collectibles.resetOne, Collectibles.isCheckpoint.
    destruct c as [ty mp col act bp r v d]; cbn.
    destruct ty, act, col; cbn; repeat split; congruence.
  - f_equal. rewrite map_map. apply map_ext. intros c. apply resetOne_again.
Qed.

(** ** Picking up a power-up *)

(** X9.  Picking up a power-up gives the power for the duration the item
    carries, on the wall clock.  When the timeouts are owned (as in every
    run), after [collectItem] on a jump power-up the item is collected, the
    player has the jump power, still has it after any wait shorter than
    [duration * 1000] ms and has lost it after any wait of that length or
    more; likewise for a speed boost.  The items the manager creates carry
    10 and 5 seconds. *)
Theorem powerup_pickup_runs_its_duration
  (m : CollectiblesManager.t) (c : Collectible.t) (p : Player.t) (h : Host.t)
  (ms : R) :
  timersOwned p h ->
  let '(c', p', h') := CollectiblesManager.collectItem m c p h in
  (Collectible.type c = JUMP_POWER ->
   Collectible.collected c' = true /\
   Player.hasJumpPower p' = true /\
   (ms < Collectible.duration c * 1000 ->
    Player.hasJumpPower (fst (elapse ms p' h')) = true) /\
   (Collectible.duration c * 1000 <= ms ->
    Player.hasJumpPower (fst (elapse ms p' h')) = false)) /\
  (Collectible.type c = SPEED_BOOST ->
   Collectible.collected c' = true /\
   Player.hasSpeedBoost p' = true /\
   (ms < Collectible.duration c * 1000 ->
    Player.hasSpeedBoost (fst (elapse ms p' h')) = true) /\
   (Collectible.duration c * 1000 <= ms ->
    Player.hasSpeedBoost (fst (elapse ms p' h')) = false)) /\
  (forall position,
   Collectible.duration (Collectible.createJumpPower position) = 10 /\
   Collectible.duration (Collectible.createSpeedBoost position) = 5).
Proof.
  intros Ho. unfold CollectiblesManager.collectItem.
  destruct c as [ty mp col act bp r v d].
  cbn [Collectible.type Collectible.set_collected Collectible.duration
       Collectible.value Collectible.activated].
  set (h0 := CollectiblesManager.createCollectionEffect _ h).
  assert (Ho0 : timersOwned p h0) by exact Ho.
  destruct ty.
  - cbn. split; [discriminate|]. split; [discriminate|]. auto.
  - pose proof (jump_power_lasts p h0 d ms Ho0) as Hl.
    pose proof (jump_power_ends p h0 d ms) as He.
    pose proof (giveJumpPower_spec d p h0) as Hs.
    destruct (Player.giveJumpPower d p h0) as [p1 h1]. cbn [fst snd] in *.
    destruct Hs as (Hon & _).
    split; [|split; [discriminate|auto]].
    intros _. split; [reflexivity|]. split; [exact Hon|].
    split; intros Hms.
    + rewrite (elapse_same_queue ms p1 h1);
        [exact (Hl Hms)| |];
        destruct (CollectiblesManager.onCollectible m); reflexivity.
    + rewrite (elapse_same_queue ms p1 h1);
        [exact (He Hms)| |];
        destruct (CollectiblesManager.onCollectible m); reflexivity.
  - pose proof (speed_boost_lasts p h0 d ms Ho0) as Hl.
    pose proof (speed_boost_ends p h0 d ms) as He.
    pose proof (giveSpeedBoost_spec d p h0) as Hs.
    destruct (Player.giveSpeedBoost d p h0) as [p1 h1]. cbn [fst snd] in *.
    destruct Hs as (Hon & _).
    split; [discriminate|]. split; [|auto].
    intros _. split; [reflexivity|]. split; [exact Hon|].
    split; intros Hms.
    + rewrite (elapse_same_queue ms p1 h1);
        [exact (Hl Hms)| |];
        destruct (CollectiblesManager.onCollectible m); reflexivity.
    + rewrite (elapse_same_queue ms p1 h1);
        [exact (He Hms)| |];
        destruct (CollectiblesManager.onCollectible m); reflexivity.
  - destruct act; cbn; (split; [discriminate|]); (split; [discriminate|]); auto.
Qed.

Lemma powerup_pickup_runs_its_duration_witness :
  let '(c', p', h') :=
    CollectiblesManager.collectItem coinRow
      (Collectible.createJumpPower (Vec3.mk 0 (3/2) 8))
      (Player.create (Vec3.mk 0 3 0)) Host.init in
  Player.hasJumpPower (fst (elapse 9000 p' h')) = true.
Proof.
  pose proof (powerup_pickup_runs_its_duration coinRow
                (Collectible.createJumpPower (Vec3.mk 0 (3/2) 8))
                (Player.create (Vec3.mk 0 3 0)) Host.init 9000
                (timersOwned_init _)) as H.
  destruct (CollectiblesManager.collectItem coinRow _ _ Host.init) as [[c' p'] h'].
  destruct H as (H & _). destruct (H eq_refl) as (_ & _ & Hl & _).
  apply Hl. cbn. lra.
Defined.

(** ** The hover *)

(** X10.  The hover keeps every collectible within a tenth of a unit of its
    base height.  While the manager is animating, [updateAnimation(dt)]
    advances the animation time by [dt] and puts the mesh of every
    uncollected item at its base height plus at most 0.1 up or down; x and
    z of the mesh and all flags are untouched, and a collected item is not
    moved at all.  With [animating] false nothing changes. *)
Theorem hover_stays_near_base
  (dt : R) (a : Collectibles.Animation) (m : CollectiblesManager.t) :
  let '(a', m') := Collectibles.updateAnimation dt a m in
  (Collectibles.animating a = false -> a' = a /\ m' = m) /\
  (Collectibles.animating a = true ->
   Collectibles.animationTime a' = Collectibles.animationTime a + dt /\
   Forall2 (fun c c' =>
              Collectible.type c' = Collectible.type c /\
              Collectible.collected c' = Collectible.collected c /\
              Collectible.activated c' = Collectible.activated c /\
              Collectible.basePosition c' = Collectible.basePosition c /\
              Vec3.x (Collectible.meshPosition c') =
                Vec3.x (Collectible.meshPosition c) /\
              Vec3.z (Collectible.meshPosition c') =
                Vec3.z (Collectible.meshPosition c) /\
              (Collectible.collected c = true -> c' = c) /\
              (Collectible.collected c = false ->
               Rabs (Vec3.y (Collectible.meshPosition c') -
                     Vec3.y (Collectible.basePosition c)) <= 1/10))
           (CollectiblesManager.collectibles m)
           (CollectiblesManager.collectibles m')).
Proof.
  unfold Collectibles.updateAnimation.
  destruct (Collectibles.animating a) eqn:Han; cbn [negb].
  - split; [discriminate|]. intros _. split; [reflexivity|].
    cbn. generalize (Collectibles.animationTime a + dt). intros t.
    induction (CollectiblesManager.collectibles m) as [|c l IH];
      cbn; constructor; [|exact IH].
    unfold Collectibles.animateOne.
    destruct (Collectible.collected c) eqn:Hc; cbn.
    + repeat (split; [reflexivity || exact Hc|]). discriminate.
    + repeat (split; [reflexivity || exact Hc|]).
      split; [discriminate|]. intros _.
      pose proof (SIN_bound (t * 2)) as Hs.
      apply Rabs_le. lra.
  - split; [auto|discriminate].
Qed.

(** * Further properties of the level manager *)

Lemma created_Forall {A B : Type} (f : A -> option B) (P : B -> Prop)
  (l : list A) :
  (forall a b, f a = Some b -> P b) -> Forall P (Levels.created f l).
Proof.
  intros Hf. induction l as [|a l IH]; cbn; [constructor|].
  destruct (f a) as [b|] eqn:Ha; [|exact IH].
  constructor; [apply (Hf a b Ha)|exact IH].
Qed.

Lemma createCollectible_pristine (data : CollectibleData) (c : Collectible.t) :
  Levels.createCollectible data = Some c -> pristine c.
Proof.
  unfold Levels.createCollectible, pristine.
  repeat match goal with
  | |- context [if ?b then _ else _] => destruct b
  end; intros H; inversion H; subst; cbn; auto.
Qed.

Lemma createObstacle_atStart (data : ObstacleData) (o : Obstacle) :
  Levels.createObstacle data = Some o -> atStart o.
Proof.
  unfold Levels.createObstacle.
  repeat match goal with
  | |- context [if ?b then _ else _] => destruct b
  end; intros H; inversion H; subst; cbn; auto.
Qed.

Lemma levelAt_None (l : list Level) (i : Z) :
  Levels.levelAt l i = None <-> (i < 0 \/ Z.of_nat (List.length l) <= i)%Z.
Proof.
  unfold Levels.levelAt. destruct (Z.ltb_spec i 0) as [Hneg|Hpos].
  - split; [auto|reflexivity].
  - rewrite nth_error_None. split; intros H.
    + right. lia.
    + destruct H as [H|H]; lia.
Qed.

(** X11.  Loading a level of the catalogue, for the first time or again,
    starts it afresh: the call returns the level's start position, the
    level is in progress with the load time as start time and the level's
    finish zone, every collectible is as its factory makes it (coins
    uncollected, checkpoints not activated, whatever was collected or
    activated before), every moving platform is at its start heading
    forward, and the callbacks of the collectibles manager are kept. *)
Theorem loadLevel_starts_afresh
  (i : Z) (lv : Level) (m : Levels.t) (c : CollectiblesManager.t) (h : Host.t) :
  Levels.levelAt (Levels.levels m) i = Some lv ->
  let '(r, m', c') := Levels.loadLevel i m c h in
  r = Ok (playerStart lv) /\
  Levels.currentLevelIndex m' = i /\
  Levels.currentLevel m' = Some lv /\
  Levels.levels m' = Levels.levels m /\
  Levels.isLevelComplete m' = false /\
  Levels.startTime m' = Host.now h /\
  Levels.finishArea m' = Some (levelFinish lv) /\
  Levels.obstacles m' = Levels.created Levels.createObstacle (levelObstacles lv) /\
  Forall atStart (Levels.obstacles m') /\
  Forall pristine (CollectiblesManager.collectibles c') /\
  Collectibles.getCollectedCoins c' = 0%nat /\
  CollectiblesManager.onCollectible c' = CollectiblesManager.onCollectible c /\
  CollectiblesManager.onCoinCollected c' = CollectiblesManager.onCoinCollected c /\
  CollectiblesManager.onCheckpointActivated c' =
    CollectiblesManager.onCheckpointActivated c.
Proof.
  intros Hlv. unfold Levels.loadLevel, Levels.clearLevel. cbn.
  rewrite Hlv. cbn.
  assert (Hp : Forall pristine
                (Levels.created Levels.createCollectible (levelCollectibles lv)))
    by (apply created_Forall, createCollectible_pristine).
  repeat split; try reflexivity.
  - destruct (levelFinish lv); reflexivity.
  - apply created_Forall, createObstacle_atStart.
  - exact Hp.
  - unfold Collectibles.getCollectedCoins. cbn.
    induction Hp as [|x l Hx Hl IH]; [reflexivity|]. cbn.
    destruct Hx as (Hx & _). rewrite Hx, andb_false_r. exact IH.
Qed.

Lemma loadLevel_starts_afresh_witness :
  let '(r, m', c') :=
    Levels.loadLevel 1 (Levels.create catalogue) coinRow hostAtFinish in
  r = Ok (Vec3.mk 0 3 0) /\ Levels.isLevelComplete m' = false /\
  Collectibles.getCollectedCoins c' = 0%nat.
Proof.
  pose proof (loadLevel_starts_afresh 1 level2 (Levels.create catalogue)
                coinRow hostAtFinish eq_refl) as H.
  destruct (Levels.loadLevel 1 (Levels.create catalogue) coinRow hostAtFinish)
    as [[r m'] c'].
  destruct H as (Hr & _ & _ & _ & Hc & _ & _ & _ & _ & _ & Hn & _).
  repeat split; assumption.
Defined.

(** X12.  Loading an index outside the catalogue (negative, or at least the
    number of levels) throws a TypeError after the old level has been
    cleared: no obstacle and no collectible is left, there is no current
    level, and the index is stored all the same. *)
Theorem loadLevel_outside_catalogue_throws
  (i : Z) (m : Levels.t) (c : CollectiblesManager.t) (h : Host.t) :
  (i < 0 \/ Z.of_nat (List.length (Levels.levels m)) <= i)%Z ->
  let '(r, m', c') := Levels.loadLevel i m c h in
  r = Throw TypeError /\
  Levels.currentLevel m' = None /\
  Levels.currentLevelIndex m' = i /\
  Levels.obstacles m' = [] /\
  CollectiblesManager.collectibles c' = [] /\
  Levels.finishArea m' = Levels.finishArea m.
Proof.
  intros Hi. apply levelAt_None in Hi.
  unfold Levels.loadLevel, Levels.clearLevel. cbn. rewrite Hi. cbn. auto 10.
Qed.

Lemma loadLevel_outside_catalogue_throws_witness :
  fst (fst (Levels.loadLevel 2 (Levels.create catalogue) coinRow Host.init)) =
  Throw TypeError.
Proof.
  pose proof (loadLevel_outside_catalogue_throws 2 (Levels.create catalogue)
                coinRow Host.init) as H.
  destruct (Levels.loadLevel 2 (Levels.create catalogue) coinRow Host.init)
    as [[r m'] c'].
  destruct H as (Hr & _); [right; cbn; lia|exact Hr].
Defined.

(** X13.  [getNextLevelIndex()] stays inside the catalogue: for a current
    index of at least -1 it returns either -1, exactly when the current
    level is the last one, or the index after the current one, which is
    then a level of the catalogue; [hasNextLevel()] tells the two apart. *)
Theorem getNextLevelIndex_in_catalogue (m : Levels.t) :
  (-1 <= Levels.currentLevelIndex m)%Z ->
  (Levels.hasNextLevel m = false /\
   Levels.getNextLevelIndex m = (-1)%Z /\
   Levels.levelAt (Levels.levels m) (Levels.currentLevelIndex m + 1) = None) \/
  (Levels.hasNextLevel m = true /\
   Levels.getNextLevelIndex m = (Levels.currentLevelIndex m + 1)%Z /\
   exists lv,
     Levels.levelAt (Levels.levels m) (Levels.getNextLevelIndex m) = Some lv).
Proof.
  intros Hi. unfold Levels.hasNextLevel, Levels.getNextLevelIndex. cbn zeta.
  destruct (Z.ltb_spec (Levels.currentLevelIndex m + 1)
                       (Z.of_nat (List.length (Levels.levels m)))) as [Hlt|Hge].
  - right. split; [|split; [reflexivity|]].
    + destruct (Z.eqb_spec (Levels.currentLevelIndex m + 1) (-1)); [lia|reflexivity].
    + destruct (Levels.levelAt (Levels.levels m) (Levels.currentLevelIndex m + 1))
        as [lv|] eqn:Hlv; [exists lv; reflexivity|].
      apply levelAt_None in Hlv. lia.
  - left. split; [reflexivity|]. split; [reflexivity|].
    apply levelAt_None. right. exact Hge.
Qed.

Lemma getNextLevelIndex_in_catalogue_witness :
  Levels.getNextLevelIndex (Levels.create catalogue) = 1%Z /\
  Levels.hasNextLevel (Levels.create catalogue) = true.
Proof.
  destruct (getNextLevelIndex_in_catalogue (Levels.create catalogue))
    as [(H1 & H2 & _)|(H1 & H2 & _)].
  - cbn. lia.
  - cbn in H1. discriminate.
  - split; assumption.
Defined.

(** ** Where the moving platform is *)

Lemma update_direction (dt : R) (o : MP.t) :
  MP.direction o = 1 \/ MP.direction o = -1 ->
  MP.direction (MP.update dt o) = 1 \/ MP.direction (MP.update dt o) = -1.
Proof.
  intros Hd.
  destruct (Rle_lt_dec (MP.distance o) (advanced dt o)) as [H|H].
  - destruct (update_turn_back dt o H) as [_ ->]. auto.
  - destruct (Rle_lt_dec (advanced dt o) 0) as [H0|H0].
    + destruct (update_turn_forth dt o H H0) as [_ ->]. auto.
    + destruct (update_between dt o (conj H0 H)) as [_ ->]. exact Hd.
Qed.

Lemma run_sides (l : list R) (o : MP.t) :
  0 <= MP.distance o ->
  MP.direction o = 1 \/ MP.direction o = -1 ->
  l <> [] ->
  let o' := MP.run l o in
  (MP.direction o' = 1 \/ MP.direction o' = -1) /\
  0 <= MP.progress o' <= MP.distance o /\
  MP.coord (MP.axis o) (Body.position (MP.body o')) =
    MP.coord (MP.axis o) (MP.startPos o) + MP.progress o' * MP.direction o'.
Proof.
  revert o. induction l as [|dt l IH]; intros o Hdist Hdir Hne; [congruence|].
  cbn zeta. rewrite mp_run_cons.
  destruct (update_setup dt o) as (Hsp & Hax & Hdi & Hspd).
  pose proof (update_direction dt o Hdir) as Hdir1.
  pose proof (update_clamped dt o Hdist) as Hc.
  destruct (update_body dt o) as (Hb & _).
  destruct l as [|dt2 l2].
  - cbn [MP.run fold_left]. split; [exact Hdir1|]. split; [exact Hc|].
    rewrite Hb, coord_addAlong. reflexivity.
  - destruct (IH (MP.update dt o)) as (I1 & I2 & I3).
    + rewrite Hdi. exact Hdist.
    + exact Hdir1.
    + congruence.
    + rewrite Hdi, Hax, Hsp in *. auto.
Qed.

(** X14.  The moving platform sweeps both sides of its start.  After any
    run of updates (distance not negative, direction forward or backward to
    begin with) the body is within [distance] of the start coordinate along
    its axis; heading forward it is at start + progress, heading backward at
    start - progress, on the other side.  So the step that reaches the far
    end puts the body at start - distance, twice the distance away from
    where the step before had it going. *)
Theorem moving_platform_sweeps_both_sides (l : list R) (o : MP.t) :
  0 <= MP.distance o ->
  MP.direction o = 1 \/ MP.direction o = -1 ->
  l <> [] ->
  let o' := MP.run l o in
  let at_ := MP.coord (MP.axis o) (Body.position (MP.body o')) in
  let start := MP.coord (MP.axis o) (MP.startPos o) in
  Rabs (at_ - start) <= MP.distance o /\
  (MP.direction o' = 1 -> at_ = start + MP.progress o') /\
  (MP.direction o' = -1 -> at_ = start - MP.progress o') /\
  (forall dt,
     MP.distance o' <= advanced dt o' ->
     MP.coord (MP.axis o) (Body.position (MP.body (MP.update dt o'))) =
       start - MP.distance o).
Proof.
  intros Hdist Hdir Hne. cbn zeta.
  destruct (run_sides l o Hdist Hdir Hne) as (Hd & Hp & Hc).
  cbn zeta in Hd, Hp, Hc.
  split; [|split; [|split]].
  - rewrite Hc. apply Rabs_le. destruct Hd as [-> | ->]; lra.
  - intros H1. rewrite Hc, H1. ring.
  - intros H1. rewrite Hc, H1. ring.
  - intros dt Hturn.
    destruct (update_turn_back dt (MP.run l o) Hturn) as (P & D).
    destruct (update_body dt (MP.run l o)) as (B & _).
    rewrite B, P, D.
    assert (Hsetup : MP.axis (MP.run l o) = MP.axis o /\
                     MP.startPos (MP.run l o) = MP.startPos o /\
                     MP.distance (MP.run l o) = MP.distance o).
    { clear. revert o. induction l as [|d l IH]; intros o; [auto|].
      rewrite mp_run_cons.
      destruct (update_setup d o) as (S1 & S2 & S3 & _).
      destruct (IH (MP.update d o)) as (I1 & I2 & I3).
      rewrite I1, I2, I3. auto. }
    destruct Hsetup as (-> & -> & ->).
    rewrite coord_addAlong. ring.
Qed.

Lemma moving_platform_sweeps_both_sides_witness :
  MP.coord AxisX
    (Body.position
       (MP.body (MP.update (1/10)
                  (MP.run [1/10] shortPlatform)))) = 18 - 3/10.
Proof.
  assert (Hdist : MP.distance shortPlatform = 3/10).
  { unfold shortPlatform, MP.create, MP.orElse. cbn.
    rewrite Rneqb_true by lra. reflexivity. }
  assert (Hspeed : MP.speed shortPlatform = 2).
  { unfold shortPlatform, MP.create, MP.orElse. cbn.
    rewrite Rneqb_true by lra. reflexivity. }
  destruct (moving_platform_sweeps_both_sides [1/10] shortPlatform)
    as (_ & _ & _ & Hturn).
  - rewrite Hdist. lra.
  - left. reflexivity.
  - discriminate.
  - cbn zeta in Hturn. rewrite Hdist in Hturn.
    apply Hturn.
    destruct (update_setup (1/10) shortPlatform) as (_ & _ & D1 & V1).
    destruct (update_between (1/10) shortPlatform) as [P1 R1].
    { unfold advanced. rewrite Hspeed, Hdist. cbn. lra. }
    cbn [MP.run fold_left]. unfold advanced. rewrite P1, R1, D1, V1, Hspeed, Hdist.
    unfold advanced. rewrite Hspeed. cbn. lra.
Defined.

(** ** The finish zone, edge cases *)

(** X15.  Without a finish zone [checkFinish] cannot answer: before any
    level has been built the call throws a TypeError.  With a finish radius
    of zero or less the level cannot be completed: wherever the player is,
    the call returns false and changes nothing. *)
Theorem checkFinish_needs_a_zone
  (catalogue : list Level) (pos : Vec3.t) (m : LevelManager.t) (h : Host.t) :
  Levels.checkFinish pos (Levels.create catalogue) h =
    (Throw TypeError, Levels.create catalogue) /\
  (LevelManager.isLevelComplete m = false ->
   finishRadius (LevelManager.finishArea m) <= 0 ->
   LevelManager.checkFinish pos m h = (false, m)).
Proof.
  split; [reflexivity|].
  intros Hc Hr. unfold LevelManager.checkFinish. rewrite Hc.
  rewrite (proj2 (Rltb_false_iff _ _)); [reflexivity|].
  pose proof (sqrt_pos
    (LevelManager.Math_pow2
       (Vec3.x pos - Vec3.x (finishPosition (LevelManager.finishArea m))) +
     LevelManager.Math_pow2
       (Vec3.z pos - Vec3.z (finishPosition (LevelManager.finishArea m))))).
  lra.
Qed.

(** * Further properties of the obstacles *)

(** ** Spike traps *)

Lemma updateItem_inStep (dt : R) (a : bool) (i : Obstacles.Item) :
  Obstacles.inStep a i -> Obstacles.inStep a (Obstacles.updateItem dt i).
Proof. destruct i; cbn; auto. Qed.

Lemma armItem_inStep (a : bool) (i : Obstacles.Item) :
  Obstacles.inStep a (Obstacles.armItem a i).
Proof. destruct i; cbn; auto. Qed.

Lemma spikes_counting (dt : R) (m : Obstacles.t) :
  0 < Obstacles.timeToNextSpikeToggle m - dt ->
  0 <= dt ->
  Obstacles.update dt m =
  Obstacles.mk (map (Obstacles.updateItem dt) (Obstacles.obstacles m))
               (Obstacles.spikesActive m)
               (Obstacles.timeToNextSpikeToggle m - dt).
Proof.
  intros Ht Hdt. unfold Obstacles.update.
  rewrite (proj2 (Rgtb_true_iff _ _)) by lra.
  rewrite (proj2 (Rleb_false_iff _ _)) by lra. reflexivity.
Qed.

Lemma spikes_toggle (dt : R) (m : Obstacles.t) :
  0 < Obstacles.timeToNextSpikeToggle m ->
  Obstacles.timeToNextSpikeToggle m - dt <= 0 ->
  Obstacles.update dt m =
  Obstacles.mk
    (map (Obstacles.armItem (negb (Obstacles.spikesActive m)))
         (map (Obstacles.updateItem dt) (Obstacles.obstacles m)))
    (negb (Obstacles.spikesActive m))
    (if negb (Obstacles.spikesActive m) then 1 else 2).
Proof.
  intros Ht Hdt. unfold Obstacles.update.
  rewrite (proj2 (Rgtb_true_iff _ _)) by lra.
  rewrite (proj2 (Rleb_true_iff _ _)) by lra. reflexivity.
Qed.

Lemma spikes_update_in_step (dt : R) (m : Obstacles.t) :
  0 <= dt ->
  Forall (Obstacles.inStep (Obstacles.spikesActive m)) (Obstacles.obstacles m) ->
  0 < Obstacles.timeToNextSpikeToggle m <= 2 ->
  Forall (Obstacles.inStep (Obstacles.spikesActive (Obstacles.update dt m)))
         (Obstacles.obstacles (Obstacles.update dt m)) /\
  0 < Obstacles.timeToNextSpikeToggle (Obstacles.update dt m) <= 2 /\
  List.length (Obstacles.obstacles (Obstacles.update dt m)) =
    List.length (Obstacles.obstacles m).
Proof.
  intros Hdt Hin Ht.
  destruct (Rle_lt_dec (Obstacles.timeToNextSpikeToggle m - dt) 0) as [H|H].
  - rewrite (spikes_toggle dt m) by lra. cbn.
    split; [|split].
    + apply Forall_forall. intros i Hi. apply in_map_iff in Hi.
      destruct Hi as (j & <- & _). apply armItem_inStep.
    + destruct (negb (Obstacles.spikesActive m)); lra.
    + rewrite !length_map. reflexivity.
  - rewrite (spikes_counting dt m H Hdt). cbn.
    split; [|split].
    + apply Forall_forall. intros i Hi. apply in_map_iff in Hi.
      destruct Hi as (j & <- & Hj). apply updateItem_inStep.
      rewrite Forall_forall in Hin. apply Hin, Hj.
    + lra.
    + rewrite length_map. reflexivity.
Qed.

(** X16.  Spike traps stay in step with the manager.  When every trap
    agrees with [spikesActive] (as holds for traps created before the first
    toggle) and the countdown is within (0, 2], then after any run of frames
    every trap is armed exactly when the manager says so, its spikes are
    shown exactly then and its spike body takes part in collisions exactly
    then; the countdown is again within (0, 2], so the toggling never
    stalls, and no obstacle is added or removed. *)
Theorem spikes_stay_in_step (l : list R) (m : Obstacles.t) :
  Forall (fun dt => 0 <= dt) l ->
  Forall (Obstacles.inStep (Obstacles.spikesActive m)) (Obstacles.obstacles m) ->
  0 < Obstacles.timeToNextSpikeToggle m <= 2 ->
  let m' := Obstacles.run l m in
  Forall (Obstacles.inStep (Obstacles.spikesActive m')) (Obstacles.obstacles m') /\
  0 < Obstacles.timeToNextSpikeToggle m' <= 2 /\
  List.length (Obstacles.obstacles m') = List.length (Obstacles.obstacles m).
Proof.
  revert m. induction l as [|dt l IH]; intros m Hl Hin Ht; cbn zeta.
  - cbn. auto.
  - inversion Hl as [|dt' l' Hdt Hl']; subst.
    destruct (spikes_update_in_step dt m Hdt Hin Ht) as (H1 & H2 & H3).
    destruct (IH (Obstacles.update dt m) Hl' H1 H2) as (I1 & I2 & I3).
    cbn zeta in I1, I2, I3.
    change (Obstacles.run (dt :: l) m)
      with (Obstacles.run l (Obstacles.update dt m)).
    rewrite I3, H3. auto.
Qed.

Lemma spikes_stay_in_step_witness :
  let m := Obstacles.run [1; 1/2; 1; 1/4]
             (Obstacles.createSpikeTrap (Vec3.mk 3 0 3) Obstacles.create) in
  Forall (Obstacles.inStep (Obstacles.spikesActive m)) (Obstacles.obstacles m).
Proof.
  cbn zeta.
  destruct (spikes_stay_in_step [1; 1/2; 1; 1/4]
              (Obstacles.createSpikeTrap (Vec3.mk 3 0 3) Obstacles.create))
    as (H & _).
  - repeat constructor; lra.
  - repeat constructor.
  - cbn. lra.
  - exact H.
Defined.

Lemma spikes_run_counting (l : list R) (m : Obstacles.t) :
  Forall (fun dt => 0 <= dt) l ->
  total l < Obstacles.timeToNextSpikeToggle m ->
  Obstacles.spikesActive (Obstacles.run l m) = Obstacles.spikesActive m /\
  Obstacles.timeToNextSpikeToggle (Obstacles.run l m) =
    Obstacles.timeToNextSpikeToggle m - total l.
Proof.
  revert m. induction l as [|dt l IH]; intros m Hl Ht.
  - unfold total. cbn. split; [reflexivity|lra].
  - inversion Hl as [|dt' l' Hdt Hl']; subst. rewrite total_cons in *.
    pose proof (total_nonneg l Hl') as Hnn.
    change (Obstacles.run (dt :: l) m)
      with (Obstacles.run l (Obstacles.update dt m)).
    assert (Hu : Obstacles.update dt m =
                 Obstacles.mk (map (Obstacles.updateItem dt) (Obstacles.obstacles m))
                   (Obstacles.spikesActive m)
                   (Obstacles.timeToNextSpikeToggle m - dt))
      by (apply spikes_counting; lra).
    destruct (IH (Obstacles.update dt m) Hl') as (I1 & I2).
    + rewrite Hu. cbn. lra.
    + rewrite I1, I2, Hu. cbn. split; [reflexivity|lra].
Qed.

(** X17.  The spike cycle: hidden for 2 seconds, armed for 1.  From a
    manager whose spikes are hidden with 2 seconds to go, the spikes stay
    hidden through frames adding up to less than 2 seconds and are armed by
    the frame that reaches 2 seconds, with exactly 1 second to go whatever
    that frame overshot; they stay armed through frames adding up to less
    than 1 second and are hidden again, with 2 seconds to go, by the frame
    that reaches 1 second. *)
Theorem spike_cycle (m : Obstacles.t) (l1 l2 : list R) (d1 d2 : R) :
  Obstacles.spikesActive m = false ->
  Obstacles.timeToNextSpikeToggle m = 2 ->
  Forall (fun dt => 0 <= dt) l1 -> total l1 < 2 -> 2 <= total l1 + d1 ->
  Forall (fun dt => 0 <= dt) l2 -> total l2 < 1 -> 1 <= total l2 + d2 ->
  let hidden := Obstacles.run l1 m in
  let armed := Obstacles.update d1 hidden in
  let stillArmed := Obstacles.run l2 armed in
  let again := Obstacles.update d2 stillArmed in
  Obstacles.spikesActive hidden = false /\
  Obstacles.spikesActive armed = true /\
  Obstacles.timeToNextSpikeToggle armed = 1 /\
  Forall (Obstacles.inStep true) (Obstacles.obstacles armed) /\
  Obstacles.spikesActive stillArmed = true /\
  Obstacles.spikesActive again = false /\
  Obstacles.timeToNextSpikeToggle again = 2 /\
  Forall (Obstacles.inStep false) (Obstacles.obstacles again).
Proof.
  intros Ha Ht Hl1 Ht1 Hd1 Hl2 Ht2 Hd2. cbn zeta.
  destruct (spikes_run_counting l1 m Hl1) as (A1 & T1); [lra|].
  set (hidden := Obstacles.run l1 m) in *.
  assert (U1 : Obstacles.update d1 hidden =
               Obstacles.mk
                 (map (Obstacles.armItem true)
                      (map (Obstacles.updateItem d1) (Obstacles.obstacles hidden)))
                 true 1).
  { rewrite (spikes_toggle d1 hidden) by lra. rewrite A1, Ha. reflexivity. }
  set (armed := Obstacles.update d1 hidden) in *.
  destruct (spikes_run_counting l2 armed Hl2) as (A2 & T2);
    [rewrite U1; cbn; lra|].
  set (stillArmed := Obstacles.run l2 armed) in *.
  assert (U2 : Obstacles.update d2 stillArmed =
               Obstacles.mk
                 (map (Obstacles.armItem false)
                      (map (Obstacles.updateItem d2)
                           (Obstacles.obstacles stillArmed)))
                 false 2).
  { rewrite (spikes_toggle d2 stillArmed).
    - rewrite A2, U1. reflexivity.
    - rewrite T2, U1. cbn. lra.
    - rewrite T2, U1. cbn. lra. }
  rewrite A1, Ha, A2, U2, U1. cbn.
  repeat split; try reflexivity;
    apply Forall_forall; intros i Hi; apply in_map_iff in Hi;
    destruct Hi as (j & <- & _); apply armItem_inStep.
Qed.

Lemma spike_cycle_witness :
  let m := Obstacles.createSpikeTrap (Vec3.mk 3 0 3) Obstacles.create in
  Obstacles.spikesActive (Obstacles.update (1/10) (Obstacles.run [1; 95/100] m))
  = true.
Proof.
  cbn zeta.
  destruct (spike_cycle (Obstacles.createSpikeTrap (Vec3.mk 3 0 3) Obstacles.create)
              [1; 95/100] [] (1/10) 1 eq_refl eq_refl)
    as (_ & H & _).
  - repeat constructor; lra.
  - unfold total; cbn; lra.
  - unfold total; cbn; lra.
  - constructor.
  - unfold total; cbn; lra.
  - unfold total; cbn; lra.
  - exact H.
Defined.

(** ** The loop over the obstacle forces *)

Lemma inPull_dec (player : Player.t) (o : ObstaclesManager.Obstacle) :
  {inPull player o} + {~ inPull player o}.
Proof.
  destruct o as [v|q|]; cbn; [apply Rlt_dec|right; tauto|right; tauto].
Qed.

Lemma applyObstacleForce_quiet
  (player : Player.t) (dt : R) (o : ObstaclesManager.Obstacle) :
  ~ inPull player o ->
  exists o', ObstaclesManager.applyObstacleForce player dt o = Ok (o', player).
Proof.
  intros Hq. destruct o as [v|q|]; cbn in *.
  - rewrite vortex_out_of_range_idle by lra. eexists; reflexivity.
  - destruct (_ && _); eexists; reflexivity.
  - eexists; reflexivity.
Qed.

Lemma applyObstacleForce_pulled
  (player : Player.t) (dt : R) (o : ObstaclesManager.Obstacle) :
  inPull player o ->
  ObstaclesManager.applyObstacleForce player dt o = Throw TypeError.
Proof.
  intros Hq. destruct o as [v|q|]; cbn in *; try contradiction.
  rewrite vortex_in_range_throws by exact Hq. reflexivity.
Qed.

(** X18.  [applyObstacleForces] never pulls the player.  Whatever the
    obstacles, the player comes out of the call as it went in: outside every
    vortex nothing is applied, and inside one the call ends in a TypeError
    at that vortex.  The exception is raised exactly when the player is
    inside some vortex, and the obstacles after the first such vortex are
    not visited: a disappearing platform listed after it does not notice
    the player standing on it. *)
Theorem applyObstacleForces_pulls_nothing
  (l : list ObstaclesManager.Obstacle) (player : Player.t) (dt : R) :
  let '(l', p', e) := ObstaclesManager.applyObstacleForces l player dt in
  p' = player /\
  List.length l' = List.length l /\
  (e = Some TypeError <-> Exists (inPull player) l) /\
  (e = None <-> Forall (fun o => ~ inPull player o) l) /\
  (forall l1 o l2,
     l = l1 ++ o :: l2 ->
     Forall (fun o => ~ inPull player o) l1 ->
     inPull player o ->
     exists l1', List.length l1' = List.length l1 /\ l' = l1' ++ o :: l2).
Proof.
  induction l as [|o l IH].
  - cbn. split; [reflexivity|]. split; [reflexivity|].
    split; [split; [discriminate|intros H; inversion H]|].
    split; [split; [constructor|reflexivity]|].
    intros l1 o l2 H. destruct l1; discriminate.
  - cbn [ObstaclesManager.applyObstacleForces].
    destruct (inPull_dec player o) as [Hp|Hq].
    + rewrite (applyObstacleForce_pulled player dt o Hp).
      split; [reflexivity|]. split; [reflexivity|].
      split; [split; [intros _; left; exact Hp|reflexivity]|].
      split.
      { split; [discriminate|]. intros H. inversion H; subst. contradiction. }
      intros l1 o' l2 Hl Hl1 Ho'.
      destruct l1 as [|x l1].
      * cbn in Hl. injection Hl as -> ->. exists []. auto.
      * cbn in Hl. injection Hl as -> ->. inversion Hl1; subst. contradiction.
    + destruct (applyObstacleForce_quiet player dt o Hq) as (o1 & ->).
      destruct (ObstaclesManager.applyObstacleForces l player dt)
        as [[l' p'] e].
      destruct IH as (I1 & I2 & I3 & I4 & I5).
      split; [exact I1|]. split; [cbn; congruence|].
      split.
      { rewrite I3. split; intros H; [right; exact H|].
        inversion H; subst; [contradiction|assumption]. }
      split.
      { rewrite I4. split; intros H; [constructor; assumption|].
        inversion H; subst; assumption. }
      intros l1 o' l2 Hl Hl1 Ho'.
      destruct l1 as [|x l1].
      * cbn in Hl. injection Hl as -> ->. contradiction.
      * cbn in Hl. injection Hl as -> ->. inversion Hl1; subst.
        destruct (I5 l1 o' l2 eq_refl) as (l1' & Hlen & ->); try assumption.
        exists (o1 :: l1'). cbn. split; congruence.
Qed.

(** ** The fade of the disappearing platform *)

Lemma update_fading_look (dt : R) (o : DP.t) :
  DP.Disappearing o ->
  DP.disappearTimer o + dt < DP.disappearDuration o ->
  DP.opacity (DP.update dt o) =
    1 - (DP.disappearTimer o + dt) / DP.disappearDuration o /\
  Vec3.y (DP.meshPosition (DP.update dt o)) =
    Vec3.y (DP.initialPosition o) -
    (DP.disappearTimer o + dt) / DP.disappearDuration o * (1/2).
Proof.
  intros [H1 H2] Hlt. unfold DP.update. rewrite H1, H2. cbn.
  rewrite (proj2 (Rgeb_false_iff _ _) Hlt). cbn. auto.
Qed.

(** X19.  The fade is linear and cannot be restarted.  While a touched
    platform is fading (less than [disappearDuration] > 0 since the touch),
    after each frame its opacity is 1 minus the elapsed share of the
    duration, so within (0, 1], its mesh has sunk by half that share, and
    its body is as it was: the platform still carries.  A further contact
    during the fade, or while the platform is gone, changes nothing. *)
Theorem disappearing_platform_fades_linearly
  (o : DP.t) (l : list R) (dt : R) :
  DP.Disappearing o ->
  0 <= DP.disappearTimer o ->
  Forall (fun d => 0 <= d) l -> 0 <= dt ->
  DP.disappearTimer o + total l + dt < DP.disappearDuration o ->
  let o' := DP.update dt (DP.run l o) in
  let share := (DP.disappearTimer o + total l + dt) / DP.disappearDuration o in
  DP.opacity o' = 1 - share /\
  0 < DP.opacity o' <= 1 /\
  Vec3.y (DP.meshPosition o') = Vec3.y (DP.initialPosition o) - share * (1/2) /\
  DP.body o' = DP.body o /\
  DP.onPlayerContact o' = o' /\
  (forall q, DP.isDisappeared q = true -> DP.onPlayerContact q = q).
Proof.
  intros Hd H0 Hl Hdt Hlt. cbn zeta.
  pose proof (total_nonneg l Hl) as Hnn.
  destruct (run_fading l o Hd Hl) as (Hf & Ht & _ & Hb & Hi & Hdd & _); [lra|].
  destruct (update_fading dt (DP.run l o) Hf) as (Hf2 & _ & _ & Hb2 & _);
    [rewrite Ht, Hdd; lra|].
  destruct (update_fading_look dt (DP.run l o) Hf) as (Ho & Hy);
    [rewrite Ht, Hdd; lra|].
  rewrite Ho, Hy, Ht, Hdd, Hi, Hb2, Hb.
  assert (Hdur : 0 < DP.disappearDuration o) by lra.
  assert (Hshare : 0 <= (DP.disappearTimer o + total l + dt) / DP.disappearDuration o < 1).
  { split.
    - apply Rmult_le_pos; [lra|]. left. apply Rinv_0_lt_compat. exact Hdur.
    - apply (Rmult_lt_reg_r (DP.disappearDuration o)); [exact Hdur|].
      unfold Rdiv. rewrite Rmult_assoc, Rinv_l by lra. lra. }
  repeat split; try reflexivity; try lra.
  - destruct Hf2 as [F1 F2]. unfold DP.onPlayerContact. rewrite F1. reflexivity.
  - intros q Hq. unfold DP.onPlayerContact. rewrite Hq, andb_false_r. reflexivity.
Qed.

Lemma disappearing_platform_fades_linearly_witness :
  DP.opacity (DP.update (1/2)
                (DP.run [1/2] (DP.onPlayerContact freshPlatform))) = 1/2.
Proof.
  destruct (disappearing_platform_fades_linearly
              (DP.onPlayerContact freshPlatform) [1/2] (1/2))
    as (H & _).
  - split; reflexivity.
  - cbn. lra.
  - repeat constructor; lra.
  - lra.
  - unfold total. cbn. lra.
  - cbn zeta in H. rewrite H. unfold total. cbn. lra.
Defined.

(** * Properties of the physics bridge *)

Lemma indexOf_None (b : Pairs.Handle) (l : list Pairs.Handle) :
  Pairs.indexOf b l = None <-> ~ In b l.
Proof.
  induction l as [|x l IH]; cbn; [tauto|].
  destruct (Nat.eqb_spec x b) as [->|Hne].
  - split; [discriminate|]. intros H. exfalso. apply H. auto.
  - destruct (Pairs.indexOf b l); cbn.
    + split; [discriminate|]. intros H. exfalso. apply H. right.
      apply Decidable.not_not; [|intros Hn; apply IH in Hn; discriminate].
      destruct (in_dec Nat.eq_dec b l); [left|right]; assumption.
    + split; [|reflexivity]. intros _ [H|H]; [contradiction|].
      apply (proj1 IH); [reflexivity|exact H].
Qed.

Lemma removeAt_pairs (b : Pairs.Handle) (bs ms : list Pairs.Handle) (i : nat) :
  List.length bs = List.length ms ->
  NoDup bs ->
  Pairs.indexOf b bs = Some i ->
  combine (Pairs.removeAt i bs) (Pairs.removeAt i ms) =
    filter (fun pr => negb (Nat.eqb (fst pr) b)) (combine bs ms) /\
  List.length (Pairs.removeAt i bs) = List.length (Pairs.removeAt i ms) /\
  ~ In b (Pairs.removeAt i bs).
Proof.
  revert ms i. induction bs as [|x bs IH]; intros ms i Hlen Hnd Hi;
    [discriminate|].
  destruct ms as [|m ms]; [discriminate|].
  cbn in Hlen. injection Hlen as Hlen.
  inversion Hnd as [|? ? Hx Hnd']; subst.
  cbn in Hi. destruct (Nat.eqb_spec x b) as [->|Hne].
  - injection Hi as <-. cbn. rewrite Nat.eqb_refl. cbn.
    split; [|split; [exact Hlen|exact Hx]].
    clear -Hx. revert ms. induction bs as [|y bs IH]; intros ms; [reflexivity|].
    destruct ms as [|m ms]; [reflexivity|]. cbn.
    destruct (Nat.eqb_spec y b) as [->|Hy]; [exfalso; apply Hx; left; reflexivity|].
    cbn. f_equal. apply IH. intros H. apply Hx. right. exact H.
  - destruct (Pairs.indexOf b bs) as [j|] eqn:Hj; [|discriminate].
    cbn in Hi. injection Hi as <-.
    destruct (IH ms j Hlen Hnd' eq_refl) as (I1 & I2 & I3).
    cbn. rewrite (proj2 (Nat.eqb_neq x b) Hne). cbn.
    split; [f_equal; exact I1|]. split; [congruence|].
    intros [H|H]; [contradiction|exact (I3 H)].
Qed.

(** X20.  The registry keeps bodies and meshes paired.  With as many meshes
    as bodies and no body registered twice, [removeBodyMeshPair(body, mesh)]
    takes out exactly the pair of that body, whatever mesh is passed, keeps
    every other pair and their order, and leaves the body out of the
    registry; for a body that is not registered the two arrays are
    unchanged.  Registering a pair and removing it again gives
    the arrays back. *)
Theorem removeBodyMeshPair_drops_the_pair
  (b m : Pairs.Handle) (s : Pairs.t) :
  List.length (Pairs.bodies s) = List.length (Pairs.meshes s) ->
  NoDup (Pairs.bodies s) ->
  let s' := Pairs.removeBodyMeshPair b m s in
  combine (Pairs.bodies s') (Pairs.meshes s') =
    filter (fun pr => negb (Nat.eqb (fst pr) b))
           (combine (Pairs.bodies s) (Pairs.meshes s)) /\
  List.length (Pairs.bodies s') = List.length (Pairs.meshes s') /\
  ~ In b (Pairs.bodies s') /\
  (~ In b (Pairs.bodies s) ->
   Pairs.bodies s' = Pairs.bodies s /\ Pairs.meshes s' = Pairs.meshes s) /\
  (forall m', Pairs.removeBodyMeshPair b m' s = s') /\
  (~ In b (Pairs.bodies s) ->
   forall m',
   Pairs.bodies (Pairs.removeBodyMeshPair b m (Pairs.addBodyMeshPair b m' s)) =
     Pairs.bodies s /\
   Pairs.meshes (Pairs.removeBodyMeshPair b m (Pairs.addBodyMeshPair b m' s)) =
     Pairs.meshes s).
Proof.
  intros Hlen Hnd. cbn zeta.
  assert (Hkeep : forall bs ms : list Pairs.Handle,
            ~ In b bs ->
            filter (fun pr => negb (Nat.eqb (fst pr) b)) (combine bs ms) =
            combine bs ms).
  { intros bs. induction bs as [|x bs IH]; intros ms Hx; [reflexivity|].
    destruct ms as [|y ms]; [reflexivity|]. cbn.
    destruct (Nat.eqb_spec x b) as [->|Hne]; [exfalso; apply Hx; left; reflexivity|].
    cbn. f_equal. apply IH. intros H. apply Hx. right. exact H. }
  unfold Pairs.removeBodyMeshPair.
  destruct (Pairs.indexOf b (Pairs.bodies s)) as [i|] eqn:Hi.
  - destruct (removeAt_pairs b _ _ i Hlen Hnd Hi) as (H1 & H2 & H3). cbn.
    split; [exact H1|]. split; [exact H2|]. split; [exact H3|].
    split.
    { intros Hn. apply indexOf_None in Hn. congruence. }
    split; [reflexivity|].
    intros Hn. apply indexOf_None in Hn. congruence.
  - apply indexOf_None in Hi. cbn.
    split; [symmetry; apply Hkeep, Hi|]. split; [exact Hlen|].
    split; [exact Hi|].
    split; [auto|]. split; [reflexivity|].
    intros _ m'.
    assert (Hidx : Pairs.indexOf b (Pairs.bodies s ++ [b]) =
                   Some (List.length (Pairs.bodies s))).
    { clear -Hi. induction (Pairs.bodies s) as [|x l IH]; cbn.
      - rewrite Nat.eqb_refl. reflexivity.
      - destruct (Nat.eqb_spec x b) as [->|Hne];
          [exfalso; apply Hi; left; reflexivity|].
        rewrite IH; [reflexivity|]. intros H. apply Hi. right. exact H. }
    rewrite Hidx. cbn.
    assert (Hlast : forall (A : Type) (l : list A) (a : A),
              Pairs.removeAt (List.length l) (l ++ [a]) = l).
    { intros A l a. induction l as [|x l IH]; cbn; [reflexivity|].
      rewrite IH. reflexivity. }
    split; [apply Hlast|]. rewrite Hlen. apply Hlast.
Qed.

Lemma removeBodyMeshPair_drops_the_pair_witness :
  let s := Pairs.mk [1; 2; 3]%nat [11; 12; 13]%nat [1; 2; 3]%nat in
  combine (Pairs.bodies (Pairs.removeBodyMeshPair 2%nat 99%nat s))
          (Pairs.meshes (Pairs.removeBodyMeshPair 2%nat 99%nat s)) =
  [(1, 11); (3, 13)]%nat.
Proof.
  cbn zeta.
  destruct (removeBodyMeshPair_drops_the_pair 2%nat 99%nat
              (Pairs.mk [1; 2; 3]%nat [11; 12; 13]%nat [1; 2; 3]%nat))
    as (H & _).
  - reflexivity.
  - repeat constructor; cbn; intuition lia.
  - exact H.
Defined.

Lemma put_same (k : Pairs.Handle) (v : Vec3.t) (f : Pairs.Places) :
  Pairs.put k v f k = v.
Proof. unfold Pairs.put. rewrite Nat.eqb_refl. reflexivity. Qed.

Lemma put_other (k x : Pairs.Handle) (v : Vec3.t) (f : Pairs.Places) :
  x <> k -> Pairs.put k v f x = f x.
Proof.
  intros H. unfold Pairs.put. rewrite (proj2 (Nat.eqb_neq x k) H). reflexivity.
Qed.

Lemma syncEach_untouched
  (bs ms : list Pairs.Handle) (body mesh : Pairs.Places) (x : Pairs.Handle) :
  ~ In x ms -> Pairs.syncEach bs ms body mesh x = mesh x.
Proof.
  revert ms mesh. induction bs as [|b bs IH]; intros ms mesh Hx; [reflexivity|].
  destruct ms as [|m ms]; [reflexivity|]. cbn.
  rewrite IH by (intros H; apply Hx; right; exact H).
  apply put_other. intros ->. apply Hx. left. reflexivity.
Qed.

(** X21.  After the synchronisation loop of [update] every registered mesh
    is where its body is: with no mesh registered twice, each pair (body,
    mesh) of the registry ends with the mesh on the position of the body,
    and a mesh that is not registered stays where it was. *)
Theorem sync_puts_meshes_on_bodies
  (s : Pairs.t) (body mesh : Pairs.Places) :
  NoDup (Pairs.meshes s) ->
  (forall b m, In (b, m) (combine (Pairs.bodies s) (Pairs.meshes s)) ->
     Pairs.sync s body mesh m = body b) /\
  (forall m, ~ In m (Pairs.meshes s) -> Pairs.sync s body mesh m = mesh m).
Proof.
  intros Hnd. unfold Pairs.sync. split.
  - generalize (Pairs.bodies s). intros bs. revert mesh.
    induction Hnd as [|m0 ms Hm0 Hnd IH] in bs |- *; intros mesh b m Hin.
    + destruct bs; contradiction.
    + destruct bs as [|b0 bs]; [contradiction|]. cbn in Hin |- *.
      destruct Hin as [Heq|Hin].
      * injection Heq as -> ->.
        rewrite syncEach_untouched by exact Hm0. apply put_same.
      * apply IH. exact Hin.
  - intros m Hm. apply syncEach_untouched, Hm.
Qed.

Lemma sync_puts_meshes_on_bodies_witness :
  let s := Pairs.mk [1; 2]%nat [11; 12]%nat [1; 2]%nat in
  Pairs.sync s (fun b => Vec3.mk (INR b) 0 0) (fun _ => Vec3.zero) 12%nat =
  Vec3.mk (INR 2) 0 0.
Proof.
  cbn zeta.
  destruct (sync_puts_meshes_on_bodies
              (Pairs.mk [1; 2]%nat [11; 12]%nat [1; 2]%nat)
              (fun b => Vec3.mk (INR b) 0 0) (fun _ => Vec3.zero)) as (H & _).
  - repeat constructor; cbn; intuition lia.
  - apply (H 2%nat 12%nat). cbn. auto.
Defined.

(** * Properties of the game *)

Lemma loadLevel_found
  (i : Z) (lv : Level) (m : Levels.t) (c : CollectiblesManager.t) (h : Host.t) :
  Levels.levelAt (Levels.levels m) i = Some lv ->
  exists m' c',
    Levels.loadLevel i m c h = (Ok (playerStart lv), m', c') /\
    Levels.currentLevelIndex m' = i /\
    Levels.levels m' = Levels.levels m /\
    Levels.isLevelComplete m' = false /\
    Levels.finishArea m' = Some (levelFinish lv) /\
    Forall pristine (CollectiblesManager.collectibles c') /\
    Collectibles.getCollectedCoins c' = 0%nat /\
    CollectiblesManager.onCoinCollected c' = CollectiblesManager.onCoinCollected c.
Proof.
  intros Hlv. unfold Levels.loadLevel, Levels.clearLevel. cbn.
  rewrite Hlv. cbn. eexists. eexists. split; [reflexivity|]. cbn.
  assert (Hp : Forall pristine
                (Levels.created Levels.createCollectible (levelCollectibles lv)))
    by (apply created_Forall, createCollectible_pristine).
  repeat split; try reflexivity.
  - destruct (levelFinish lv); reflexivity.
  - exact Hp.
  - unfold Collectibles.getCollectedCoins. cbn.
    induction Hp as [|x l Hx Hl IH]; [reflexivity|]. cbn.
    destruct Hx as (Hx & _). rewrite Hx, andb_false_r. exact IH.
Qed.

Lemma respawn_at (start : Vec3.t) (p : Player.t) (h : Host.t) :
  let '(p', h') := Player.respawn (Player.setSpawnPoint start p) h in
  Body.position (Player.body p') = start /\
  Body.velocity (Player.body p') = Vec3.zero /\
  Player.spawnPosition p' = start /\
  Player.canJump p' = false /\
  Player.hasJumpPower p' = false /\ Player.hasSpeedBoost p' = false /\
  Player.onDeath p' = Player.onDeath p /\
  (timersOwned p h -> Host.timers h' = [] /\ timersOwned p' h').
Proof.
  pose proof (respawn_spec (Player.setSpawnPoint start p) h) as H.
  assert (Ht : timersOwned p h ->
               Host.timers (snd (Player.respawn (Player.setSpawnPoint start p) h)) = [] /\
               timersOwned (fst (Player.respawn (Player.setSpawnPoint start p) h))
                           (snd (Player.respawn (Player.setSpawnPoint start p) h))).
  { intros Ho. unfold Player.respawn.
    match goal with
    | |- context [Player.removeAllPowerups ?q ?g] =>
        assert (Hq : timersOwned q g)
          by (apply (timersOwned_same_handles p); [reflexivity|reflexivity|exact Ho]);
        destruct (removeAllPowerups_owned q g Hq) as (H1 & H2)
    end.
    split; assumption. }
  destruct (Player.respawn (Player.setSpawnPoint start p) h) as [p' h'].
  destruct H as (H1 & H2 & _ & H4 & H5 & _ & H7 & H8 & H9 & _).
  repeat split; try assumption; apply Ht; assumption.
Qed.






(** X23.  [startGame()] loads the first level and resets the flags and the
    score.  A ball that does not exist yet is created on the start of the
    level.  A ball that exists is respawned BEFORE its spawn point is moved:
    it is put, at rest and without power-ups, on the spawn point it had (a
    checkpoint of the game before, say), and only the next respawn uses the
    start of the level. *)
Theorem startGame_respawns_before_moving_spawn
  (g : Game.t) (h : Host.t) (lv : Level) :
  Levels.levelAt (Levels.levels (Game.levelManager g)) 0 = Some lv ->
  exists g' h' p',
    Game.startGame g h = (Ok tt, g', h') /\
    Game.isRunning g' = true /\ Game.isPaused g' = false /\
    Game.isGameOver g' = false /\ Game.isLevelComplete g' = false /\
    Game.score g' = 0 /\
    Levels.currentLevelIndex (Game.levelManager g') = 0%Z /\
    Collectibles.getCollectedCoins (Game.collectiblesManager g') = 0%nat /\
    Game.player g' = Some p' /\
    Player.spawnPosition p' = playerStart lv /\
    Body.velocity (Player.body p') = Vec3.zero /\
    Player.hasJumpPower p' = false /\ Player.hasSpeedBoost p' = false /\
    match Game.player g with
    | None =>
        Body.position (Player.body p') = playerStart lv /\
        Player.onDeath p' = Some Game.onPlayerDeathCb /\ h' = h
    | Some p =>
        Body.position (Player.body p') = Player.spawnPosition p /\
        Player.onDeath p' = Player.onDeath p
    end.
Proof.
  intros Hlv. unfold Game.startGame. cbn -[Levels.loadLevel].
  destruct (loadLevel_found 0 lv (Game.levelManager g)
              (Game.collectiblesManager g) h Hlv)
    as (m' & c' & Hload & Hi & _ & _ & _ & _ & Hcoins & _).
  rewrite Hload. cbn.
  destruct (Game.player g) as [p|] eqn:Hp.
  - pose proof (respawn_spec p h) as Hr.
    destruct (Player.respawn p h) as [p1 h1].
    destruct Hr as (R1 & R2 & _ & _ & _ & _ & R7 & R8 & R9 & _).
    eexists. eexists. eexists. split; [reflexivity|]. cbn.
    repeat split; try assumption; reflexivity.
  - eexists. eexists. eexists. split; [reflexivity|]. cbn.
    repeat split; try assumption; reflexivity.
Qed.

Lemma startGame_respawns_before_moving_spawn_witness :
  exists g' h' p',
    Game.startGame gameAfterCheckpoint hostWithJumpTimer = (Ok tt, g', h') /\
    Game.player g' = Some p' /\
    Body.position (Player.body p') = Vec3.mk 10 5 0 /\
    Player.spawnPosition p' = Vec3.mk 0 3 0.
Proof.
  destruct (startGame_respawns_before_moving_spawn gameAfterCheckpoint
              hostWithJumpTimer level1 eq_refl)
    as (g' & h' & p' & H1 & _ & _ & _ & _ & _ & _ & _ & H2 & H3 & _ & _ & _ & H4).
  exists g', h', p'. destruct H4 as [H4 _].
  split; [exact H1|]. split; [exact H2|]. split; [exact H4|exact H3].
Defined.

(** X24.  [restartLevel()] reloads the current level and puts the ball on
    its start: the spawn point is moved first, so a checkpoint taken before
    is forgotten, the ball is at rest without power-ups, no power-up expiry
    is left pending, every collectible is as new, and the score is 0 even
    when it was earned on earlier levels.  While the game runs unpaused the
    keys r and R do the same. *)
Theorem restartLevel_puts_ball_on_start
  (g : Game.t) (h : Host.t) (lv : Level) (p : Player.t) :
  Levels.levelAt (Levels.levels (Game.levelManager g))
    (Levels.currentLevelIndex (Game.levelManager g)) = Some lv ->
  Game.player g = Some p ->
  timersOwned p h ->
  exists g' h' p',
    Game.restartLevel g h = (Ok tt, g', h') /\
    Game.player g' = Some p' /\
    Body.position (Player.body p') = playerStart lv /\
    Body.velocity (Player.body p') = Vec3.zero /\
    Player.spawnPosition p' = playerStart lv /\
    Player.hasJumpPower p' = false /\ Player.hasSpeedBoost p' = false /\
    Host.timers h' = [] /\
    Game.score g' = 0 /\
    Game.isRunning g' = true /\ Game.isPaused g' = false /\
    Game.isGameOver g' = false /\ Game.isLevelComplete g' = false /\
    Levels.currentLevelIndex (Game.levelManager g') =
      Levels.currentLevelIndex (Game.levelManager g) /\
    Forall pristine
      (CollectiblesManager.collectibles (Game.collectiblesManager g')) /\
    (Game.isRunning g = true -> Game.isPaused g = false ->
     Game.handleKeyDown "r" g h = (Ok tt, g', h') /\
     Game.handleKeyDown "R" g h = (Ok tt, g', h')).
Proof.
  intros Hlv Hp Ho.
  assert (Hkeys : Game.isRunning g = true -> Game.isPaused g = false ->
                  Game.handleKeyDown "r" g h = Game.restartLevel g h /\
                  Game.handleKeyDown "R" g h = Game.restartLevel g h).
  { intros Hr Hq. unfold Game.handleKeyDown. rewrite Hr, Hq. cbn. auto. }
  unfold Game.restartLevel in *. unfold Levels.getCurrentLevelIndex in *.
  cbn -[Levels.loadLevel] in *.
  destruct (loadLevel_found _ lv (Game.levelManager g)
              (Game.collectiblesManager g) h Hlv)
    as (m' & c' & Hload & Hi & _ & _ & _ & Hpr & _ & _).
  rewrite Hload in *. cbn in *. rewrite Hp in *.
  pose proof (respawn_at (playerStart lv) p h) as Hr.
  destruct (Player.respawn (Player.setSpawnPoint (playerStart lv) p) h)
    as [p1 h1].
  destruct Hr as (R1 & R2 & R3 & _ & R5 & R6 & _ & R8).
  destruct (R8 Ho) as [R9 _].
  eexists. eexists. eexists. split; [reflexivity|]. cbn.
  repeat split; try assumption; try reflexivity;
    apply Hkeys; assumption.
Qed.

Lemma restartLevel_puts_ball_on_start_witness :
  exists g' h' p',
    Game.restartLevel gameAfterCheckpoint hostWithJumpTimer = (Ok tt, g', h') /\
    Game.player g' = Some p' /\
    Body.position (Player.body p') = Vec3.mk 0 3 0 /\
    Host.timers h' = [] /\ Game.score g' = 0.
Proof.
  destruct (restartLevel_puts_ball_on_start gameAfterCheckpoint
              hostWithJumpTimer level1 checkpointedBall)
    as (g' & h' & p' & H1 & H2 & H3 & _ & _ & _ & _ & H4 & H5 & _).
  - reflexivity.
  - reflexivity.
  - unfold timersOwned. cbn. split; [lia|]. split.
    + constructor; [intros []|constructor].
    + intros tm [<-|[]]. cbn. split; [lia|reflexivity].
  - exists g', h', p'. repeat split; assumption.
Defined.



Lemma since_app (h h' : Host.t) (evs : list Event) :
  Host.trace h' = Host.trace h ++ evs -> Game.since h h' = evs.
Proof.
  intros H. unfold Game.since. rewrite H, skipn_app, skipn_all, Nat.sub_diag.
  reflexivity.
Qed.

Lemma coinSum_app (a b : list Event) : coinSum (a ++ b) = coinSum a + coinSum b.
Proof.
  unfold coinSum. induction a as [|e a IH]; cbn [app fold_right]; [lra|].
  rewrite IH. lra.
Qed.

Lemma react_fields (e : Event) (g : Game.t) :
  Game.score (Game.react e g) = Game.score g + coinValue e /\
  Game.player (Game.react e g) = Game.player g /\
  Game.levelManager (Game.react e g) = Game.levelManager g /\
  Game.collectiblesManager (Game.react e g) = Game.collectiblesManager g /\
  Game.animation (Game.react e g) = Game.animation g /\
  Game.obstaclesManager (Game.react e g) = Game.obstaclesManager g /\
  Game.isLevelComplete (Game.react e g) = Game.isLevelComplete g /\
  Game.deltaTime (Game.react e g) = Game.deltaTime g /\
  Game.inputState (Game.react e g) = Game.inputState g.
Proof.
  destruct e as [| |cb|ty|ty|cb v|cb a|cb ty]; cbn [Game.react coinValue];
    try (repeat split; try reflexivity; lra).
  - destruct (Nat.eqb cb Game.onPlayerDeathCb);
      [|repeat split; try reflexivity; lra].
    unfold Game.onPlayerDeath. destruct (Game.isGameOver g); cbn;
      repeat split; try reflexivity; lra.
  - destruct (Nat.eqb cb Game.onCoinCollectedCb); cbn;
      repeat split; try reflexivity; lra.
  - unfold Game.onCheckpointActivated.
    destruct (Nat.eqb cb Game.onCheckpointActivatedCb); cbn;
      repeat split; try reflexivity; lra.
  - unfold Game.onCollectibleCollected.
    destruct (Nat.eqb cb Game.onCollectibleCollectedCb); cbn;
      repeat split; try reflexivity; lra.
Qed.

Lemma deliver_fields (h h' : Host.t) (evs : list Event) (g : Game.t) :
  Host.trace h' = Host.trace h ++ evs ->
  Game.score (Game.deliver h h' g) = Game.score g + coinSum evs /\
  Game.player (Game.deliver h h' g) = Game.player g /\
  Game.levelManager (Game.deliver h h' g) = Game.levelManager g /\
  Game.collectiblesManager (Game.deliver h h' g) = Game.collectiblesManager g /\
  Game.animation (Game.deliver h h' g) = Game.animation g /\
  Game.obstaclesManager (Game.deliver h h' g) = Game.obstaclesManager g /\
  Game.isLevelComplete (Game.deliver h h' g) = Game.isLevelComplete g /\
  Game.deltaTime (Game.deliver h h' g) = Game.deltaTime g /\
  Game.inputState (Game.deliver h h' g) = Game.inputState g.
Proof.
  intros H. unfold Game.deliver. rewrite (since_app h h' evs H). clear H.
  unfold coinSum.
  revert g. induction evs as [|e evs IH]; intros g; cbn [fold_left fold_right].
  - repeat split; try reflexivity; lra.
  - destruct (IH (Game.react e g)) as (I1 & I2 & I3 & I4 & I5 & I6 & I7 & I8 & I9).
    destruct (react_fields e g) as (R1 & R2 & R3 & R4 & R5 & R6 & R7 & R8 & R9).
    rewrite I1, I2, I3, I4, I5, I6, I7, I8, I9.
    repeat split; try assumption. rewrite R1. lra.
Qed.

Lemma jump_emits (p : Player.t) (h : Host.t) :
  exists evs, Host.trace (snd (Player.jump p h)) = Host.trace h ++ evs /\
              coinSum evs = 0.
Proof.
  unfold Player.jump.
  destruct (negb (Player.canJump p));
    [exists []; cbn; rewrite app_nil_r; auto|].
  destruct (negb (Player.hasJumpPower p) && negb (Player.isOnJumpPad p));
    [exists []; cbn; rewrite app_nil_r; auto|].
  exists [EvJumpEffect]. cbn. split; [reflexivity|lra].
Qed.

Lemma processInput_emits (i : InputState) (p : Player.t) (h : Host.t) :
  exists evs, Host.trace (snd (Player.processInput i p h)) = Host.trace h ++ evs /\
              coinSum evs = 0.
Proof.
  unfold Player.processInput. cbv zeta.
  match goal with
  | |- context [Player.jump ?q h] => generalize q
  end.
  intros q.
  destruct (jumpKey i && Player.canJump q && Rleb (Player.jumpCooldown q) 0).
  - apply jump_emits.
  - exists []. cbn. rewrite app_nil_r. auto.
Qed.

Lemma checkBounds_emits (p : Player.t) (h : Host.t) :
  exists evs, Host.trace (snd (Player.checkBounds p h)) = Host.trace h ++ evs /\
              coinSum evs = 0.
Proof.
  unfold Player.checkBounds.
  destruct (Rltb (Vec3.y (Player.meshPosition p)) (-10));
    [|exists []; cbn; rewrite app_nil_r; auto].
  unfold Player.die, Player.createDeathEffect.
  pose proof (respawn_spec p (Host.emit EvDeathEffect h)) as Hr.
  destruct (Player.respawn p (Host.emit EvDeathEffect h)) as [p2 h2].
  destruct Hr as (_ & _ & _ & _ & _ & _ & _ & _ & _ & Ht & _).
  destruct (Player.onDeath p2) as [cb|]; cbn.
  - exists [EvDeathEffect; EvOnDeath cb]. rewrite Ht. cbn.
    rewrite <- app_assoc. split; [reflexivity|lra].
  - exists [EvDeathEffect]. rewrite Ht. cbn. split; [reflexivity|lra].
Qed.

Lemma update_emits (dt : R) (i : InputState) (p : Player.t) (h : Host.t) :
  exists evs, Host.trace (snd (Player.update dt i p h)) = Host.trace h ++ evs /\
              coinSum evs = 0.
Proof.
  unfold Player.update.
  destruct (processInput_emits i p h) as (e1 & H1 & S1).
  destruct (Player.processInput i p h) as [p1 h1]. cbn [snd] in H1.
  destruct (checkBounds_emits (Player.applyMovementForces dt p1) h1)
    as (e2 & H2 & S2).
  destruct (Player.checkBounds (Player.applyMovementForces dt p1) h1)
    as [p3 h3]. cbn [snd] in *.
  exists (e1 ++ e2). rewrite H2, H1, app_assoc, coinSum_app. split; [reflexivity|lra].
Qed.

Lemma collectItem_emits
  (m : CollectiblesManager.t) (c : Collectible.t) (p : Player.t) (h : Host.t) :
  CollectiblesManager.onCoinCollected m = Some Game.onCoinCollectedCb ->
  exists evs,
    Host.trace (snd (CollectiblesManager.collectItem m c p h)) =
      Host.trace h ++ evs /\
    coinSum evs = if Collectibles.isCoin c then Collectible.value c else 0.
Proof.
  intros Hk. unfold CollectiblesManager.collectItem, Collectibles.isCoin.
  destruct c as [ty mp col act bp r v d].
  cbn [Collectible.type Collectible.set_collected Collectible.duration
       Collectible.value Collectible.activated].
  unfold CollectiblesManager.createCollectionEffect.
  destruct ty.
  - rewrite Hk. cbn [CollectiblesManager.notify snd Collectible.type].
    destruct (CollectiblesManager.onCollectible m) as [k|];
      cbn [CollectiblesManager.notify Host.emit Host.trace];
      eexists; (split; [rewrite <- ?app_assoc; reflexivity|]);
      unfold coinSum; cbn [app fold_right coinValue];
      rewrite Nat.eqb_refl; lra.
  - match goal with
    | |- context [Player.giveJumpPower ?x ?q ?g] =>
        pose proof (giveJumpPower_trace x q g) as Ht;
        destruct (Player.giveJumpPower x q g) as [p' h']
    end.
    cbn [snd] in *.
    destruct (CollectiblesManager.onCollectible m) as [k|];
      cbn [CollectiblesManager.notify Host.emit Host.trace] in *;
      rewrite Ht;
      eexists; (split; [rewrite <- ?app_assoc; reflexivity|]);
      unfold coinSum; cbn [app fold_right coinValue]; lra.
  - match goal with
    | |- context [Player.giveSpeedBoost ?x ?q ?g] =>
        pose proof (giveSpeedBoost_trace x q g) as Ht;
        destruct (Player.giveSpeedBoost x q g) as [p' h']
    end.
    cbn [snd] in *.
    destruct (CollectiblesManager.onCollectible m) as [k|];
      cbn [CollectiblesManager.notify Host.emit Host.trace] in *;
      rewrite Ht;
      eexists; (split; [rewrite <- ?app_assoc; reflexivity|]);
      unfold coinSum; cbn [app fold_right coinValue]; lra.
  - destruct act; cbn [negb snd];
      destruct (CollectiblesManager.onCollectible m) as [k|];
      destruct (CollectiblesManager.onCheckpointActivated m) as [k'|];
      cbn [CollectiblesManager.notify Host.emit Host.trace snd];
      eexists; (split; [rewrite <- ?app_assoc; reflexivity|]);
      unfold coinSum; cbn [app fold_right coinValue]; lra.
Qed.

Lemma checkEach_score
  (m : CollectiblesManager.t) (l : list Collectible.t) (p : Player.t) (h : Host.t) :
  CollectiblesManager.onCoinCollected m = Some Game.onCoinCollectedCb ->
  coinsWorthTen l ->
  let '(l', p', h') := CollectiblesManager.checkEach m l p h in
  exists evs,
    Host.trace h' = Host.trace h ++ evs /\
    coinSum evs +
      10 * INR (List.length
                  (filter (fun c => Collectibles.isCoin c && Collectible.collected c) l)) =
      10 * INR (List.length
                  (filter (fun c => Collectibles.isCoin c && Collectible.collected c) l')) /\
    coinsWorthTen l' /\
    List.length (filter Collectibles.isCoin l') =
      List.length (filter Collectibles.isCoin l) /\
    (List.length
       (filter (fun c => Collectibles.isCoin c && Collectible.collected c) l) <=
     List.length
       (filter (fun c => Collectibles.isCoin c && Collectible.collected c) l'))%nat.
Proof.
  intros Hk Hw. revert p h. induction Hw as [|c l Hc Hw IH]; intros p h.
  { cbn. exists []. rewrite app_nil_r. repeat split; try reflexivity.
    - unfold coinSum. cbn. lra.
    - constructor. }
  cbn [CollectiblesManager.checkEach].
  assert (Hhead :
    let '(c1, p1, h1) :=
      (if Collectible.collected c then (c, p, h)
       else if Rltb (CollectiblesManager.distanceTo (Player.meshPosition p)
                       (Collectible.meshPosition c))
                    (Collectible.radius c + Player.radius p)
            then CollectiblesManager.collectItem m c p h
            else (c, p, h)) in
    exists evs,
      Host.trace h1 = Host.trace h ++ evs /\
      Collectibles.isCoin c1 = Collectibles.isCoin c /\
      Collectible.value c1 = Collectible.value c /\
      (Collectible.collected c = true -> c1 = c) /\
      coinSum evs +
        10 * (if Collectibles.isCoin c && Collectible.collected c then 1 else 0) =
        10 * (if Collectibles.isCoin c1 && Collectible.collected c1 then 1 else 0)).
  { assert (Hnil : coinSum [] = 0) by reflexivity.
    destruct (Collectible.collected c) eqn:Hcol.
    { exists []. rewrite app_nil_r, Hcol, Hnil. repeat split; lra. }
    destruct (Rltb _ _).
    2:{ exists []. rewrite app_nil_r, Hcol, Hnil. repeat split; lra. }
    assert (Hsame : forall c1 : Collectible.t, false = true -> c1 = c)
      by (intros ? ?; discriminate).
    pose proof (collectItem_picked m c p h) as Hp.
    destruct (collectItem_emits m c p h Hk) as (evs & He & Hs).
    destruct (CollectiblesManager.collectItem m c p h) as [[c1 p1] h1].
    cbn [snd] in He. destruct Hp as (-> & _).
    exists evs. split; [exact He|]. rewrite Hs.
    unfold Collectibles.picked, Collectibles.isCoin in *.
    destruct c as [ty mp col act bp r v d]. cbn in *.
    destruct ty; cbn;
      try (specialize (Hc eq_refl); subst v);
      try (repeat split; try reflexivity; try apply Hsame; lra).
    destruct act; cbn; repeat split; try reflexivity; try apply Hsame; lra. }
  destruct (if Collectible.collected c then (c, p, h) else _) as [[c1 p1] h1].
  destruct Hhead as (e1 & He1 & Hcoin & Hval & Hsame & Hn).
  specialize (IH p1 h1).
  destruct (CollectiblesManager.checkEach m l p1 h1) as [[l1 p2] h2].
  destruct IH as (e2 & He2 & Hs2 & Hw2 & Hcnt & Hle).
  exists (e1 ++ e2). rewrite He2, He1, app_assoc, coinSum_app.
  split; [reflexivity|]. split.
  { cbn [filter]. rewrite Hcoin in *.
    destruct (Collectibles.isCoin c && Collectible.collected c);
      destruct (Collectibles.isCoin c && Collectible.collected c1);
      cbn [List.length]; rewrite ?S_INR; lra. }
  split.
  { constructor; [|exact Hw2]. intros H. rewrite Hval. apply Hc.
    rewrite <- Hcoin. exact H. }
  split.
  { cbn [filter]. rewrite Hcoin.
    destruct (Collectibles.isCoin c); cbn [List.length]; lia. }
  cbn [filter]. rewrite Hcoin in *.
  destruct (Collectible.collected c) eqn:Hcol.
  - rewrite (Hsame eq_refl), Hcol.
    destruct (Collectibles.isCoin c && true); cbn [List.length]; lia.
  - rewrite andb_false_r.
    destruct (Collectibles.isCoin c && Collectible.collected c1);
      cbn [List.length]; lia.
Qed.

Lemma animateOne_coin (time : R) (c : Collectible.t) :
  Collectibles.isCoin (Collectibles.animateOne time c) = Collectibles.isCoin c /\
  Collectible.collected (Collectibles.animateOne time c) = Collectible.collected c /\
  Collectible.value (Collectibles.animateOne time c) = Collectible.value c.
Proof.
  unfold Collectibles.animateOne.
  destruct (negb (Collectible.collected c)); auto.
Qed.

Lemma updateAnimation_coins
  (dt : R) (a : Collectibles.Animation) (m : CollectiblesManager.t) :
  let m' := snd (Collectibles.updateAnimation dt a m) in
  CollectiblesManager.onCoinCollected m' = CollectiblesManager.onCoinCollected m /\
  Collectibles.getCollectedCoins m' = Collectibles.getCollectedCoins m /\
  Collectibles.getCoinCount m' = Collectibles.getCoinCount m /\
  (coinsWorthTen (CollectiblesManager.collectibles m) ->
   coinsWorthTen (CollectiblesManager.collectibles m')).
Proof.
  unfold Collectibles.updateAnimation.
  destruct (negb (Collectibles.animating a)); cbn; [auto|].
  unfold Collectibles.getCollectedCoins, Collectibles.getCoinCount. cbn.
  generalize (Collectibles.animationTime a + dt). intros time.
  induction (CollectiblesManager.collectibles m) as [|c l IH]; cbn; [auto|].
  destruct IH as (_ & I2 & I3 & I4).
  destruct (animateOne_coin time c) as (A1 & A2 & A3).
  rewrite A1, A2.
  split; [reflexivity|]. split.
  { destruct (Collectibles.isCoin c && Collectible.collected c); cbn; lia. }
  split.
  { destruct (Collectibles.isCoin c); cbn; lia. }
  intros Hw. inversion Hw as [|? ? Hc Hl]; subst.
  constructor; [|apply I4; exact Hl].
  rewrite A1, A3. exact Hc.
Qed.

Lemma playerUpdate_keeps (g : Game.t) (h : Host.t) :
  let '(g', h') := Game.playerUpdate g h in
  Game.score g' = Game.score g /\
  Game.collectiblesManager g' = Game.collectiblesManager g /\
  Game.obstaclesManager g' = Game.obstaclesManager g.
Proof.
  unfold Game.playerUpdate. destruct (Game.player g) as [p|]; [|auto].
  destruct (update_emits (Game.deltaTime g) (Game.inputState g) p h)
    as (evs & He & Hs).
  destruct (Player.update (Game.deltaTime g) (Game.inputState g) p h)
    as [p1 h1].
  cbn [snd] in He.
  destruct (deliver_fields h h1 evs (Game.set_player (Some p1) g) He)
    as (D1 & _ & _ & D4 & _ & D6 & _).
  rewrite D1, D4, D6, Hs. cbn. repeat split; try reflexivity. lra.
Qed.

Lemma finishCheck_keeps (g : Game.t) (h : Host.t) :
  let g' := snd (Game.finishCheck g h) in
  Game.score g' = Game.score g /\
  Game.collectiblesManager g' = Game.collectiblesManager g /\
  Game.obstaclesManager g' = Game.obstaclesManager g.
Proof.
  unfold Game.finishCheck. destruct (Game.player g) as [p|]; [|cbn; auto].
  destruct (negb (Game.isLevelComplete g)) eqn:Hc; [|cbn; auto].
  destruct (Levels.checkFinish (Player.meshPosition p) (Game.levelManager g) h)
    as [[b|e] m]; [|cbn; auto].
  destruct b; [|cbn; auto].
  unfold Game.onLevelComplete. cbn.
  destruct (Game.isLevelComplete g); cbn; auto.
Qed.

Lemma levelUpdate_keeps (g : Game.t) (h : Host.t) :
  let g' := snd (Game.levelUpdate g h) in
  Game.score g' = Game.score g /\
  Game.collectiblesManager g' = Game.collectiblesManager g /\
  Game.obstaclesManager g' = Game.obstaclesManager g.
Proof.
  unfold Game.levelUpdate. destruct (Game.player g) as [p|]; [|cbn; auto].
  destruct (Levels.update (Game.deltaTime g) p (Game.levelManager g) h)
    as [r m].
  cbn. auto.
Qed.

Lemma collectiblesUpdate_score (g : Game.t) (h : Host.t) :
  wired g ->
  coinsWorthTen (CollectiblesManager.collectibles (Game.collectiblesManager g)) ->
  let '(g', h') := Game.collectiblesUpdate g h in
  Game.score g' + 10 * INR (collectedCoins g) =
    Game.score g + 10 * INR (collectedCoins g') /\
  (collectedCoins g <= collectedCoins g')%nat /\
  Collectibles.getCoinCount (Game.collectiblesManager g') =
    Collectibles.getCoinCount (Game.collectiblesManager g) /\
  wired g' /\
  coinsWorthTen (CollectiblesManager.collectibles (Game.collectiblesManager g')) /\
  Game.obstaclesManager g' = Game.obstaclesManager g.
Proof.
  intros Hk Hw. unfold Game.collectiblesUpdate.
  destruct (Game.player g) as [p|]; [|repeat split; auto; lra].
  unfold Collectibles.update.
  pose proof (updateAnimation_coins (Game.deltaTime g) (Game.animation g)
                (Game.collectiblesManager g)) as Ha.
  destruct (Collectibles.updateAnimation (Game.deltaTime g) (Game.animation g)
              (Game.collectiblesManager g)) as [a1 m1].
  cbn [snd] in Ha. destruct Ha as (A1 & A2 & A3 & A4).
  unfold CollectiblesManager.checkCollisions.
  assert (Hk1 : CollectiblesManager.onCoinCollected m1 =
                Some Game.onCoinCollectedCb) by (rewrite A1; exact Hk).
  pose proof (checkEach_score m1 (CollectiblesManager.collectibles m1) p h
                Hk1 (A4 Hw)) as Hc.
  destruct (CollectiblesManager.checkEach m1
              (CollectiblesManager.collectibles m1) p h) as [[l p1] h1].
  destruct Hc as (evs & He & Hs & Hw' & Hcnt & Hle).
  match goal with
  | |- context [Game.deliver h h1 ?q] =>
      destruct (deliver_fields h h1 evs q He) as (D1 & _ & _ & D4 & _ & D6 & _)
  end.
  unfold wired, collectedCoins, Collectibles.getCollectedCoins,
    Collectibles.getCoinCount in *.
  rewrite D1, D4, D6. cbn.
  rewrite A2 in Hs, Hle. rewrite A3 in Hcnt.
  repeat split; try assumption; try lia; try lra.
Qed.

Lemma obstaclesUpdate_keeps (g : Game.t) :
  let g' := snd (Game.obstaclesUpdate g) in
  Game.score g' = Game.score g /\
  Game.collectiblesManager g' = Game.collectiblesManager g /\
  (Obstacles.obstacles (Game.obstaclesManager g) = [] ->
   Obstacles.obstacles (Game.obstaclesManager g') = [] /\
   fst (Game.obstaclesUpdate g) = Ok tt /\
   Game.player g' = Game.player g).
Proof.
  unfold Game.obstaclesUpdate. cbn.
  assert (Hu : Obstacles.obstacles (Game.obstaclesManager g) = [] ->
               Obstacles.obstacles
                 (Obstacles.update (Game.deltaTime g) (Game.obstaclesManager g)) = []).
  { intros H. unfold Obstacles.update. rewrite H. cbn.
    destruct (Rgtb _ _); [destruct (Rleb _ _)|]; reflexivity. }
  destruct (Game.player g) as [p|] eqn:Hp.
  - destruct (ObstaclesManager.applyObstacleForces _ p (Game.deltaTime g))
      as [[l p1] e] eqn:Hf.
    cbn. split; [reflexivity|]. split; [reflexivity|].
    intros H. rewrite (Hu H) in *. cbn in Hf. injection Hf as <- <- <-.
    cbn. auto.
  - cbn. split; [reflexivity|]. split; [reflexivity|].
    intros H. rewrite Hp. auto.
Qed.

Lemma update_frame (now : R) (w : Integration) (g : Game.t) (h : Host.t) :
  wired g ->
  coinsWorthTen (CollectiblesManager.collectibles (Game.collectiblesManager g)) ->
  let '(r, g', h') := Game.update now w g h in
  Game.score g' + 10 * INR (collectedCoins g) =
    Game.score g + 10 * INR (collectedCoins g') /\
  (collectedCoins g <= collectedCoins g')%nat /\
  Collectibles.getCoinCount (Game.collectiblesManager g') =
    Collectibles.getCoinCount (Game.collectiblesManager g) /\
  wired g' /\
  coinsWorthTen (CollectiblesManager.collectibles (Game.collectiblesManager g')) /\
  (Obstacles.obstacles (Game.obstaclesManager g) = [] ->
   Obstacles.obstacles (Game.obstaclesManager g') = []).
Proof.
  intros Hk Hw. unfold Game.update. cbv zeta.
  match goal with
  | |- context [if ?c then _ else _] => destruct c
  end.
  { cbn. repeat split; auto; try lra. }
  match goal with
  | |- context [Game.playerUpdate ?q h] =>
      pose proof (playerUpdate_keeps q h) as H1;
      destruct (Game.playerUpdate q h) as [g4 h4]
  end.
  cbn in H1. destruct H1 as (S1 & C1 & O1).
  pose proof (finishCheck_keeps g4 h4) as H2.
  destruct (Game.finishCheck g4 h4) as [r5 g5]. cbn [snd] in H2.
  destruct H2 as (S2 & C2 & O2).
  assert (Same5 : Game.score g5 = Game.score g /\
                  Game.collectiblesManager g5 = Game.collectiblesManager g /\
                  Game.obstaclesManager g5 = Game.obstaclesManager g)
    by (repeat split; congruence).
  destruct Same5 as (S5 & C5 & O5).
  destruct r5 as [u|e].
  2:{ unfold wired, collectedCoins in *. rewrite S5, C5, O5.
      repeat split; auto; try lra. }
  pose proof (levelUpdate_keeps g5 h4) as H3.
  destruct (Game.levelUpdate g5 h4) as [r6 g6]. cbn [snd] in H3.
  destruct H3 as (S3 & C3 & O3).
  destruct r6 as [u6|e].
  2:{ unfold wired, collectedCoins in *. rewrite S3, C3, O3, S5, C5, O5.
      repeat split; auto; try lra. }
  assert (Hk6 : wired g6) by (unfold wired in *; rewrite C3, C5; exact Hk).
  assert (Hw6 : coinsWorthTen
                  (CollectiblesManager.collectibles (Game.collectiblesManager g6)))
    by (rewrite C3, C5; exact Hw).
  pose proof (collectiblesUpdate_score g6 h4 Hk6 Hw6) as H4.
  destruct (Game.collectiblesUpdate g6 h4) as [g7 h7].
  destruct H4 as (E7 & L7 & N7 & K7 & W7 & O7).
  pose proof (obstaclesUpdate_keeps g7) as H5.
  destruct (Game.obstaclesUpdate g7) as [r8 g8]. cbn [snd fst] in H5.
  destruct H5 as (S8 & C8 & O8).
  unfold wired, collectedCoins in *.
  rewrite S8, C8.
  rewrite S3, C3, S5, C5 in *.
  repeat split; try assumption.
  intros H. apply O8. rewrite O7, O3, O5. exact H.
Qed.

Lemma settle_lifecycle_obstacles (g : Game.t) (h : Host.t) :
  Game.obstaclesManager (fst (Game.settle (Game.startGame g h))) =
    Game.obstaclesManager g /\
  Game.obstaclesManager (fst (Game.settle (Game.restartLevel g h))) =
    Game.obstaclesManager g /\
  Game.obstaclesManager (fst (Game.settle (Game.nextLevel g h))) =
    Game.obstaclesManager g.
Proof.
  unfold Game.startGame, Game.restartLevel, Game.nextLevel. cbv zeta.
  repeat split.
  - destruct (Levels.loadLevel _ _ _ h) as [[[s|e] m] c]; [|reflexivity].
    cbn. destruct (Game.player g) as [p|]; [|reflexivity].
    destruct (Player.respawn p h); reflexivity.
  - destruct (Levels.loadLevel _ _ _ h) as [[[s|e] m] c]; [|reflexivity].
    cbn. destruct (Game.player g) as [p|]; [|reflexivity].
    destruct (Player.respawn _ h); reflexivity.
  - destruct (_ =? _)%Z; [reflexivity|].
    destruct (Levels.loadLevel _ _ _ h) as [[[s|e] m] c]; [|reflexivity].
    cbn. destruct (Game.player g) as [p|]; [|reflexivity].
    destruct (Player.respawn _ h); reflexivity.
Qed.

Lemma step_obstacles (a : Game.Action) (g : Game.t) (h : Host.t) :
  Obstacles.obstacles (Game.obstaclesManager g) = [] ->
  Obstacles.obstacles (Game.obstaclesManager (fst (Game.step a g h))) = [].
Proof.
  intros H.
  destruct (settle_lifecycle_obstacles g h) as (L1 & L2 & L3).
  destruct a as [| |now| | | |key|key|now w|ms]; cbn [Game.step fst].
  - rewrite L1. exact H.
  - unfold Game.pauseGame. destruct (negb (Game.isRunning g)); exact H.
  - unfold Game.resumeGame. destruct (negb (Game.isRunning g)); exact H.
  - rewrite L2. exact H.
  - rewrite L3. exact H.
  - exact H.
  - unfold Game.handleKeyDown.
    destruct (negb (Game.isRunning g) || Game.isPaused g); [exact H|].
    destruct (String.eqb key "r" || String.eqb key "R"); [|exact H].
    rewrite L2. exact H.
  - exact H.
  - (* a frame *)
    unfold Game.update. cbv zeta.
    match goal with
    | |- context [if ?c then _ else _] => destruct c
    end; [exact H|].
    match goal with
    | |- context [Game.playerUpdate ?q h] =>
        pose proof (playerUpdate_keeps q h) as H1;
        destruct (Game.playerUpdate q h) as [g4 h4]
    end.
    cbn in H1. destruct H1 as (_ & _ & O1).
    pose proof (finishCheck_keeps g4 h4) as H2.
    destruct (Game.finishCheck g4 h4) as [r5 g5]. cbn [snd] in H2.
    destruct H2 as (_ & _ & O2).
    destruct r5 as [u|e]; [|cbn; rewrite O2, O1; exact H].
    pose proof (levelUpdate_keeps g5 h4) as H3.
    destruct (Game.levelUpdate g5 h4) as [r6 g6]. cbn [snd] in H3.
    destruct H3 as (_ & _ & O3).
    destruct r6 as [u6|e]; [|cbn; rewrite O3, O2, O1; exact H].
    assert (H6 : Obstacles.obstacles (Game.obstaclesManager g6) = [])
      by (rewrite O3, O2, O1; exact H).
    unfold Game.collectiblesUpdate.
    destruct (Game.player g6) as [p|].
    + destruct (Collectibles.update _ _ _ p h4) as [[[a1 m1] p1] h1].
      match goal with
      | |- context [Game.deliver h4 h1 ?q] =>
          assert (D : Game.obstaclesManager (Game.deliver h4 h1 q) =
                      Game.obstaclesManager q)
      end.
      { unfold Game.deliver.
        generalize (Game.since h4 h1). intros evs.
        match goal with
        | |- context [fold_left _ evs ?q] => generalize q
        end.
        induction evs as [|e evs IH]; intros q; [reflexivity|].
        cbn [fold_left]. rewrite IH.
        destruct (react_fields e q) as (_ & _ & _ & _ & _ & R6 & _). exact R6. }
      match goal with
      | |- context [Game.obstaclesUpdate ?q] =>
          pose proof (obstaclesUpdate_keeps q) as H5;
          destruct (Game.obstaclesUpdate q) as [r8 g8]
      end.
      cbn [snd fst] in *. destruct H5 as (_ & _ & O8).
      apply O8. rewrite D. cbn. exact H6.
    + pose proof (obstaclesUpdate_keeps g6) as H5.
      destruct (Game.obstaclesUpdate g6) as [r8 g8].
      cbn [snd fst] in *. destruct H5 as (_ & _ & O8).
      apply O8. exact H6.
  - unfold Game.pass. destruct (Game.player g) as [p|]; [|exact H].
    destruct (elapse ms p h). exact H.
Qed.

Lemma run_obstacles (l : list Game.Action) (g : Game.t) (h : Host.t) :
  Obstacles.obstacles (Game.obstaclesManager g) = [] ->
  Obstacles.obstacles (Game.obstaclesManager (fst (Game.run l g h))) = [].
Proof.
  revert g h. induction l as [|a l IH]; intros g h H; [exact H|].
  cbn [Game.run].
  pose proof (step_obstacles a g h H) as Hs.
  destruct (Game.step a g h) as [g1 h1]. apply IH. exact Hs.
Qed.

(** X26.  However the game is driven from its creation (menus, keys, frames
    and waiting, in any order), its obstacles manager never holds an
    obstacle: nothing in the program calls its factories, so no spike trap,
    pendulum, disappearing platform or vortex ever exists in a game.  The
    obstacles block of a frame therefore ends normally and leaves the ball
    alone. *)
Theorem game_never_holds_an_obstacle (l : list Game.Action) :
  let '(g, h) := Game.run l Game.create Host.init in
  Obstacles.obstacles (Game.obstaclesManager g) = [] /\
  fst (Game.obstaclesUpdate g) = Ok tt /\
  Game.player (snd (Game.obstaclesUpdate g)) = Game.player g.
Proof.
  pose proof (run_obstacles l Game.create Host.init eq_refl) as H.
  destruct (Game.run l Game.create Host.init) as [g h]. cbn [fst] in H.
  split; [exact H|].
  destruct (obstaclesUpdate_keeps g) as (_ & _ & Ho).
  destruct (Ho H) as (_ & H2 & H3). split; assumption.
Qed.

Lemma collected_le_count (m : CollectiblesManager.t) :
  (Collectibles.getCollectedCoins m <= Collectibles.getCoinCount m)%nat.
Proof.
  unfold Collectibles.getCollectedCoins, Collectibles.getCoinCount.
  induction (CollectiblesManager.collectibles m) as [|c l IH]; cbn; [lia|].
  destruct (Collectibles.isCoin c); cbn; [|exact IH].
  destruct (Collectible.collected c); cbn; lia.
Qed.

Lemma step_score (a : Game.Action) (g : Game.t) (h : Host.t) :
  playing a ->
  wired g ->
  coinsWorthTen (CollectiblesManager.collectibles (Game.collectiblesManager g)) ->
  let '(g', h') := Game.step a g h in
  Game.score g' + 10 * INR (collectedCoins g) =
    Game.score g + 10 * INR (collectedCoins g') /\
  (collectedCoins g <= collectedCoins g')%nat /\
  Collectibles.getCoinCount (Game.collectiblesManager g') =
    Collectibles.getCoinCount (Game.collectiblesManager g) /\
  wired g' /\
  coinsWorthTen (CollectiblesManager.collectibles (Game.collectiblesManager g')).
Proof.
  intros Hp Hk Hw.
  destruct a as [| |now| | | |key|key|now w|ms]; cbn [Game.step playing] in *;
    try contradiction.
  - unfold Game.pauseGame. destruct (negb (Game.isRunning g));
      repeat split; auto; lra.
  - unfold Game.resumeGame. destruct (negb (Game.isRunning g));
      repeat split; auto; lra.
  - repeat split; auto; lra.
  - unfold Game.handleKeyDown. destruct Hp as [Hr HR].
    destruct (negb (Game.isRunning g) || Game.isPaused g);
      [repeat split; auto; lra|].
    rewrite (proj2 (String.eqb_neq key "r") Hr).
    rewrite (proj2 (String.eqb_neq key "R") HR).
    repeat split; auto; lra.
  - repeat split; auto; lra.
  - pose proof (update_frame now w g h Hk Hw) as H.
    unfold Game.settle.
    destruct (Game.update now w g h) as [[r g'] h'].
    destruct H as (H1 & H2 & H3 & H4 & H5 & _). auto.
  - unfold Game.pass. destruct (Game.player g) as [p|];
      [|repeat split; auto; lra].
    destruct (elapse ms p h) as [p1 h1]. repeat split; auto; lra.
Qed.

(** X27.  While a level is played (frames, keys other than r, pause and
    resume, quitting, waiting) the score grows by exactly ten points for
    every coin collected, whatever else happens in the frames, including
    frames that end in an exception.  It holds for every game whose coins
    are worth ten, as the levels make them, and whose coin callback is the
    one of the game; the collected count never falls and never passes the
    number of coins of the level, which stays as it is. *)
Theorem score_is_ten_per_coin
  (l : list Game.Action) (g : Game.t) (h : Host.t) :
  wired g ->
  coinsWorthTen (CollectiblesManager.collectibles (Game.collectiblesManager g)) ->
  Forall playing l ->
  let '(g', h') := Game.run l g h in
  Game.score g' =
    Game.score g + 10 * (INR (collectedCoins g') - INR (collectedCoins g)) /\
  (collectedCoins g <= collectedCoins g')%nat /\
  (collectedCoins g' <= Collectibles.getCoinCount (Game.collectiblesManager g))%nat /\
  Collectibles.getCoinCount (Game.collectiblesManager g') =
    Collectibles.getCoinCount (Game.collectiblesManager g) /\
  wired g' /\
  coinsWorthTen (CollectiblesManager.collectibles (Game.collectiblesManager g')).
Proof.
  intros Hk Hw Hl. revert g h Hk Hw.
  induction Hl as [|a l Ha Hl IH]; intros g h Hk Hw.
  - cbn. repeat split; auto; try lra. apply collected_le_count.
  - cbn [Game.run].
    pose proof (step_score a g h Ha Hk Hw) as Hs.
    destruct (Game.step a g h) as [g1 h1].
    destruct Hs as (S1 & S2 & S3 & S4 & S5).
    specialize (IH g1 h1 S4 S5).
    destruct (Game.run l g1 h1) as [g' h'].
    destruct IH as (I1 & I2 & I3 & I4 & I5 & I6).
    repeat split; try assumption; try lia; try lra.
Qed.

Lemma score_is_ten_per_coin_witness :
  let '(g', h') :=
    Game.run [Game.KeyDown "w"; Game.Tick 16 stillFrame] gameOnCoin Host.init in
  Game.score g' =
    Game.score gameOnCoin +
    10 * (INR (collectedCoins g') - INR (collectedCoins gameOnCoin)).
Proof.
  assert (Hk : wired gameOnCoin) by reflexivity.
  assert (Hw : coinsWorthTen
                 (CollectiblesManager.collectibles
                    (Game.collectiblesManager gameOnCoin))).
  { unfold coinsWorthTen. cbn.
    repeat (constructor; [cbn; intros; try reflexivity; discriminate|]).
    constructor. }
  assert (Hl : Forall playing [Game.KeyDown "w"; Game.Tick 16 stillFrame]).
  { constructor; [cbn; split; discriminate|].
    constructor; [exact I|constructor]. }
  pose proof (score_is_ten_per_coin _ gameOnCoin Host.init Hk Hw Hl) as H.
  destruct (Game.run [Game.KeyDown "w"; Game.Tick 16 stillFrame] gameOnCoin
              Host.init) as [g' h'].
  destruct H as [H _]. exact H.
Defined.
















(** * Properties of the audio settings *)

Lemma clamp_unit (v : R) :
  0 <= Math_max 0 (Math_min 1 v) <= 1 /\
  (0 < v -> 0 < Math_max 0 (Math_min 1 v)) /\
  (v <= 0 -> Math_max 0 (Math_min 1 v) = 0) /\
  (1 <= v -> Math_max 0 (Math_min 1 v) = 1) /\
  (0 <= v <= 1 -> Math_max 0 (Math_min 1 v) = v).
Proof.
  unfold Math_max, Math_min, Rmax, Rmin.
  destruct (Rle_dec 1 v); destruct (Rle_dec 0 _); repeat split; intros; lra.
Qed.

(** X29.  A change of the master volume undoes the mute.  [setMuted(true)]
    silences the master gain, but [setMasterVolume] writes the new volume
    to the gain without looking at the mute flag: afterwards the flag still
    says muted while the output plays at the new volume, which is the
    argument clamped to the range 0 to 1.  Unmuting puts the gain on the
    stored volume. *)
Theorem master_volume_overrides_mute (a : Audio.t) (v gain : R) :
  Audio.stubbed a = false ->
  Audio.masterGain a = Some gain ->
  let muted := Audio.setMuted true a in
  let a' := Audio.setMasterVolume v muted in
  Audio.masterGain muted = Some 0 /\
  Audio.masterVolume muted = Audio.masterVolume a /\
  Audio.isMuted a' = true /\
  Audio.masterGain a' = Some (Audio.masterVolume a') /\
  0 <= Audio.masterVolume a' <= 1 /\
  (0 < v -> 0 < Audio.masterVolume a') /\
  (v <= 0 -> Audio.masterVolume a' = 0) /\
  (1 <= v -> Audio.masterVolume a' = 1) /\
  (0 <= v <= 1 -> Audio.masterVolume a' = v) /\
  Audio.masterGain (Audio.setMuted false a') = Some (Audio.masterVolume a').
Proof.
  intros Hs Hg. cbn zeta.
  unfold Audio.setMasterVolume, Audio.setMuted. cbn. rewrite Hs, Hg. cbn.
  destruct (clamp_unit v) as (C1 & C2 & C3 & C4 & C5).
  repeat split; try reflexivity; try apply C1; assumption.
Qed.

Lemma master_volume_overrides_mute_witness :
  let a' := Audio.setMasterVolume (1/2) (Audio.setMuted true (Audio.create true)) in
  Audio.isMuted a' = true /\ Audio.masterGain a' = Some (Audio.masterVolume a') /\
  0 < Audio.masterVolume a'.
Proof.
  cbn zeta.
  destruct (master_volume_overrides_mute (Audio.create true) (1/2) (7/10)
              eq_refl eq_refl)
    as (_ & _ & H1 & H2 & _ & H3 & _).
  split; [exact H1|]. split; [exact H2|]. apply H3. lra.
Defined.
